(** * hybridreality: the static frontend dispatcher and the HTTP entry point

    A shallow embedding of [vite-express-handler.js] (the dispatcher that
    serves the two Vite builds) and of the server entry point that mounts
    the API middleware, the status route, the API error handler and the
    process-level rejection handler.

    Request paths, file names and header values are [string]s; one
    character of the model stands for one code unit of the JavaScript
    string.  The file system is a finite map from the path strings the
    process may ask about to what [stat] finds there. *)

From Stdlib Require Import ZArith List Ascii Bool Lia.
From Stdlib Require DecimalString.
From stdpp Require Import base option gmap strings.

Local Open Scope Z_scope.

(** ** JavaScript strings *)

Module JsString.

(** [s.startsWith(pre)] *)
Definition startsWith (s pre : string) : bool := String.prefix pre s.

(** [s.endsWith(suf)]: [suf] is [s] itself or a suffix of its tail. *)
Fixpoint endsWith (s suf : string) : bool :=
  String.eqb s suf ||
  match s with
  | EmptyString => false
  | String _ s' => endsWith s' suf
  end.

(** [s.substring(n)] with one argument: the string from index [n] on. *)
Fixpoint substring (n : nat) (s : string) : string :=
  match n, s with
  | O, _ => s
  | S n', String _ s' => substring n' s'
  | S _, EmptyString => EmptyString
  end.

(** A string is falsy exactly when it is empty. *)
Definition truthy (s : string) : bool :=
  match s with
  | EmptyString => false
  | String _ _ => true
  end.

(** [a || b] on strings. *)
Definition or_else (a b : string) : string := if truthy a then a else b.

(** ASCII lower case, the folding a regular expression with flag [i]
    applies to the ASCII letters of a pattern. *)
Definition lower (c : ascii) : ascii :=
  let n := nat_of_ascii c in
  if ((65 <=? n)%nat && (n <=? 90)%nat)%bool then ascii_of_nat (n + 32) else c.

Fixpoint lowercase (s : string) : string :=
  match s with
  | EmptyString => EmptyString
  | String c s' => String (lower c) (lowercase s')
  end.

(** [s] starts with [pre] up to ASCII letter case. *)
Definition startsWith_ci (s pre : string) : bool :=
  String.prefix (lowercase pre) (lowercase s).

(** The last two characters of a string, when it has that many. *)
Fixpoint lastTwo (s : string) : option (ascii * ascii) :=
  match s with
  | String a (String b EmptyString) => Some (a, b)
  | String _ rest => lastTwo rest
  | EmptyString => None
  end.

End JsString.

(** ** [Date.prototype.toISOString] and [Date.parse]

    A time value is the number of milliseconds since the epoch, a [Z]. *)

Module JsDate.

Definition msPerDay : Z := 86400000.

(** The largest time value a [Date] can hold, in either direction. *)
Definition maxTime : Z := 8640000000000000.

Definition validTime (t : Z) : Prop := - maxTime <= t <= maxTime.

(** Year, month (1 to 12) and day of the month of a day number counted
    from the epoch, in the proleptic Gregorian calendar.  Years are
    counted from the first of March within cycles of 400 years
    (146097 days). *)
Definition civilFromDays (days : Z) : Z * Z * Z :=
  let z := days + 719468 in
  let era := z / 146097 in
  let doe := z mod 146097 in
  let yoe := (doe - doe / 1460 + doe / 36524 - doe / 146096) / 365 in
  let doy := doe - (365 * yoe + yoe / 4 - yoe / 100) in
  let mp := (5 * doy + 2) / 153 in
  let d := doy - (153 * mp + 2) / 5 + 1 in
  let m := if mp <? 10 then mp + 3 else mp - 9 in
  let y := yoe + era * 400 + (if m <=? 2 then 1 else 0) in
  (y, m, d).

(** The day number of a date. *)
Definition daysFromCivil (y m d : Z) : Z :=
  let y' := y - (if m <=? 2 then 1 else 0) in
  let era := y' / 400 in
  let yoe := y' mod 400 in
  let mp := if 2 <? m then m - 3 else m + 9 in
  let doy := (153 * mp + 2) / 5 + d - 1 in
  let doe := yoe * 365 + yoe / 4 - yoe / 100 + doy in
  era * 146097 + doe - 719468.

Definition isLeap (y : Z) : bool :=
  ((y mod 4 =? 0) && (negb (y mod 100 =? 0) || (y mod 400 =? 0)))%bool.

Definition daysInMonth (y m : Z) : Z :=
  if m =? 2 then (if isLeap y then 29 else 28)
  else if ((m =? 4) || (m =? 6) || (m =? 9) || (m =? 11))%bool then 30
  else 31.

Definition digit (n : Z) : ascii := ascii_of_nat (48 + Z.to_nat (n mod 10)).

(** The last [k] decimal digits of [n], the most significant first. *)
Fixpoint padded (k : nat) (n : Z) : string :=
  match k with
  | O => EmptyString
  | S k' => padded k' (n / 10) +:+ String (digit n) EmptyString
  end.

(** Four digits for the years 0 to 9999, a sign and six digits for the
    others. *)
Definition yearString (y : Z) : string :=
  if ((0 <=? y) && (y <=? 9999))%bool then padded 4 y
  else (if y <? 0 then "-" else "+") +:+ padded 6 (Z.abs y).

Definition toISOString (t : Z) : string :=
  let ms := t mod msPerDay in
  let '(y, m, d) := civilFromDays (t / msPerDay) in
  yearString y +:+ "-" +:+ padded 2 m +:+ "-" +:+ padded 2 d
  +:+ "T" +:+ padded 2 (ms / 3600000)
  +:+ ":" +:+ padded 2 (ms / 60000 mod 60)
  +:+ ":" +:+ padded 2 (ms / 1000 mod 60)
  +:+ "." +:+ padded 3 (ms mod 1000) +:+ "Z".

(** Reading the format back. *)
Definition digitValue (c : ascii) : option Z :=
  let n := nat_of_ascii c in
  if ((48 <=? n)%nat && (n <=? 57)%nat)%bool then Some (Z.of_nat n - 48)
  else None.

(** Exactly [k] digits, read after the value [acc] of the digits before
    them. *)
Fixpoint number (k : nat) (acc : Z) (s : string) : option (Z * string) :=
  match k with
  | O => Some (acc, s)
  | S k' =>
      match s with
      | EmptyString => None
      | String c rest =>
          match digitValue c with
          | Some v => number k' (10 * acc + v) rest
          | None => None
          end
      end
  end.

Definition expect (c : ascii) (s : string) : option string :=
  match s with
  | String c' rest => if Ascii.eqb c c' then Some rest else None
  | EmptyString => None
  end.

Definition year (s : string) : option (Z * string) :=
  match s with
  | String c rest =>
      if Ascii.eqb c "+" then number 6 0 rest
      else if Ascii.eqb c "-" then
        match number 6 0 rest with
        | Some (y, rest') => if y =? 0 then None else Some (- y, rest')
        | None => None
        end
      else number 4 0 s
  | EmptyString => None
  end.

Definition within (lo hi v : Z) : option unit :=
  if ((lo <=? v) && (v <=? hi))%bool then Some tt else None.

(** The time value of a string in the ISO 8601 date-time format
    [YYYY-MM-DDTHH:mm:ss.sssZ] (with the signed six-digit year where
    four digits do not do); [None] for any other string and for fields
    out of range. *)
Definition parse (s : string) : option Z :=
  '(y, s) ← year s;
  s ← expect "-" s;
  '(m, s) ← number 2 0 s;
  _ ← within 1 12 m;
  s ← expect "-" s;
  '(d, s) ← number 2 0 s;
  _ ← within 1 (daysInMonth y m) d;
  s ← expect "T" s;
  '(hh, s) ← number 2 0 s;
  _ ← within 0 23 hh;
  s ← expect ":" s;
  '(mm, s) ← number 2 0 s;
  _ ← within 0 59 mm;
  s ← expect ":" s;
  '(ss, s) ← number 2 0 s;
  _ ← within 0 59 ss;
  s ← expect "." s;
  '(ms, s) ← number 3 0 s;
  s ← expect "Z" s;
  if String.eqb s "" then
    Some (daysFromCivil y m d * msPerDay
          + hh * 3600000 + mm * 60000 + ss * 1000 + ms)
  else None.

End JsDate.

(** ** Node's [path] module (POSIX flavour) *)

Module NodePath.
Import JsString.

(** The segments between the slashes of a path; a path of [n] slashes
    has [n + 1] segments, some of them possibly empty. *)
Fixpoint split (s : string) : list string :=
  match s with
  | EmptyString => [EmptyString]
  | String c s' =>
      if Ascii.eqb c "/" then EmptyString :: split s'
      else match split s' with
           | seg :: rest => String c seg :: rest
           | [] => [String c EmptyString]
           end
  end.

(** Segments put back together with single slashes. *)
Fixpoint unsplit (segs : list string) : string :=
  match segs with
  | [] => EmptyString
  | [seg] => seg
  | seg :: rest => seg +:+ "/" +:+ unsplit rest
  end.

(** [normalizeString]: the segment stack [res] is kept in reverse.
    Empty and [.] segments are dropped; [..] removes the segment before
    it, or is kept when nothing is left to remove and the path is
    relative. *)
Fixpoint normalizeString (allowAboveRoot : bool) (res segs : list string)
  : list string :=
  match segs with
  | [] => res
  | seg :: segs' =>
      if (String.eqb seg "" || String.eqb seg ".")%bool then
        normalizeString allowAboveRoot res segs'
      else if String.eqb seg ".." then
        match res with
        | top :: res' =>
            if String.eqb top ".." then
              normalizeString allowAboveRoot
                (if allowAboveRoot then ".." :: res else res) segs'
            else normalizeString allowAboveRoot res' segs'
        | [] =>
            normalizeString allowAboveRoot
              (if allowAboveRoot then [".."] else []) segs'
        end
      else normalizeString allowAboveRoot (seg :: res) segs'
  end.

Definition lastIsSlash (s : string) : bool := endsWith s "/".

(** [path.normalize] *)
Definition normalize (p : string) : string :=
  match p with
  | EmptyString => "."
  | String c _ =>
      let isAbsolute := Ascii.eqb c "/" in
      let trailingSeparator := lastIsSlash p in
      let body := unsplit (rev (normalizeString (negb isAbsolute) [] (split p))) in
      if truthy body then
        let body' := if trailingSeparator then body +:+ "/" else body in
        if isAbsolute then "/" +:+ body' else body'
      else if isAbsolute then "/"
      else if trailingSeparator then "./" else "."
  end.

(** The arguments of [path.join] glued with slashes, empty ones skipped;
    [None] when there is nothing to glue. *)
Fixpoint glue (args : list string) : option string :=
  match args with
  | [] => None
  | a :: rest =>
      if truthy a then
        match glue rest with
        | Some r => Some (a +:+ "/" +:+ r)
        | None => Some a
        end
      else glue rest
  end.

(** [path.join(...args)] *)
Definition join (args : list string) : string :=
  match glue args with
  | Some joined => normalize joined
  | None => "."
  end.

(** [path.dirname] works from the end of the path: trailing slashes are
    skipped, then the characters of the last segment, and the directory
    is what precedes the slash found next (index 0 is never inspected).
    [dirnameEnd] scans the path reversed with its first character taken
    off, and returns what is left before that slash, still reversed. *)
Fixpoint dirnameEnd (matchedSlash : bool) (rv : list ascii) : option (list ascii) :=
  match rv with
  | [] => None
  | c :: rv' =>
      if Ascii.eqb c "/" then
        if matchedSlash then dirnameEnd true rv' else Some rv'
      else dirnameEnd false rv'
  end.

Definition dirname (p : string) : string :=
  match p with
  | EmptyString => "."
  | String c0 rest =>
      let hasRoot := Ascii.eqb c0 "/" in
      match dirnameEnd true (rev (String.list_ascii_of_string rest)) with
      | None => if hasRoot then "/" else "."
      | Some before =>
          match before with
          | [] => if hasRoot then "//" else String c0 EmptyString
          | _ => String c0 (String.string_of_list_ascii (rev before))
          end
      end
  end.

(** The last segment of a path once its trailing slashes are gone. *)
Fixpoint dropSlashes (rv : list ascii) : list ascii :=
  match rv with
  | c :: rv' => if Ascii.eqb c "/" then dropSlashes rv' else rv
  | [] => []
  end.

Fixpoint takeSegment (rv : list ascii) : list ascii :=
  match rv with
  | c :: rv' => if Ascii.eqb c "/" then [] else c :: takeSegment rv'
  | [] => []
  end.

Definition basenameRev (p : string) : list ascii :=
  takeSegment (dropSlashes (rev (String.list_ascii_of_string p))).

(** Reading a reversed segment up to its last dot: the characters after
    that dot (in order) and the reversed characters before it. *)
Fixpoint splitLastDot (rv acc : list ascii) : option (list ascii * list ascii) :=
  match rv with
  | [] => None
  | c :: rv' =>
      if Ascii.eqb c "." then Some (acc, rv')
      else splitLastDot rv' (c :: acc)
  end.

(** [path.extname]: from the last dot of the last segment to its end;
    empty when there is no dot, when the only dot opens the segment, or
    when the segment is [..]. *)
Definition extname (p : string) : string :=
  match splitLastDot (basenameRev p) [] with
  | None => ""
  | Some (after, before) =>
      match before, after with
      | [], _ => ""
      | [d], [] => if Ascii.eqb d "." then "" else "."
      | _, _ => String "." (String.string_of_list_ascii after)
      end
  end.

End NodePath.

(** ** Objects handed to [res.json] *)

(** The objects of this program are flat: a list of properties, in the
    order of the literal, whose values are primitive. *)
Inductive jsvalue : Type :=
| JUndefined
| JBool (b : bool)
| JNum (n : Z)
| JStr (s : string).

Definition json : Type := list (string * jsvalue).



(** ** The file system as the handlers observe it *)

Inductive node : Type :=
| File (contents : string)
| Dir.

(** [fs.existsSync]: a file or a directory is there. *)
Definition existsSync (fs : gmap string node) (p : string) : bool :=
  bool_decide (is_Some (fs !! p)).

(** ** The Express response object

    The handlers act on [res] through [status], [set], [send], [json] and
    [sendFile]; each is a function from the response so far to the
    response after the call.  A fresh response has status 200, no header
    and no body. *)

Inductive payload : Type :=
| NoBody
| Text (s : string)          (* [res.send] of a string *)
| Json (j : json)            (* [res.json] *)
| FileAt (p : string).       (* [res.sendFile] of [p]; what it streams: [Flow.streams] *)

Record response : Type := mkResponse {
  statusCode : Z;
  headers : gmap string string;
  body : payload
}.

Definition freshResponse : response :=
  {| statusCode := 200; headers := ∅; body := NoBody |}.

Definition res_status (code : Z) (res : response) : response :=
  {| statusCode := code; headers := headers res; body := body res |}.

Definition res_set (name value : string) (res : response) : response :=
  {| statusCode := statusCode res;
     headers := <[name := value]> (headers res);
     body := body res |}.

Definition res_send (s : string) (res : response) : response :=
  {| statusCode := statusCode res; headers := headers res; body := Text s |}.

Definition res_json (j : json) (res : response) : response :=
  {| statusCode := statusCode res; headers := headers res; body := Json j |}.

Definition res_sendFile (p : string) (res : response) : response :=
  {| statusCode := statusCode res; headers := headers res; body := FileAt p |}.

(** The bytes a client receives for a response, when its body is a text or
    a regular file. *)
Definition transmitted (fs : gmap string node) (res : response) : option string :=
  match body res with
  | Text s => Some s
  | FileAt p =>
      match fs !! p with
      | Some (File contents) => Some contents
      | _ => None
      end
  | _ => None
  end.

(** An error object as the handlers read it: [err.status], [err.message]
    and [err.stack], each possibly [undefined]. *)
Record error : Type := mkError {
  status : option Z;
  message : option string;
  stack : option string
}.

(** What a handler does with a request: it answers; or it calls [next()]
    and the request goes on to the next matching layer, with the response
    object as the handler left it; or it throws or calls [next(err)]. *)
Inductive outcome : Type :=
| Responded (res : response)
| Next (res : response)
| Failed (err : error) (res : response).

(** ** Express routing *)

Module Express.
Import JsString.

(** The literal part of a route pattern that ends in a star. *)
Fixpoint beforeStar (pat : string) : option string :=
  match pat with
  | EmptyString => None
  | String c rest =>
      if Ascii.eqb c "*" then Some EmptyString
      else option_map (String c) (beforeStar rest)
  end.

(** [app.get(pattern, ...)]: whether a request path matches the pattern.
    The patterns of this program are literal characters, with a star at
    the end or no star at all.  Express compiles them to a regular
    expression with flag [i], anchored at both ends, in which the star
    stands for any rest and a final slash is optional: with a star the
    path has to start with the literal part up to letter case, without
    one it has to equal the pattern up to letter case and a final
    slash.  (This is the match of the expression alone; the decoding of
    the text a star stands for, which follows it, is the matter of
    [PathShape.noPercent].) *)
Definition routeMatches (pat reqPath : string) : bool :=
  match beforeStar pat with
  | Some literal => startsWith_ci reqPath literal
  | None =>
      (String.eqb (lowercase reqPath) (lowercase pat)
       || String.eqb (lowercase reqPath) (lowercase pat +:+ "/"))%bool
  end.

(** [app.use(mount, ...)]: the layer sees the paths that are the mount
    path, up to letter case, or continue it with a slash; a layer used
    without a path is mounted at [/] and sees every path. *)
Definition mounted (mount reqPath : string) : bool :=
  if String.eqb mount "/" then true
  else
    (startsWith_ci reqPath mount
     && (let rest := substring (String.length mount) reqPath in
         negb (truthy rest) || startsWith rest "/"))%bool.

End Express.

(** ** vite-express-handler.js *)

Module Vite.
Import JsString.

(** The [options] argument; a field left out is [None]. *)
Record options : Type := mkOptions {
  userDistPath : option string;
  adminDistPath : option string;
  adminPathPrefix : option string;
  rootDir : option string
}.

(** The answer of a route that finds nothing to serve. *)
Definition notFound (res : response) : response :=
  res_send "Not found" (res_status 404 res).

Section Dispatcher.
(** [mime.lookup] of the mime-types package: the type registered for
    the extension of a path, or [false] ([None]). *)
Variable mime_lookup : string -> option string.
(** The file system and [process.cwd()]. *)
Variable fs : gmap string node.
Variable cwd : string.
Variable opts : options.

(** The destructuring defaults of [setupViteFrontends]. *)
Definition userDist : string := default "user_dist" (userDistPath opts).
Definition adminDist : string := default "admin_dist" (adminDistPath opts).
Definition adminPrefix : string := default "/admin" (adminPathPrefix opts).
Definition root : string := default cwd (rootDir opts).

Definition userDistFullPath : string := NodePath.join [root; userDist].
Definition adminDistFullPath : string := NodePath.join [root; adminDist].

Definition getMimeType (filePath : string) : string :=
  if (endsWith filePath ".js" || endsWith filePath ".mjs")%bool then
    "application/javascript"
  else if endsWith filePath ".css" then "text/css"
  else if endsWith filePath ".html" then "text/html"
  else if endsWith filePath ".svg" then "image/svg+xml"
  else if endsWith filePath ".json" then "application/json"
  else
    match mime_lookup filePath with
    | Some t => or_else t "application/octet-stream"
    | None => "application/octet-stream"
    end.

Definition serveFile (res : response) (filePath : string)
           (fallbackToIndex : bool) : response :=
  if existsSync fs filePath then
    let mimeType := getMimeType filePath in
    res_sendFile filePath (res_set "Content-Type" mimeType res)
  else if fallbackToIndex then
    let indexPath := NodePath.join [NodePath.dirname filePath; "index.html"] in
    if existsSync fs indexPath then
      res_sendFile indexPath (res_set "Content-Type" "text/html" res)
    else res_send "Not found" (res_status 404 res)
  else res_send "Not found" (res_status 404 res).

(** The handler [handleAssets] registers at [urlPrefix/assets/*]. *)
Definition assetsRoute (distPath urlPrefix reqPath : string)
           (res : response) : outcome :=
  let assetPath :=
    substring (String.length (urlPrefix +:+ "/assets/")) reqPath in
  let fullAssetPath := NodePath.join [distPath; "assets"; assetPath] in
  Responded (serveFile res fullAssetPath false).

(** The handler [handleAssets] registers at [urlPrefix/*]. *)
Definition staticRoute (distPath urlPrefix reqPath : string)
           (res : response) : outcome :=
  if startsWith reqPath "/api/" then Next res
  else
    let filePath := or_else (substring (String.length urlPrefix) reqPath) "/" in
    let fullPath := NodePath.join [distPath; filePath] in
    let indexPath := NodePath.join [distPath; filePath; "index.html"] in
    if ((endsWith filePath "/" || negb (truthy (NodePath.extname filePath)))
        && existsSync fs indexPath)%bool
    then Responded (serveFile res indexPath false)
    else Responded (serveFile res fullPath true).

(** The last route, [app.get('*')]. *)
Definition fallbackRoute (reqPath : string) (res : response) : outcome :=
  if startsWith reqPath "/api/" then
    Responded (res_json [("error", JStr "API endpoint not found")]
                        (res_status 404 res))
  else
    let adminIndex := NodePath.join [adminDistFullPath; "index.html"] in
    if (startsWith reqPath adminPrefix && existsSync fs adminIndex)%bool then
      Responded (serveFile res adminIndex false)
    else
      let indexPath := NodePath.join [userDistFullPath; "index.html"] in
      if existsSync fs indexPath then
        Responded (serveFile res indexPath false)
      else Responded (res_send "Not found" (res_status 404 res)).

(** A GET route: the pattern it is registered with and its handler,
    which reads [req.path]. *)
Record route : Type := mkRoute {
  pattern : string;
  handler : string -> response -> outcome
}.

Definition handleAssets (distPath urlPrefix : string) : list route :=
  [ {| pattern := urlPrefix +:+ "/assets/*";
       handler := assetsRoute distPath urlPrefix |};
    {| pattern := urlPrefix +:+ "/*";
       handler := staticRoute distPath urlPrefix |} ].

(** The routes [setupViteFrontends] adds to the application, in the
    order of registration. *)
Definition setupViteFrontends : list route :=
  handleAssets adminDistFullPath adminPrefix
  ++ handleAssets userDistFullPath ""
  ++ [ {| pattern := "*"; handler := fallbackRoute |} ].

(** Express offers a GET request to the routes in order of
    registration; [None] when every matching route passed it on or
    failed. *)
Fixpoint dispatch (routes : list route) (reqPath : string)
         (res : response) : option response :=
  match routes with
  | [] => None
  | r :: rest =>
      if Express.routeMatches (pattern r) reqPath then
        match handler r reqPath res with
        | Responded res' => Some res'
        | Next res' => dispatch rest reqPath res'
        | Failed _ _ => None
        end
      else dispatch rest reqPath res
  end.

Definition get (reqPath : string) : option response :=
  dispatch setupViteFrontends reqPath freshResponse.

End Dispatcher.
End Vite.

(** ** The server entry point *)

Module Server.
Import JsString.

(** What the middleware of this program reads of a request: the method,
    [req.path], [req.ip] (the client identity the rate limiter counts
    by), the media type of the [Content-Type] header (lower case,
    parameters removed) and the length of the decoded body in bytes
    ([None] for a request without a body). *)
Record request : Type := mkRequest {
  method : string;
  path : string;
  ip : string;
  contentType : option string;
  bodyLength : option Z
}.

(** A line on the console. *)
Inductive entry : Type :=
| Log (text : string)
| ErrorLog (text : option string) (err : error).

(** The state of the process: the clock, [process.env], the memory store
    of the rate limiter (per client, the hits of the running window and
    the time the window ends), the console, and the exit code once
    [process.exit] was called. *)
Record world : Type := mkWorld {
  now : Z;
  env : gmap string string;
  hits : gmap string (Z * Z);
  console : list entry;
  exitCode : option Z
}.

Definition setHits (h : gmap string (Z * Z)) (w : world) : world :=
  {| now := now w; env := env w; hits := h;
     console := console w; exitCode := exitCode w |}.

(** [console.log], [console.error]: a line is added while the process
    runs. *)
Definition write (e : entry) (w : world) : world :=
  match exitCode w with
  | Some _ => w
  | None =>
      {| now := now w; env := env w; hits := hits w;
         console := console w ++ [e]; exitCode := None |}
  end.

(** [process.exit(code)] ends the process at once; nothing runs after
    it. *)
Definition exit (code : Z) (w : world) : world :=
  match exitCode w with
  | Some _ => w
  | None =>
      {| now := now w; env := env w; hits := hits w;
         console := console w; exitCode := Some code |}
  end.

Definition middleware : Type := request -> world -> response -> world * outcome.

(** A middleware that does not touch the state of the process. *)
Definition pure (f : request -> response -> outcome) : middleware :=
  fun req w res => (w, f req res).

(** *** express-rate-limit *)

Record rateLimitOptions : Type := mkRateLimitOptions {
  windowMs : Z;
  max : Z;
  standardHeaders : bool;
  legacyHeaders : bool;
  limitMessage : json
}.

Definition showZ (n : Z) : string :=
  DecimalString.NilZero.string_of_int (Z.to_int n).

(** Division rounded up, [Math.ceil(a / b)] for a positive [b]. *)
Definition ceilDiv (a b : Z) : Z := - ((- a) / b).

(** The memory store counts a hit: a client seen for the first time, or
    again after its window ended, starts a window of [windowMs]. *)
Definition increment (o : rateLimitOptions) (key : string) (w : world)
  : Z * Z :=
  match hits w !! key with
  | Some (totalHits, resetTime) =>
      if now w <? resetTime then (totalHits + 1, resetTime)
      else (1, now w + windowMs o)
  | None => (1, now w + windowMs o)
  end.

Definition legacyRateHeaders (o : rateLimitOptions) (remaining resetTime : Z)
           (res : response) : response :=
  res_set "X-RateLimit-Reset" (showZ (ceilDiv resetTime 1000))
    (res_set "X-RateLimit-Remaining" (showZ remaining)
      (res_set "X-RateLimit-Limit" (showZ (max o)) res)).

Definition standardRateHeaders (o : rateLimitOptions)
           (remaining resetTime current : Z) (res : response) : response :=
  res_set "RateLimit-Reset"
    (showZ (Z.max 0 (ceilDiv (resetTime - current) 1000)))
    (res_set "RateLimit-Remaining" (showZ remaining)
      (res_set "RateLimit-Limit" (showZ (max o)) res)).

(** [rateLimit(options)]: the middleware counts the request for the
    client, sets the headers the options ask for and, when the client is
    over the maximum, answers 429 with the configured message instead
    of passing the request on. *)
Definition rateLimit (o : rateLimitOptions) : middleware :=
  fun req w res =>
    let '(totalHits, resetTime) := increment o (ip req) w in
    let w' := setHits (<[ip req := (totalHits, resetTime)]> (hits w)) w in
    let remaining := Z.max (max o - totalHits) 0 in
    let res1 :=
      if legacyHeaders o then legacyRateHeaders o remaining resetTime res
      else res in
    let res2 :=
      if standardHeaders o
      then standardRateHeaders o remaining resetTime (now w) res1
      else res1 in
    if max o <? totalHits then
      let res3 :=
        if (legacyHeaders o || standardHeaders o)%bool
        then res_set "Retry-After" (showZ (ceilDiv (windowMs o) 1000)) res2
        else res2 in
      (w', Responded (res_json (limitMessage o) (res_status 429 res3)))
    else (w', Next res2).

Definition tooManyRequests : json :=
  [("success", JBool false);
   ("message", JStr "Too many requests, please try again later.")].

Definition limiterOptions : rateLimitOptions :=
  {| windowMs := 15 * 60 * 1000;
     max := 500;
     standardHeaders := true;
     legacyHeaders := false;
     limitMessage := tooManyRequests |}.

Definition limiter : middleware := rateLimit limiterOptions.

(** *** body-parser *)

(** The byte count of a limit written with the unit [mb]. *)
Definition mb (n : Z) : Z := n * 1024 * 1024.

Section BodyParser.
(** The stack trace the runtime attaches to an error it creates. *)
Variable traceOf : string -> option string.
(** What the parser makes of a body within the limit: [None] when it
    parses, the error otherwise. *)
Variable parseBody : request -> option error.

(** The error of a body over the limit. *)
Definition tooLarge : error :=
  {| status := Some 413;
     message := Some "request entity too large";
     stack := traceOf "request entity too large" |}.

(** [express.json] and [express.urlencoded] share their frame: a
    request without a body or of another media type is passed on
    untouched; a body over the limit fails with status 413 before it is
    parsed. *)
Definition bodyParser (mediaType : string) (limit : Z) : middleware :=
  fun req w res =>
    match bodyLength req with
    | None => (w, Next res)
    | Some len =>
        if bool_decide (contentType req = Some mediaType) then
          if limit <? len then (w, Failed tooLarge res)
          else
            match parseBody req with
            | Some err => (w, Failed err res)
            | None => (w, Next res)
            end
        else (w, Next res)
    end.
End BodyParser.

(** *** helmet, compression

    [helmet()] adds its headers and passes the request on;
    [compression()] passes it on (what it does to the encoding of the
    body is outside this model). *)
Definition helmetWith (addHeaders : response -> response) : middleware :=
  fun req w res => (w, Next (addHeaders res)).

Definition compression : middleware := fun req w res => (w, Next res).

(** *** The handlers the entry point defines itself *)

(** [app.get('/api/status', ...)] *)
Definition statusRoute : middleware :=
  fun req w res =>
    (w, Responded
          (res_json [("status", JStr "OK");
                     ("time", JStr (JsDate.toISOString (now w)))]
                    (res_status 200 res))).

(** [x || d] on a number that may be [undefined]: zero is falsy. *)
Definition numberOr (x : option Z) (d : Z) : Z :=
  match x with
  | Some n => if n =? 0 then d else n
  | None => d
  end.

Definition stringOr (x : option string) (d : string) : string :=
  match x with
  | Some s => or_else s d
  | None => d
  end.

Definition optionalString (x : option string) : jsvalue :=
  match x with
  | Some s => JStr s
  | None => JUndefined
  end.

(** The status codes Node writes in a response head: 100 to 999.  With
    any other number the head is not written: sending the response
    throws. *)
Definition validStatus (code : Z) : bool := ((100 <=? code) && (code <=? 999))%bool.

(** The error thrown for a number outside that range. *)
Definition invalidStatusCode (traceOf : string -> option string) (code : Z) : error :=
  {| status := None;
     message := Some ("Invalid status code: " +:+ showZ code);
     stack := traceOf ("Invalid status code: " +:+ showZ code) |}.

(** The error handler mounted at [/api].  [res.status(statusCode)] takes
    any number; [res.json] throws when the response cannot be sent with
    it, and the handler fails with that error after it has written its
    line on the console. *)
Definition apiErrorHandler (traceOf : string -> option string) (err : error)
  : middleware :=
  fun req w res =>
    let w' := write (ErrorLog (Some "API Error:") err) w in
    let statusCode := numberOr (status err) 500 in
    if validStatus statusCode then
      (w', Responded
             (res_json
                ([("success", JBool false);
                  ("message", JStr (stringOr (message err) "Internal server error"));
                  ("statusCode", JNum statusCode)]
                 ++ (if bool_decide (env w !! "NODE_ENV" = Some "development")
                     then [("stack", optionalString (stack err))]
                     else [])
                 ++ [("timestamp", JStr (JsDate.toISOString (now w)))])
                (res_status statusCode res)))
    else (w', Failed (invalidStatusCode traceOf statusCode)
                     (res_status statusCode res)).

(** The listener of [unhandledRejection]. *)
Definition onUnhandledRejection (err : error) (w : world) : world :=
  exit 1
    (write (ErrorLog None err)
       (write (Log "UNHANDLED REJECTION! 💥 Shutting down...") w)).

(** *** The application: its layers in the order they are registered *)

Inductive layer : Type :=
| Use (mount : string) (mw : middleware)
| Get (pattern : string) (mw : middleware)
| UseError (mount : string) (h : error -> middleware).

(** How a request ends: a layer answered it; or an error no layer takes
    care of, or the end of the stack, is left to the final handler of
    the framework. *)
Inductive result : Type :=
| Sent (res : response)
| Unhandled (err : error) (res : response)
| Unmatched (res : response).

Definition isGet (req : request) : bool :=
  (String.eqb (method req) "GET" || String.eqb (method req) "HEAD")%bool.

(** A request goes down the stack: the layers whose path matches run in
    turn until one answers.  After a failure only the error handlers
    are considered. *)
Fixpoint run (layers : list layer) (req : request) (w : world)
         (res : response) : world * result :=
  match layers with
  | [] => (w, Unmatched res)
  | Use mount mw :: rest =>
      if Express.mounted mount (path req) then
        match mw req w res with
        | (w', Responded res') => (w', Sent res')
        | (w', Next res') => run rest req w' res'
        | (w', Failed err res') => recover rest req err w' res'
        end
      else run rest req w res
  | Get pat mw :: rest =>
      if (isGet req && Express.routeMatches pat (path req))%bool then
        match mw req w res with
        | (w', Responded res') => (w', Sent res')
        | (w', Next res') => run rest req w' res'
        | (w', Failed err res') => recover rest req err w' res'
        end
      else run rest req w res
  | UseError _ _ :: rest => run rest req w res
  end
with recover (layers : list layer) (req : request) (err : error)
             (w : world) (res : response) : world * result :=
  match layers with
  | [] => (w, Unhandled err res)
  | UseError mount h :: rest =>
      if Express.mounted mount (path req) then
        match h err req w res with
        | (w', Responded res') => (w', Sent res')
        | (w', Next res') => run rest req w' res'
        | (w', Failed err' res') => recover rest req err' w' res'
        end
      else recover rest req err w res
  | _ :: rest => recover rest req err w res
  end.

Section EntryPoint.
(** The headers [helmet()] adds to a response before it passes the
    request on. *)
Variable helmetHeaders : response -> response.
(** The collaborators the entry point imports and only wires up: the
    CORS middleware, the statistics middleware and the route
    modules. *)
Variables cors trackAPIStats : request -> response -> outcome.
Variables propertyrouter userrouter formrouter newsrouter appointmentRouter
          adminRouter adminProperties propertyRoutes luckyrouter
  : request -> response -> outcome.
Variable traceOf : string -> option string.
Variables parseJson parseUrlencoded : request -> option error.
Variable mime_lookup : string -> option string.
Variable fs : gmap string node.
Variable cwd : string.
(** The directory of the entry file. *)
Variable __dirname : string.

Definition helmet : middleware := helmetWith helmetHeaders.

Definition frontendOptions : Vite.options :=
  {| Vite.userDistPath := Some (NodePath.join [__dirname; "user_dist"]);
     Vite.adminDistPath := Some (NodePath.join [__dirname; "admin_dist"]);
     Vite.adminPathPrefix := Some "/admin";
     Vite.rootDir := Some "" |}.

Definition frontendLayer (r : Vite.route) : layer :=
  Get (Vite.pattern r)
      (pure (fun req res => Vite.handler r (path req) res)).

Definition app : list layer :=
  [ Use "/api" limiter;
    Use "/api" helmet;
    Use "/" compression;
    Use "/" (bodyParser traceOf parseJson "application/json" (mb 50));
    Use "/" (bodyParser traceOf parseUrlencoded
                        "application/x-www-form-urlencoded" (mb 50));
    Use "/api" (pure trackAPIStats);
    Use "/" (pure cors);
    Use "/api/products" (pure propertyrouter);
    Use "/api/users" (pure userrouter);
    Use "/api/forms" (pure formrouter);
    Use "/api/news" (pure newsrouter);
    Use "/api/appointments" (pure appointmentRouter);
    Use "/api/admin" (pure adminRouter);
    Use "/api/properties" (pure adminProperties);
    Use "/api" (pure propertyRoutes);
    Use "/api" (pure luckyrouter);
    Get "/api/status" statusRoute;
    UseError "/api" (apiErrorHandler traceOf) ]
  ++ map frontendLayer
         (Vite.setupViteFrontends mime_lookup fs cwd frontendOptions).

(** A request handled by the application, from a fresh response. *)
Definition handle (req : request) (w : world) : world * result :=
  run app req w freshResponse.

(** What happens in the process: a request arrives at some time, or a
    promise is rejected with nobody to handle it. *)
Inductive event : Type :=
| Request (time : Z) (req : request)
| UnhandledRejection (err : error).

Definition setNow (t : Z) (w : world) : world :=
  {| now := t; env := env w; hits := hits w;
     console := console w; exitCode := exitCode w |}.

(** One event; a process that has exited does nothing any more. *)
Definition step (w : world) (ev : event) : world * option result :=
  match exitCode w with
  | Some _ => (w, None)
  | None =>
      match ev with
      | Request t req =>
          let '(w', r) := handle req (setNow t w) in (w', Some r)
      | UnhandledRejection err => (onUnhandledRejection err w, None)
      end
  end.

(** The events of a run, one after the other, with what each request
    got. *)
Fixpoint serve (evs : list event) (w : world)
  : world * list (option result) :=
  match evs with
  | [] => (w, [])
  | ev :: rest =>
      let '(w1, r) := step w ev in
      let '(w2, rs) := serve rest w1 in
      (w2, r :: rs)
  end.

End EntryPoint.

(** *** Vocabulary for the properties of the application *)

(** The response an outcome carries. *)
Definition responseOf (o : outcome) : response :=
  match o with
  | Responded res | Next res | Failed _ res => res
  end.

(** The response a request was answered with, when a layer answered. *)
Definition sentResponse (r : result) : option response :=
  match r with
  | Sent res => Some res
  | _ => None
  end.




(** A request stopped with a client error: answered 413 or 429, or failed
    with an error of status 413 that is left to the framework. *)
Definition rejected (r : result) : Prop :=
  match r with
  | Sent res => statusCode res = 413 \/ statusCode res = 429
  | Unhandled err _ => status err = Some 413
  | Unmatched _ => False
  end.

(** A collaborator that hands a request to the next layer. *)
Definition passesOn (f : request -> response -> outcome) (req : request) : Prop :=
  forall res, exists res', f req res = Next res'.

(** Two states of the process that differ in the console at most. *)
Definition sameProcess (w w' : world) : Prop :=
  hits w' = hits w /\ env w' = env w /\ now w' = now w /\ exitCode w' = exitCode w.

Definition quiet (mw : middleware) : Prop :=
  forall req w res, sameProcess w (mw req w res).1.

Definition quietLayer (l : layer) : Prop :=
  match l with
  | Use _ mw | Get _ mw => quiet mw
  | UseError _ h => forall err, quiet (h err)
  end.

(** Where a JSON or form body over the limit ends, whatever the
    collaborators do: the limiter may answer first; otherwise the failure
    of the parser goes to the error handler under [/api] and to nobody
    elsewhere. *)
Definition oversizedEnd (helmetHeaders : response -> response)
           (traceOf : string -> option string) (req : request) (w : world)
  : world * result :=
  if Express.mounted "/api" (path req) then
    match limiter req w freshResponse with
    | (w1, Responded res) => (w1, Sent res)
    | (w1, Next res) =>
        match apiErrorHandler traceOf (tooLarge traceOf) req w1 (helmetHeaders res) with
        | (w2, Responded res') => (w2, Sent res')
        | (w2, Next res') => (w2, Unmatched res')
        | (w2, Failed err res') => (w2, Unhandled err res')
        end
    | (w1, Failed err res) => (w1, Unhandled err res)
    end
  else (w, Unhandled (tooLarge traceOf) freshResponse).

End Server.

(** ** Concrete inputs *)

Module Sample.
Import Server.

(** Collaborators that pass every request on. *)
Definition passOn (req : request) (res : response) : outcome := Next res.
Definition noHeaders (res : response) : response := res.
Definition noTrace (text : string) : option string := None.
Definition parses (req : request) : option error := None.
Definition noMime (filePath : string) : option string := None.

(** A lookup table that knows one extension. *)
Definition pngOnly (filePath : string) : option string :=
  if JsString.endsWith filePath ".png" then Some "image/png" else None.

(** A deployment in [/srv/app] with a user build that holds nothing but
    its [index.html]. *)
Definition indexOnly : gmap string node :=
  {[ "/srv/app/user_dist/index.html" := File "<!doctype html><div id=root></div>" ]}.

(** Both builds with their [index.html]. *)
Definition bothBuilds : gmap string node :=
  {[ "/srv/app/user_dist/index.html" := File "<!doctype html><title>site</title>";
     "/srv/app/admin_dist/index.html" := File "<!doctype html><title>admin</title>" ]}.

Definition badInput : error :=
  {| status := Some 400; message := Some "bad input";
     stack := Some "Error: bad input" |}.



Definition request (verb url : string) : Server.request :=
  {| method := verb; path := url; ip := "203.0.113.7";
     contentType := None; bodyLength := None |}.

Definition upload (url mediaType : string) (len : Z) : Server.request :=
  {| method := "POST"; path := url; ip := "203.0.113.7";
     contentType := Some mediaType; bodyLength := Some len |}.

(** A process started with the given [NODE_ENV], at 2023-11-14T22:13:20Z. *)
Definition started (nodeEnv : option string) : world :=
  {| now := 1700000000000;
     env := match nodeEnv with
            | Some v => {[ "NODE_ENV" := v ]}
            | None => ∅
            end;
     hits := ∅; console := []; exitCode := None |}.

(** The same process when the client has used up its 500 requests of the
    window that ends in a second. *)
Definition exhausted : world :=
  setHits {[ "203.0.113.7" := (500, 1700000001000) ]} (started None).

(** The application with collaborators that pass everything on. *)
Definition handle (fs : gmap string node) : Server.request -> world -> world * result :=
  Server.handle noHeaders passOn passOn passOn passOn passOn passOn passOn
                passOn passOn passOn passOn noTrace parses parses noMime fs
                "/srv/app" "/srv/app".

End Sample.

(** ** Shapes of paths *)

Module PathShape.
Import JsString NodePath.

(** No slash among the characters of a string. *)
Fixpoint noSlash (s : string) : bool :=
  match s with
  | EmptyString => true
  | String c s' => (negb (Ascii.eqb c "/") && noSlash s')%bool
  end.

(** A proper name of a file or a directory: not empty, not [.], not
    [..], and without a slash. *)
Definition plain (seg : string) : bool :=
  (negb (String.eqb seg "" || String.eqb seg "." || String.eqb seg "..")
   && noSlash seg)%bool.

(** An absolute path in normal form, the root apart: a slash, then
    proper names separated by single slashes. *)
Definition canonical (p : string) : bool :=
  match p with
  | String c rest => (Ascii.eqb c "/" && forallb plain (split rest))%bool
  | EmptyString => false
  end.

(** Any character but the slash. *)
Definition notSlash (c : ascii) : bool := negb (Ascii.eqb c "/").

(** The path of [segs] below [dir]: [dir/s1/.../sn]. *)
Definition under (dir : string) (segs : list string) : string :=
  fold_left (fun d seg => d +:+ "/" +:+ seg) segs dir.

(** No percent sign among the characters.  Express decodes the part of
    a path that a [*] of a route stands for before the handler runs, and
    answers 400 itself when an escape in it is malformed; a text without
    a percent sign is decoded as it stands. *)
Fixpoint noPercent (s : string) : bool :=
  match s with
  | EmptyString => true
  | String c s' => (negb (Ascii.eqb c "%") && noPercent s')%bool
  end.

(** The last name of a path. *)
Definition lastName (p : string) : string := List.last (split p) "".

End PathShape.

(** ** Vocabulary for the flow of requests through the stack *)

Module Flow.
Import Server.

(** A middleware that neither reads nor writes the store of the rate
    limiter: it does the same whatever the store holds. *)
Definition storeBlind (mw : middleware) : Prop :=
  forall h req w res,
    mw req (setHits h w) res = (setHits h (mw req w res).1, (mw req w res).2).

Definition blindLayer (l : layer) : Prop :=
  match l with
  | Use _ mw | Get _ mw => storeBlind mw
  | UseError _ h => forall err, storeBlind (h err)
  end.

(** A request the body parsers let through: it has no body, or a body
    within their limit that they accept. *)
Definition readable (parseJson parseUrlencoded : request -> option error)
           (req : request) : Prop :=
  match bodyLength req with
  | None => True
  | Some len => len <= mb 50 /\ parseJson req = None /\ parseUrlencoded req = None
  end.

(** The paths [res.sendFile] streams to the client: an absolute path,
    without a slash at its end, of a regular file whose own name does
    not begin with a dot.  (It throws on a relative path, refuses a name
    that begins with a dot, reports a missing file as an error and hands
    a directory on to the routes that follow.) *)
Definition streams (fs : gmap string node) (p : string) : bool :=
  (JsString.startsWith p "/"
   && negb (JsString.endsWith p "/")
   && negb (JsString.startsWith (PathShape.lastName p) ".")
   && match fs !! p with
      | Some (File _) => true
      | _ => false
      end)%bool.

(** A response that reaches the client as the handler left it: a text,
    an object, or a file that [res.sendFile] streams. *)
Definition delivered (fs : gmap string node) (res : response) : bool :=
  match body res with
  | FileAt p => streams fs p
  | _ => true
  end.

(** The requests of a client that the limiter counts, among timed
    requests. *)
Definition countedFor (client : string) (tr : Z * request) : bool :=
  (String.eqb (ip tr.2) client && Express.mounted "/api" (path tr.2))%bool.

Fixpoint apiHitsBy (client : string) (trs : list (Z * request)) : Z :=
  match trs with
  | [] => 0
  | tr :: rest => (if countedFor client tr then 1 else 0) + apiHitsBy client rest
  end.

Definition arrivals (trs : list (Z * request)) : list (event) :=
  map (fun tr => Request tr.1 tr.2) trs.

End Flow.

(** ** Start-up of the entry point *)

Module Startup.
Import NodePath.

(** [fs.mkdirSync(p)] without options: the directory is created when
    nothing is at [p] and the parent of [p] is a directory; otherwise the
    call throws ([None]). *)
Definition mkdirSync (fs : gmap string node) (p : string)
  : option (gmap string node) :=
  if existsSync fs p then None
  else match fs !! dirname p with
       | Some Dir => Some (<[p := Dir]> fs)
       | _ => None
       end.

(** The directory for file exports, created by the entry point when it
    is not there. *)
Definition tempDir (__dirname : string) : string := join [__dirname; "temp"].

Definition ensureTempDir (__dirname : string) (fs : gmap string node)
  : option (gmap string node) :=
  if negb (existsSync fs (tempDir __dirname))
  then mkdirSync fs (tempDir __dirname)
  else Some fs.

End Startup.

(** ** A deployment with both builds *)

Module Deployment.
Import Server.

(** The application in [/srv/app]: its entry file, the user build with a
    page, a picture, a script and a sub-directory of documents, and the
    admin build with its page. *)
Definition site : gmap string node :=
  {[ "/srv/app" := Dir;
     "/srv/app/server.js" := File "import express from 'express';";
     "/srv/app/user_dist" := Dir;
     "/srv/app/user_dist/index.html" := File "<!doctype html><title>site</title>";
     "/srv/app/user_dist/logo.svg" := File "<svg/>";
     "/srv/app/user_dist/docs" := Dir;
     "/srv/app/user_dist/docs/index.html" := File "<!doctype html><title>docs</title>";
     "/srv/app/user_dist/assets" := Dir;
     "/srv/app/user_dist/assets/app.js" := File "console.log(1)";
     "/srv/app/admin_dist" := Dir;
     "/srv/app/admin_dist/index.html" := File "<!doctype html><title>admin</title>" ]}.

(** A CORS middleware that adds its header and passes the request on. *)
Definition allowOrigin (req : request) (res : response) : outcome :=
  Next (res_set "Access-Control-Allow-Credentials" "true" res).

(** A JSON parser that rejects every body it reads. *)
Definition malformed (req : request) : option error :=
  Some {| status := Some 400; message := Some "Unexpected token";
          stack := None |}.

Definition handle (parseJson : request -> option error)
  : request -> world -> world * result :=
  Server.handle Sample.noHeaders allowOrigin Sample.passOn Sample.passOn
                Sample.passOn Sample.passOn Sample.passOn Sample.passOn
                Sample.passOn Sample.passOn Sample.passOn Sample.passOn
                Sample.noTrace parseJson Sample.parses Sample.noMime site
                "/srv/app" "/srv/app".

Definition serve : list event -> world -> world * list (option result) :=
  Server.serve Sample.noHeaders allowOrigin Sample.passOn Sample.passOn
               Sample.passOn Sample.passOn Sample.passOn Sample.passOn
               Sample.passOn Sample.passOn Sample.passOn Sample.passOn
               Sample.noTrace Sample.parses Sample.parses Sample.noMime site
               "/srv/app" "/srv/app".

(** Another client. *)
Definition visitor (url : string) : request :=
  {| method := "GET"; path := url; ip := "198.51.100.4";
     contentType := None; bodyLength := None |}.

End Deployment.

(** * Properties *)

(** ** Strings *)

Section StringFacts.
Import JsString.

Lemma str_app_cons c s t : String c s +:+ t = String c (s +:+ t).
Proof. reflexivity. Qed.

Lemma str_app_nil_l s : "" +:+ s = s.
Proof. reflexivity. Qed.

Lemma str_app_nil_r s : s +:+ "" = s.
Proof. induction s as [|c s IH]; [reflexivity|]. rewrite str_app_cons, IH. reflexivity. Qed.

Lemma str_app_assoc s t u : (s +:+ t) +:+ u = s +:+ (t +:+ u).
Proof.
  induction s as [|c s IH]; [reflexivity|].
  rewrite !str_app_cons, IH. reflexivity.
Qed.

Lemma str_length_app s t :
  String.length (s +:+ t) = (String.length s + String.length t)%nat.
Proof.
  induction s as [|c s IH]; [reflexivity|].
  rewrite str_app_cons. simpl. rewrite IH. reflexivity.
Qed.

Lemma endsWith_nil suf : endsWith "" suf = String.eqb "" suf.
Proof. unfold endsWith. apply orb_false_r. Qed.

Lemma endsWith_cons c s suf :
  endsWith (String c s) suf = (String.eqb (String c s) suf || endsWith s suf)%bool.
Proof. reflexivity. Qed.

(** A suffix is what is left after some prefix. *)
Lemma endsWith_true s suf :
  endsWith s suf = true <-> exists pre, s = pre +:+ suf.
Proof.
  split.
  - induction s as [|c s IH]; intros H.
    + rewrite endsWith_nil in H.
      apply String.eqb_eq in H. subst. exists "". reflexivity.
    + rewrite endsWith_cons in H. apply orb_true_iff in H as [H|H].
      * apply String.eqb_eq in H. subst. exists "". reflexivity.
      * destruct (IH H) as [pre ->]. exists (String c pre). reflexivity.
  - intros [pre ->]. induction pre as [|c pre IH].
    + rewrite str_app_nil_l. destruct suf.
      * reflexivity.
      * rewrite endsWith_cons, String.eqb_refl. reflexivity.
    + rewrite str_app_cons, endsWith_cons, IH. apply orb_true_r.
Qed.

Lemma endsWith_app pre suf : endsWith (pre +:+ suf) suf = true.
Proof. apply endsWith_true. eauto. Qed.

Lemma lastTwo_app pre s :
  (2 <= String.length s)%nat -> lastTwo (pre +:+ s) = lastTwo s.
Proof.
  intros Hs. induction pre as [|c pre IH]; [reflexivity|].
  rewrite str_app_cons. rewrite <- IH.
  assert (Hl : (2 <= String.length (pre +:+ s))%nat) by (rewrite str_length_app; lia).
  destruct (pre +:+ s) as [|a [|b r]]; simpl in Hl; try lia. reflexivity.
Qed.

Lemma endsWith_lastTwo s suf :
  (2 <= String.length suf)%nat -> endsWith s suf = true ->
  lastTwo s = lastTwo suf.
Proof.
  intros Hl [pre ->]%endsWith_true. apply lastTwo_app, Hl.
Qed.

Lemma endsWith_differs s suf suf' :
  (2 <= String.length suf)%nat -> (2 <= String.length suf')%nat ->
  lastTwo suf <> lastTwo suf' ->
  endsWith s suf = true -> endsWith s suf' = false.
Proof.
  intros H1 H2 Hne Hs. destruct (endsWith s suf') eqn:E; [|reflexivity].
  exfalso. apply Hne.
  rewrite <- (endsWith_lastTwo s suf H1 Hs), <- (endsWith_lastTwo s suf' H2 E).
  reflexivity.
Qed.
End StringFacts.

(** ** Paths *)

Section PathFacts.
Import JsString NodePath.

Lemma split_nonempty s : split s <> [].
Proof.
  destruct s as [|c s]; simpl; [discriminate|].
  destruct (Ascii.eqb c "/"); [discriminate|].
  destruct (split s); discriminate.
Qed.

Lemma split_cons c s :
  split (String c s) =
  if Ascii.eqb c "/" then "" :: split s
  else match split s with
       | seg :: rest => String c seg :: rest
       | [] => [String c ""]
       end.
Proof. reflexivity. Qed.

(** Splitting at a slash that is known to be there. *)
Lemma split_app_slash a b : split (a +:+ String "/" b) = split a ++ split b.
Proof.
  induction a as [|c a IH].
  - reflexivity.
  - rewrite str_app_cons, !split_cons, IH.
    destruct (Ascii.eqb c "/"); [reflexivity|].
    pose proof (split_nonempty a) as Hne.
    destruct (split a) as [|seg rest]; [congruence|]. reflexivity.
Qed.

Lemma normalizeString_app allow l1 l2 res :
  normalizeString allow res (l1 ++ l2)
  = normalizeString allow (normalizeString allow res l1) l2.
Proof.
  revert res. induction l1 as [|seg l1 IH]; intros res; [reflexivity|].
  simpl.
  destruct (String.eqb seg "" || String.eqb seg "."); [apply IH|].
  destruct (String.eqb seg "..").
  - destruct res as [|top res']; [apply IH|].
    destruct (String.eqb top ".."); apply IH.
  - apply IH.
Qed.

Lemma unsplit_cons2 a b l : unsplit (a :: b :: l) = a +:+ "/" +:+ unsplit (b :: l).
Proof. reflexivity. Qed.

Lemma unsplit_snoc l seg :
  exists pre, unsplit (l ++ [seg]) = pre +:+ seg.
Proof.
  induction l as [|a l IH].
  - exists "". reflexivity.
  - destruct IH as [pre IH]. destruct l as [|b l].
    + exists (a +:+ "/"). simpl. rewrite str_app_assoc. reflexivity.
    + change ((a :: b :: l) ++ [seg]) with (a :: b :: (l ++ [seg])).
      rewrite unsplit_cons2.
      change (b :: l ++ [seg]) with ((b :: l) ++ [seg]). rewrite IH.
      exists (a +:+ "/" +:+ pre). rewrite !str_app_assoc. reflexivity.
Qed.


Lemma glue_truthy args g : glue args = Some g -> truthy g = true.
Proof.
  revert g. induction args as [|a args IH]; intros g; simpl; [discriminate|].
  destruct (truthy a) eqn:Ha; [|apply IH].
  destruct (glue args); intros [= <-]; [|exact Ha].
  destruct a; [discriminate|reflexivity].
Qed.




End PathFacts.

(** ** The dispatcher *)

Section ViteFacts.
Import JsString NodePath Vite.

Variable mime_lookup : string -> option string.

Lemma getMimeType_html pre :
  getMimeType mime_lookup (pre +:+ "index.html") = "text/html".
Proof.
  assert (Hhtml : endsWith (pre +:+ "index.html") ".html" = true).
  { apply endsWith_true. exists (pre +:+ "index").
    rewrite str_app_assoc. reflexivity. }
  unfold getMimeType.
  rewrite (endsWith_differs _ ".html" ".js"), (endsWith_differs _ ".html" ".mjs"),
    (endsWith_differs _ ".html" ".css"), Hhtml;
    simpl; try lia; try discriminate; auto.
Qed.


Lemma serveFile_existing fs res filePath fallbackToIndex :
  existsSync fs filePath = true ->
  serveFile mime_lookup fs res filePath fallbackToIndex
  = res_sendFile filePath
      (res_set "Content-Type" (getMimeType mime_lookup filePath) res).
Proof. intros H. unfold serveFile. rewrite H. reflexivity. Qed.

End ViteFacts.

Section Dispatching.
Import JsString NodePath Vite.

(** C4. The Content-Type of a served file follows the end of its path:
    [.js] and [.mjs] give [application/javascript], [.css] gives
    [text/css], [.html] gives [text/html], [.svg] gives [image/svg+xml]
    and [.json] gives [application/json]; for every other path it is what
    [mime.lookup] finds, and [application/octet-stream] when it finds
    nothing.  [serveFile] sets that type on every file it serves. *)
Theorem getMimeType_by_extension (mime_lookup : string -> option string)
        (filePath : string) :
  ((endsWith filePath ".js" = true \/ endsWith filePath ".mjs" = true) ->
     getMimeType mime_lookup filePath = "application/javascript")
  /\ (endsWith filePath ".css" = true ->
        getMimeType mime_lookup filePath = "text/css")
  /\ (endsWith filePath ".html" = true ->
        getMimeType mime_lookup filePath = "text/html")
  /\ (endsWith filePath ".svg" = true ->
        getMimeType mime_lookup filePath = "image/svg+xml")
  /\ (endsWith filePath ".json" = true ->
        getMimeType mime_lookup filePath = "application/json")
  /\ (endsWith filePath ".js" = false -> endsWith filePath ".mjs" = false ->
      endsWith filePath ".css" = false -> endsWith filePath ".html" = false ->
      endsWith filePath ".svg" = false -> endsWith filePath ".json" = false ->
        (forall t, mime_lookup filePath = Some t -> truthy t = true ->
                   getMimeType mime_lookup filePath = t)
        /\ (mime_lookup filePath = None ->
              getMimeType mime_lookup filePath = "application/octet-stream"))
  /\ (forall fs res fallbackToIndex,
        existsSync fs filePath = true ->
        let sent := serveFile mime_lookup fs res filePath fallbackToIndex in
        headers sent !! "Content-Type" = Some (getMimeType mime_lookup filePath)
        /\ body sent = FileAt filePath).
Proof.
  assert (Hserve : forall fs res fallbackToIndex,
             existsSync fs filePath = true ->
             let sent := serveFile mime_lookup fs res filePath fallbackToIndex in
             headers sent !! "Content-Type" = Some (getMimeType mime_lookup filePath)
             /\ body sent = FileAt filePath).
  { intros fs res fallbackToIndex Hex. cbv zeta.
    rewrite serveFile_existing by assumption.
    split; [apply lookup_insert_eq | reflexivity]. }
  unfold getMimeType in *.
  refine (conj _ (conj _ (conj _ (conj _ (conj _ (conj _ Hserve)))))); clear Hserve.
  - intros [H|H]; rewrite H, ?orb_true_r; reflexivity.
  - intros H.
    rewrite (endsWith_differs _ ".css" ".js"), (endsWith_differs _ ".css" ".mjs"), H;
      simpl; try lia; try discriminate; auto.
  - intros H.
    rewrite (endsWith_differs _ ".html" ".js"), (endsWith_differs _ ".html" ".mjs"),
      (endsWith_differs _ ".html" ".css"), H;
      simpl; try lia; try discriminate; auto.
  - intros H.
    rewrite (endsWith_differs _ ".svg" ".js"), (endsWith_differs _ ".svg" ".mjs"),
      (endsWith_differs _ ".svg" ".css"), (endsWith_differs _ ".svg" ".html"), H;
      simpl; try lia; try discriminate; auto.
  - intros H.
    rewrite (endsWith_differs _ ".json" ".js"), (endsWith_differs _ ".json" ".mjs"),
      (endsWith_differs _ ".json" ".css"), (endsWith_differs _ ".json" ".html"),
      (endsWith_differs _ ".json" ".svg"), H;
      simpl; try lia; try discriminate; auto.
  - intros -> -> -> -> -> ->. simpl. split.
    + intros t Ht Htruthy. rewrite Ht. unfold or_else. rewrite Htruthy. reflexivity.
    + intros Hnone. rewrite Hnone. reflexivity.
Qed.

(** C2. In [serveFile], for a file path that does not exist: when the
    caller asked for the fallback and [index.html] exists in the directory
    of that path, that [index.html] is served with Content-Type
    [text/html]; when the fallback was not asked for, or that
    [index.html] does not exist either, the answer is 404 with the body
    [Not found]. *)
Theorem serveFile_missing (mime_lookup : string -> option string)
        (fs : gmap string node) (res : response) (filePath : string)
        (fallbackToIndex : bool) :
  existsSync fs filePath = false ->
  let indexPath := join [dirname filePath; "index.html"] in
  let sent := serveFile mime_lookup fs res filePath fallbackToIndex in
  (fallbackToIndex = true -> existsSync fs indexPath = true ->
     body sent = FileAt indexPath
     /\ headers sent !! "Content-Type" = Some "text/html"
     /\ statusCode sent = statusCode res)
  /\ (fallbackToIndex = false \/ existsSync fs indexPath = false ->
        statusCode sent = 404 /\ body sent = Text "Not found").
Proof.
  intros Hmissing indexPath sent. subst sent indexPath.
  unfold serveFile. rewrite Hmissing. split.
  - intros -> ->. simpl. split; [reflexivity|].
    split; [apply lookup_insert_eq | reflexivity].
  - intros [-> | Hindex].
    + split; reflexivity.
    + rewrite Hindex. destruct fallbackToIndex; split; reflexivity.
Qed.

Lemma str_prefix_cons a s b t :
  String.prefix (String a s) (String b t) = (Ascii.eqb a b && String.prefix s t)%bool.
Proof.
  change (String.prefix (String a s) (String b t))
    with (if ascii_dec a b then String.prefix s t else false).
  destruct (ascii_dec a b) as [->|Hne].
  - rewrite Ascii.eqb_refl. reflexivity.
  - apply Ascii.eqb_neq in Hne. rewrite Hne. reflexivity.
Qed.

Lemma str_prefix_nil_r a s : String.prefix (String a s) "" = false.
Proof. reflexivity. Qed.

Lemma assets_is_not_admin q :
  String.prefix "/assets/" q = true ->
  String.prefix "/admin/assets/" q = false /\ String.prefix "/admin/" q = false.
Proof.
  destruct q as [|c1 [|c2 [|c3 q]]];
    rewrite ?str_prefix_cons, ?str_prefix_nil_r, ?andb_false_r; try discriminate.
  destruct (Ascii.eqb "/" c1); [|discriminate].
  destruct (Ascii.eqb "a" c2); [|discriminate].
  destruct (Ascii.eqb "s" c3) eqn:E; [|discriminate].
  apply Ascii.eqb_eq in E. subst c3. auto.
Qed.

Lemma dispatch_cons r rest reqPath res :
  dispatch (r :: rest) reqPath res =
  if Express.routeMatches (pattern r) reqPath then
    match handler r reqPath res with
    | Responded res' => Some res'
    | Next res' => dispatch rest reqPath res'
    | Failed _ _ => None
    end
  else dispatch rest reqPath res.
Proof. reflexivity. Qed.

Lemma setupViteFrontends_routes mime_lookup fs cwd opts :
  setupViteFrontends mime_lookup fs cwd opts =
  [ {| pattern := adminPrefix opts +:+ "/assets/*";
       handler := assetsRoute mime_lookup fs (adminDistFullPath cwd opts) (adminPrefix opts) |};
    {| pattern := adminPrefix opts +:+ "/*";
       handler := staticRoute mime_lookup fs (adminDistFullPath cwd opts) (adminPrefix opts) |};
    {| pattern := "/assets/*";
       handler := assetsRoute mime_lookup fs (userDistFullPath cwd opts) "" |};
    {| pattern := "/*";
       handler := staticRoute mime_lookup fs (userDistFullPath cwd opts) "" |};
    {| pattern := "*"; handler := fallbackRoute mime_lookup fs cwd opts |} ].
Proof. reflexivity. Qed.

Lemma assetsRoute_missing mime_lookup fs distPath urlPrefix reqPath res :
  existsSync fs (join [distPath; "assets";
                       substring (String.length (urlPrefix +:+ "/assets/")) reqPath]) = false ->
  assetsRoute mime_lookup fs distPath urlPrefix reqPath res
  = Responded (notFound res).
Proof. intros H. unfold assetsRoute, serveFile. rewrite H. reflexivity. Qed.

Lemma api_is_not_frontend p :
  startsWith p "/api/" = true ->
  String.prefix "/admin/assets/" (lowercase p) = false
  /\ String.prefix "/admin/" (lowercase p) = false
  /\ String.prefix "/assets/" (lowercase p) = false
  /\ String.prefix "/" (lowercase p) = true.
Proof.
  unfold startsWith.
  destruct p as [|c1 [|c2 [|c3 p]]];
    rewrite ?str_prefix_cons, ?str_prefix_nil_r, ?andb_false_r; try discriminate.
  destruct (Ascii.eqb "/" c1) eqn:E1; [|discriminate].
  destruct (Ascii.eqb "a" c2) eqn:E2; [|discriminate].
  destruct (Ascii.eqb "p" c3) eqn:E3; [|discriminate].
  apply Ascii.eqb_eq in E1, E2, E3. subst c1 c2 c3. intros _.
  cbn [lowercase]. rewrite !str_prefix_cons. repeat split; reflexivity.
Qed.


Lemma staticRoute_answers mime_lookup fs distPath urlPrefix reqPath res :
  startsWith reqPath "/api/" = false ->
  exists sent, staticRoute mime_lookup fs distPath urlPrefix reqPath res = Responded sent.
Proof.
  intros Hapi. unfold staticRoute. rewrite Hapi. cbv zeta.
  destruct (_ && _)%bool; eauto.
Qed.



(** C10. An assets route never falls back to [index.html]: its handler
    answers a request whose file is not in the assets directory of the
    build with 404 and the body [Not found], whatever else exists.  With
    the admin prefix [/admin], a GET request that matches the assets
    route of the admin build ([/admin/assets/*]) or of the user build
    ([/assets/*]), on a path Express can decode (it holds no percent
    sign), is answered by that route. *)
Theorem assets_routes_never_fall_back (mime_lookup : string -> option string)
        (fs : gmap string node) (cwd : string) (opts : options)
        (reqPath : string) :
  (forall distPath urlPrefix res,
      existsSync fs (join [distPath; "assets";
                           substring (String.length (urlPrefix +:+ "/assets/")) reqPath])
      = false ->
      assetsRoute mime_lookup fs distPath urlPrefix reqPath res
      = Responded (notFound res))
  /\ (adminPrefix opts = "/admin" ->
      Express.routeMatches "/admin/assets/*" reqPath = true ->
      PathShape.noPercent reqPath = true ->
      existsSync fs (join [adminDistFullPath cwd opts; "assets";
                           substring (String.length "/admin/assets/") reqPath])
      = false ->
        get mime_lookup fs cwd opts reqPath = Some (notFound freshResponse))
  /\ (adminPrefix opts = "/admin" ->
      Express.routeMatches "/assets/*" reqPath = true ->
      PathShape.noPercent reqPath = true ->
      existsSync fs (join [userDistFullPath cwd opts; "assets";
                           substring (String.length "/assets/") reqPath]) = false ->
        get mime_lookup fs cwd opts reqPath = Some (notFound freshResponse)).
Proof.
  split; [intros distPath urlPrefix res; apply assetsRoute_missing|].
  unfold get. rewrite setupViteFrontends_routes. split.
  - intros Hprefix Hmatch _ Hmissing. rewrite Hprefix.
    change ("/admin" +:+ "/assets/*") with "/admin/assets/*".
    rewrite dispatch_cons. cbn [pattern handler]. rewrite Hmatch.
    rewrite assetsRoute_missing by exact Hmissing. reflexivity.
  - intros Hprefix Hmatch _ Hmissing. rewrite Hprefix.
    change ("/admin" +:+ "/assets/*") with "/admin/assets/*".
    change ("/admin" +:+ "/*") with "/admin/*".
    destruct (assets_is_not_admin (lowercase reqPath) Hmatch) as [H1 H2].
    rewrite !dispatch_cons. cbn [pattern handler].
    change (Express.routeMatches "/admin/assets/*" reqPath)
      with (String.prefix "/admin/assets/" (lowercase reqPath)).
    change (Express.routeMatches "/admin/*" reqPath)
      with (String.prefix "/admin/" (lowercase reqPath)).
    rewrite H1, H2, Hmatch.
    rewrite assetsRoute_missing by exact Hmissing. reflexivity.
Qed.

Lemma existsSync_true fs p n : fs !! p = Some n -> existsSync fs p = true.
Proof. intros H. unfold existsSync. apply bool_decide_eq_true. eauto. Qed.

Lemma existsSync_false fs p : fs !! p = None -> existsSync fs p = false.
Proof.
  intros H. unfold existsSync. apply bool_decide_eq_false.
  rewrite H. intros [? [=]].
Qed.

(** C1. The scenario of a user build that holds only its [index.html],
    served from [/srv/app]: GET [/] is answered 200 with Content-Type
    [text/html] and the contents of that file, and GET [/assets/app.js]
    with 404 and the body [Not found]; GET [/nonexistent/path] is also
    answered 404 with the body [Not found], because the fallback looks
    for [index.html] in [user_dist/nonexistent], not in the root of the
    build. *)
Theorem index_only_scenario (mime_lookup : string -> option string)
        (fs : gmap string node) (cwd html : string) :
  let opts := Server.frontendOptions "/srv/app" in
  let get := Vite.get mime_lookup fs cwd opts in
  fs !! "/srv/app/user_dist/index.html" = Some (File html) ->
  (forall p, startsWith p "/srv/app/user_dist/" = true ->
             p <> "/srv/app/user_dist/index.html" -> fs !! p = None) ->
  (exists sent,
      get "/" = Some sent /\ statusCode sent = 200
      /\ headers sent !! "Content-Type" = Some "text/html"
      /\ transmitted fs sent = Some html)
  /\ get "/assets/app.js" = Some (notFound freshResponse)
  /\ get "/nonexistent/path" = Some (notFound freshResponse).
Proof.
  intros opts get Hindex Honly. subst get opts.
  pose proof (existsSync_true _ _ _ Hindex) as Hex.
  assert (Hno : forall p, startsWith p "/srv/app/user_dist/" = true ->
                          p <> "/srv/app/user_dist/index.html" ->
                          existsSync fs p = false).
  { intros p H1 H2. apply existsSync_false, Honly; assumption. }
  split; [|split].
  - exists (res_sendFile "/srv/app/user_dist/index.html"
              (res_set "Content-Type" "text/html" freshResponse)).
    split.
    + unfold Vite.get. rewrite setupViteFrontends_routes.
      rewrite !dispatch_cons. cbn [pattern handler].
      lazy -[existsSync res_set res_send res_status res_sendFile freshResponse].
      rewrite Hex. reflexivity.
    + split; [reflexivity|]. split; [apply lookup_insert_eq|].
      unfold transmitted. cbn [body res_sendFile]. rewrite Hindex. reflexivity.
  - unfold Vite.get. rewrite setupViteFrontends_routes.
    rewrite !dispatch_cons. cbn [pattern handler].
    lazy -[existsSync res_set res_send res_status res_sendFile freshResponse].
    rewrite (Hno "/srv/app/user_dist/assets/app.js") by (reflexivity || discriminate).
    reflexivity.
  - unfold Vite.get. rewrite setupViteFrontends_routes.
    rewrite !dispatch_cons. cbn [pattern handler].
    lazy -[existsSync res_set res_send res_status res_sendFile freshResponse].
    rewrite (Hno "/srv/app/user_dist/nonexistent/path/index.html") by (reflexivity || discriminate).
    rewrite (Hno "/srv/app/user_dist/nonexistent/path") by (reflexivity || discriminate).
    rewrite (Hno "/srv/app/user_dist/nonexistent/index.html") by (reflexivity || discriminate).
    reflexivity.
Qed.

End Dispatching.

(** *** The dispatcher on concrete deployments *)

Section DispatchingSamples.
Import JsString NodePath Vite.

Lemma index_only_scenario_witness :
  Sample.indexOnly !! "/srv/app/user_dist/index.html"
  = Some (File "<!doctype html><div id=root></div>")
  /\ ((exists sent,
          get Sample.noMime Sample.indexOnly "/" (Server.frontendOptions "/srv/app") "/"
          = Some sent
          /\ statusCode sent = 200
          /\ headers sent !! "Content-Type" = Some "text/html"
          /\ transmitted Sample.indexOnly sent
             = Some "<!doctype html><div id=root></div>")
      /\ get Sample.noMime Sample.indexOnly "/" (Server.frontendOptions "/srv/app")
             "/assets/app.js"
         = Some (notFound freshResponse)
      /\ get Sample.noMime Sample.indexOnly "/" (Server.frontendOptions "/srv/app")
             "/nonexistent/path"
         = Some (notFound freshResponse)).
Proof.
  split; [reflexivity|].
  apply (index_only_scenario Sample.noMime Sample.indexOnly "/"
           "<!doctype html><div id=root></div>").
  - reflexivity.
  - intros p _ Hp. apply lookup_singleton_ne. congruence.
Defined.

(** The fallback does reach the [index.html] of the build from a path of
    one segment. *)
Lemma single_segment_falls_back :
  get Sample.noMime Sample.indexOnly "/" (Server.frontendOptions "/srv/app")
      "/nonexistent"
  = Some (res_sendFile "/srv/app/user_dist/index.html"
            (res_set "Content-Type" "text/html" freshResponse)).
Proof. vm_compute. reflexivity. Qed.

Lemma serveFile_missing_witness :
  existsSync Sample.bothBuilds "/srv/app/user_dist/listings" = false
  /\ existsSync Sample.bothBuilds
       (join [dirname "/srv/app/user_dist/listings"; "index.html"]) = true
  /\ body (serveFile Sample.noMime Sample.bothBuilds freshResponse
             "/srv/app/user_dist/listings" true)
     = FileAt "/srv/app/user_dist/index.html"
  /\ statusCode (serveFile Sample.noMime Sample.bothBuilds freshResponse
                   "/srv/app/user_dist/listings" false) = 404.
Proof.
  assert (Hmissing : existsSync Sample.bothBuilds "/srv/app/user_dist/listings" = false)
    by (vm_compute; reflexivity).
  assert (Hindex : existsSync Sample.bothBuilds
                     (join [dirname "/srv/app/user_dist/listings"; "index.html"]) = true)
    by (vm_compute; reflexivity).
  split; [exact Hmissing|]. split; [exact Hindex|]. split.
  - apply (proj1 (serveFile_missing Sample.noMime Sample.bothBuilds freshResponse
                    "/srv/app/user_dist/listings" true Hmissing));
      [reflexivity | exact Hindex].
  - apply (proj2 (serveFile_missing Sample.noMime Sample.bothBuilds freshResponse
                    "/srv/app/user_dist/listings" false Hmissing)).
    left. reflexivity.
Defined.

Lemma assets_routes_never_fall_back_witness :
  adminPrefix (Server.frontendOptions "/srv/app") = "/admin"
  /\ existsSync Sample.bothBuilds "/srv/app/user_dist/index.html" = true
  /\ get Sample.noMime Sample.bothBuilds "/" (Server.frontendOptions "/srv/app")
         "/assets/app.js"
     = Some (notFound freshResponse)
  /\ get Sample.noMime Sample.bothBuilds "/" (Server.frontendOptions "/srv/app")
         "/admin/assets/app.js"
     = Some (notFound freshResponse).
Proof.
  split; [reflexivity|]. split; [vm_compute; reflexivity|]. split.
  - apply (proj2 (proj2 (assets_routes_never_fall_back Sample.noMime
                           Sample.bothBuilds "/" (Server.frontendOptions "/srv/app")
                           "/assets/app.js")));
      vm_compute; reflexivity.
  - apply (proj1 (proj2 (assets_routes_never_fall_back Sample.noMime
                           Sample.bothBuilds "/" (Server.frontendOptions "/srv/app")
                           "/admin/assets/app.js")));
      vm_compute; reflexivity.
Defined.


Lemma getMimeType_by_extension_witness :
  getMimeType Sample.noMime "/srv/app/user_dist/assets/index-4f2a.js"
  = "application/javascript"
  /\ getMimeType Sample.noMime "/srv/app/user_dist/assets/logo.svg" = "image/svg+xml"
  /\ getMimeType Sample.pngOnly "/srv/app/user_dist/assets/photo.png" = "image/png"
  /\ getMimeType Sample.pngOnly "/srv/app/user_dist/assets/fonts.woff2"
     = "application/octet-stream"
  /\ headers (serveFile Sample.noMime Sample.indexOnly freshResponse
                "/srv/app/user_dist/index.html" false) !! "Content-Type"
     = Some "text/html".
Proof.
  split; [apply (proj1 (getMimeType_by_extension Sample.noMime
                          "/srv/app/user_dist/assets/index-4f2a.js"));
          left; reflexivity|].
  split; [apply (proj1 (proj2 (proj2 (proj2 (getMimeType_by_extension Sample.noMime
                          "/srv/app/user_dist/assets/logo.svg")))));
          reflexivity|].
  split; [apply (proj1 (proj1 (proj2 (proj2 (proj2 (proj2 (proj2
                   (getMimeType_by_extension Sample.pngOnly
                      "/srv/app/user_dist/assets/photo.png"))))))
                   eq_refl eq_refl eq_refl eq_refl eq_refl eq_refl));
          reflexivity|].
  split; [apply (proj2 (proj1 (proj2 (proj2 (proj2 (proj2 (proj2
                   (getMimeType_by_extension Sample.pngOnly
                      "/srv/app/user_dist/assets/fonts.woff2"))))))
                   eq_refl eq_refl eq_refl eq_refl eq_refl eq_refl));
          reflexivity|].
  replace (Some "text/html")
    with (Some (getMimeType Sample.noMime "/srv/app/user_dist/index.html"))
    by reflexivity.
  apply (proj2 (proj2 (proj2 (proj2 (proj2 (proj2
           (getMimeType_by_extension Sample.noMime
              "/srv/app/user_dist/index.html"))))))
           Sample.indexOnly freshResponse false).
  vm_compute. reflexivity.
Defined.

End DispatchingSamples.

(** ** Dates *)

Section DateFacts.
Import JsDate.

Lemma isLeap_spec y :
  isLeap y = true <-> (y mod 4 = 0 /\ (y mod 100 <> 0 \/ y mod 400 = 0)).
Proof.
  unfold isLeap. rewrite andb_true_iff, orb_true_iff, negb_true_iff.
  rewrite !Z.eqb_eq, Z.eqb_neq. reflexivity.
Qed.

Lemma civil_month_day days :
  let '(y, m, d) := civilFromDays days in
  1 <= m <= 12 /\ 1 <= d <= daysInMonth y m.
Proof.
  unfold civilFromDays.
  set (z := days + 719468).
  set (era := z / 146097).
  set (doe := z mod 146097).
  assert (Hdoe : 0 <= doe < 146097) by (apply Z.mod_pos_bound; lia).
  clearbody doe era. clear z.
  set (yoe := (doe - doe / 1460 + doe / 36524 - doe / 146096) / 365).
  set (doy := doe - (365 * yoe + yoe / 4 - yoe / 100)).
  assert (Hyoe : 0 <= yoe <= 399) by (subst yoe; Z.div_mod_to_equations; lia).
  assert (Hdoy : 0 <= doy <= 365) by (subst doy yoe; Z.div_mod_to_equations; lia).
  assert (Hleap : doy = 365 -> isLeap (yoe + era * 400 + 1) = true).
  { intros H365. apply isLeap_spec. subst doy yoe. Z.div_mod_to_equations. lia. }
  clearbody doy. clearbody yoe.
  set (mp := (5 * doy + 2) / 153).
  assert (Hmp : 0 <= mp <= 11) by (subst mp; Z.div_mod_to_equations; lia).
  assert (Hd : 153 * mp <= 5 * doy + 2 < 153 * mp + 153)
    by (subst mp; Z.div_mod_to_equations; lia).
  clearbody mp.
  unfold daysInMonth.
  set (m := if mp <? 10 then mp + 3 else mp - 9).
  assert (Hm : m = if mp <? 10 then mp + 3 else mp - 9) by reflexivity.
  clearbody m.
  split; [destruct (Z.ltb_spec mp 10); lia|].
  destruct (Z.eqb_spec m 2) as [H2|H2].
  - assert (Hmp11 : mp = 11) by (destruct (Z.ltb_spec mp 10); lia).
    subst mp. destruct (Z.leb_spec m 2) as [_|Hgt]; [|lia]. cbv iota.
    destruct (isLeap (yoe + era * 400 + 1)) eqn:E.
    + Z.div_mod_to_equations; lia.
    + assert (doy <> 365) by (intros H; specialize (Hleap H); discriminate Hleap).
      Z.div_mod_to_equations; lia.
  - destruct (Z.ltb_spec mp 10);
      destruct (Z.eqb_spec m 4); destruct (Z.eqb_spec m 6);
      destruct (Z.eqb_spec m 9); destruct (Z.eqb_spec m 11);
      cbn [orb]; Z.div_mod_to_equations; lia.
Qed.

Lemma civil_roundtrip days :
  let '(y, m, d) := civilFromDays days in daysFromCivil y m d = days.
Proof.
  unfold civilFromDays, daysFromCivil.
  set (z := days + 719468).
  assert (Hz : days = z - 719468) by (subst z; lia).
  set (era := z / 146097).
  set (doe := z mod 146097).
  assert (Hdoe : 0 <= doe < 146097) by (apply Z.mod_pos_bound; lia).
  assert (Hzz : z = era * 146097 + doe) by (subst era doe; Z.div_mod_to_equations; lia).
  clearbody doe era. rewrite Hz. clear Hz. subst z.
  set (yoe := (doe - doe / 1460 + doe / 36524 - doe / 146096) / 365).
  set (doy := doe - (365 * yoe + yoe / 4 - yoe / 100)).
  assert (Hyoe : 0 <= yoe <= 399) by (subst yoe; Z.div_mod_to_equations; lia).
  assert (Hdoy : 0 <= doy <= 365) by (subst doy yoe; Z.div_mod_to_equations; lia).
  assert (Hdd : doe = 365 * yoe + yoe / 4 - yoe / 100 + doy) by (subst doy; lia).
  clearbody doy. clearbody yoe.
  set (mp := (5 * doy + 2) / 153).
  assert (Hmp : 0 <= mp <= 11) by (subst mp; Z.div_mod_to_equations; lia).
  clearbody mp.
  set (m := if mp <? 10 then mp + 3 else mp - 9).
  assert (Hm : (m <=? 2) = negb (mp <? 10) /\ (if 2 <? m then m - 3 else m + 9) = mp).
  { subst m. destruct (Z.ltb_spec mp 10).
    - split; [apply Z.leb_gt; lia|]. destruct (Z.ltb_spec 2 (mp + 3)); lia.
    - split; [apply Z.leb_le; lia|]. destruct (Z.ltb_spec 2 (mp - 9)); lia. }
  destruct Hm as [Hm1 Hm2]. rewrite Hm1, Hm2. clearbody m.
  set (c := if negb (mp <? 10) then 1 else 0).
  replace (yoe + era * 400 + c - c) with (yoe + era * 400) by lia.
  replace ((yoe + era * 400) / 400) with era by (Z.div_mod_to_equations; lia).
  replace ((yoe + era * 400) mod 400) with yoe by (Z.div_mod_to_equations; lia).
  lia.
Qed.


Lemma digit_code n : nat_of_ascii (digit n) = (48 + Z.to_nat (n mod 10))%nat.
Proof.
  unfold digit. apply nat_ascii_embedding.
  pose proof (Z.mod_pos_bound n 10 ltac:(lia)). lia.
Qed.

Lemma digitValue_digit n : digitValue (digit n) = Some (n mod 10).
Proof.
  unfold digitValue. rewrite digit_code.
  pose proof (Z.mod_pos_bound n 10 ltac:(lia)) as Hr.
  replace ((48 <=? 48 + Z.to_nat (n mod 10))%nat) with true
    by (symmetry; apply Nat.leb_le; lia).
  replace ((48 + Z.to_nat (n mod 10) <=? 57)%nat) with true
    by (symmetry; apply Nat.leb_le; lia).
  cbn [andb]. f_equal. lia.
Qed.

Lemma digit_not c n :
  (nat_of_ascii c < 48)%nat -> Ascii.eqb (digit n) c = false.
Proof.
  intros Hc. apply Ascii.eqb_neq. intros H.
  apply (f_equal nat_of_ascii) in H. rewrite digit_code in H. lia.
Qed.

(** The first of [k + 1] digits, then the [k] others. *)
Lemma padded_front k n :
  padded (S k) n = String (digit (n / 10 ^ Z.of_nat k)) (padded k n).
Proof.
  revert n. induction k as [|k IH]; intros n.
  - cbn [padded]. rewrite str_app_nil_l. rewrite Z.div_1_r. reflexivity.
  - change (padded (S (S k)) n)
      with (padded (S k) (n / 10) +:+ String (digit n) EmptyString).
    rewrite IH, str_app_cons. f_equal.
    + f_equal. rewrite Z.div_div by lia. f_equal.
      rewrite Nat2Z.inj_succ, Z.pow_succ_r by lia. reflexivity.
Qed.

Lemma number_padded k acc n rest :
  number k acc (padded k n +:+ rest)
  = Some (acc * 10 ^ Z.of_nat k + n mod 10 ^ Z.of_nat k, rest).
Proof.
  revert acc. induction k as [|k IH]; intros acc.
  - cbn [number padded]. rewrite str_app_nil_l. f_equal. f_equal.
    change (10 ^ Z.of_nat 0) with 1. rewrite Z.mod_1_r. lia.
  - rewrite padded_front, str_app_cons. cbn [number].
    rewrite digitValue_digit, IH. f_equal. f_equal.
    rewrite Nat2Z.inj_succ, Z.pow_succ_r by lia.
    set (p := 10 ^ Z.of_nat k).
    assert (Hp : 0 < p) by (apply Z.pow_pos_nonneg; lia).
    rewrite (Z.mul_comm 10 p), (Z.rem_mul_r n p 10) by lia. lia.
Qed.

Lemma number_padded_small k n rest :
  0 <= n < 10 ^ Z.of_nat k ->
  number k 0 (padded k n +:+ rest) = Some (n, rest).
Proof.
  intros Hn. rewrite number_padded, Z.mod_small by exact Hn. reflexivity.
Qed.

Lemma year_yearString y rest :
  -999999 <= y <= 999999 ->
  year (yearString y +:+ rest) = Some (y, rest).
Proof.
  intros Hy. unfold yearString.
  destruct (Z.leb_spec 0 y) as [H0|H0]; [destruct (Z.leb_spec y 9999) as [H9|H9]|];
    cbn [andb].
  - rewrite (padded_front 3 y), str_app_cons. unfold year.
    rewrite !digit_not by (cbv; lia).
    rewrite <- str_app_cons, <- padded_front.
    apply number_padded_small. change (10 ^ Z.of_nat 4) with 10000. lia.
  - destruct (Z.ltb_spec y 0); [lia|].
    rewrite str_app_assoc, str_app_cons, str_app_nil_l. unfold year.
    cbn [Ascii.eqb Bool.eqb]. cbv iota.
    rewrite Z.abs_eq by lia.
    apply number_padded_small. change (10 ^ Z.of_nat 6) with 1000000. lia.
  - destruct (Z.ltb_spec y 0); [|lia].
    rewrite str_app_assoc, str_app_cons, str_app_nil_l. unfold year.
    cbn [Ascii.eqb Bool.eqb]. cbv iota.
    rewrite number_padded_small
      by (change (10 ^ Z.of_nat 6) with 1000000; lia).
    destruct (Z.eqb_spec (Z.abs y) 0); [lia|]. f_equal. f_equal. lia.
Qed.


Lemma civil_year_bound days :
  -100000000 <= days <= 100000000 ->
  let '(y, m, d) := civilFromDays days in -999999 <= y <= 999999.
Proof.
  intros Hd. unfold civilFromDays.
  set (z := days + 719468).
  set (era := z / 146097).
  set (doe := z mod 146097).
  assert (Hdoe : 0 <= doe < 146097) by (apply Z.mod_pos_bound; lia).
  assert (Hera : -700 <= era <= 700) by (subst era z; Z.div_mod_to_equations; lia).
  clearbody doe era.
  set (yoe := (doe - doe / 1460 + doe / 36524 - doe / 146096) / 365).
  assert (Hyoe : 0 <= yoe <= 399) by (subst yoe; Z.div_mod_to_equations; lia).
  clearbody yoe.
  match goal with |- context [if ?b then 1 else 0] => destruct b end; lia.
Qed.

Lemma within_ok lo hi v : lo <= v <= hi -> within lo hi v = Some tt.
Proof.
  intros [H1 H2]. unfold within.
  destruct (Z.leb_spec lo v); [|lia]. destruct (Z.leb_spec v hi); [|lia].
  reflexivity.
Qed.

Lemma expect_ok c rest : expect c (String c rest) = Some rest.
Proof. unfold expect. rewrite Ascii.eqb_refl. reflexivity. Qed.

Lemma sep_app c rest : String c "" +:+ rest = String c rest.
Proof. reflexivity. Qed.

(** [Date.parse] reads back what [toISOString] wrote. *)
Lemma parse_toISOString t : validTime t -> parse (toISOString t) = Some t.
Proof.
  unfold validTime, maxTime. intros Ht. unfold toISOString.
  set (ms := t mod msPerDay).
  assert (Hms : 0 <= ms < 86400000) by (apply Z.mod_pos_bound; reflexivity).
  assert (Hday : -100000000 <= t / msPerDay <= 100000000)
    by (unfold msPerDay; Z.div_mod_to_equations; lia).
  assert (Ht' : t = t / msPerDay * msPerDay + ms)
    by (subst ms; unfold msPerDay; Z.div_mod_to_equations; lia).
  pose proof (civil_year_bound _ Hday) as Hy.
  pose proof (civil_month_day (t / msPerDay)) as Hmd.
  pose proof (civil_roundtrip (t / msPerDay)) as Hrt.
  destruct (civilFromDays (t / msPerDay)) as [[y m] d].
  destruct Hmd as [Hm Hd].
  assert (Hd31 : d <= 31).
  { unfold daysInMonth in Hd.
    repeat match type of Hd with context [if ?b then _ else _] => destruct b end; lia. }
  clearbody ms.
  unfold parse.
  rewrite year_yearString by exact Hy. cbn [mbind option_bind].
  rewrite !sep_app, expect_ok. cbn [mbind option_bind].
  rewrite number_padded_small by (change (10 ^ Z.of_nat 2) with 100; lia).
  cbn [mbind option_bind]. rewrite within_ok by exact Hm.
  cbn [mbind option_bind]. rewrite expect_ok. cbn [mbind option_bind].
  rewrite number_padded_small by (change (10 ^ Z.of_nat 2) with 100; lia).
  cbn [mbind option_bind]. rewrite within_ok by exact Hd.
  cbn [mbind option_bind]. rewrite expect_ok. cbn [mbind option_bind].
  rewrite number_padded_small
    by (change (10 ^ Z.of_nat 2) with 100; Z.div_mod_to_equations; lia).
  cbn [mbind option_bind].
  rewrite within_ok by (Z.div_mod_to_equations; lia).
  cbn [mbind option_bind]. rewrite expect_ok. cbn [mbind option_bind].
  rewrite number_padded_small
    by (change (10 ^ Z.of_nat 2) with 100; Z.div_mod_to_equations; lia).
  cbn [mbind option_bind].
  rewrite within_ok by (Z.div_mod_to_equations; lia).
  cbn [mbind option_bind]. rewrite expect_ok. cbn [mbind option_bind].
  rewrite number_padded_small
    by (change (10 ^ Z.of_nat 2) with 100; Z.div_mod_to_equations; lia).
  cbn [mbind option_bind].
  rewrite within_ok by (Z.div_mod_to_equations; lia).
  cbn [mbind option_bind]. rewrite expect_ok. cbn [mbind option_bind].
  rewrite number_padded_small
    by (change (10 ^ Z.of_nat 3) with 1000; Z.div_mod_to_equations; lia).
  cbn [mbind option_bind].
  change (expect "Z" "Z") with (Some ""). cbn [mbind option_bind].
  change (String.eqb "" "") with true. cbv iota.
  f_equal. rewrite Hrt. unfold msPerDay in *.
  set (q := t / 86400000) in *. clearbody q.
  Z.div_mod_to_equations. lia.
Qed.

End DateFacts.

(** ** The entry point *)

Section Handlers.
Import JsString Server.

Lemma increment_in_window o key w n resetTime :
  hits w !! key = Some (n, resetTime) -> now w < resetTime ->
  increment o key w = (n + 1, resetTime).
Proof.
  intros Hh Hw. unfold increment. rewrite Hh.
  destruct (Z.ltb_spec (now w) resetTime); [reflexivity|lia].
Qed.

Lemma increment_first o key w :
  hits w !! key = None -> increment o key w = (1, now w + windowMs o).
Proof. intros Hh. unfold increment. rewrite Hh. reflexivity. Qed.

(** A client over the maximum is answered by the limiter itself. *)
Lemma limiter_blocks req w res n resetTime :
  hits w !! ip req = Some (n, resetTime) -> now w < resetTime -> 500 <= n ->
  exists w' sent,
    limiter req w res = (w', Responded sent)
    /\ statusCode sent = 429
    /\ body sent = Json tooManyRequests
    /\ headers sent !! "RateLimit-Limit" = Some "500"
    /\ headers sent !! "RateLimit-Remaining" = Some "0"
    /\ is_Some (headers sent !! "RateLimit-Reset")
    /\ headers sent !! "X-RateLimit-Limit" = headers res !! "X-RateLimit-Limit"
    /\ headers sent !! "X-RateLimit-Remaining" = headers res !! "X-RateLimit-Remaining"
    /\ headers sent !! "X-RateLimit-Reset" = headers res !! "X-RateLimit-Reset".
Proof.
  intros Hh Hw Hn. unfold limiter, rateLimit.
  rewrite (increment_in_window _ _ _ _ _ Hh Hw).
  change (max limiterOptions) with 500.
  destruct (Z.ltb_spec 500 (n + 1)); [|lia].
  replace (Z.max (500 - (n + 1)) 0) with 0 by lia.
  eexists _, _. split; [reflexivity|].
  cbn [legacyHeaders standardHeaders limiterOptions orb statusCode body headers
       res_json res_status res_set standardRateHeaders max].
  repeat split.
  - rewrite lookup_insert_ne by discriminate.
    rewrite lookup_insert_ne by discriminate.
    rewrite lookup_insert_ne by discriminate.
    apply lookup_insert_eq.
  - rewrite lookup_insert_ne by discriminate.
    rewrite lookup_insert_ne by discriminate.
    apply lookup_insert_eq.
  - rewrite lookup_insert_ne by discriminate.
    rewrite lookup_insert_eq. eauto.
  - rewrite !lookup_insert_ne by discriminate. reflexivity.
  - rewrite !lookup_insert_ne by discriminate. reflexivity.
  - rewrite !lookup_insert_ne by discriminate. reflexivity.
Qed.

(** The headers the limiter writes, on a request it lets through as on
    one it refuses. *)
Lemma limiter_headers req w res :
  let res' := responseOf (limiter req w res).2 in
  headers res' !! "RateLimit-Limit" = Some "500"
  /\ is_Some (headers res' !! "RateLimit-Remaining")
  /\ is_Some (headers res' !! "RateLimit-Reset")
  /\ headers res' !! "X-RateLimit-Limit" = headers res !! "X-RateLimit-Limit"
  /\ headers res' !! "X-RateLimit-Remaining" = headers res !! "X-RateLimit-Remaining"
  /\ headers res' !! "X-RateLimit-Reset" = headers res !! "X-RateLimit-Reset".
Proof.
  cbv zeta. unfold limiter, rateLimit.
  destruct (increment limiterOptions (ip req) w) as [totalHits resetTime].
  cbv zeta. destruct (max limiterOptions <? totalHits);
    cbn [snd responseOf legacyHeaders standardHeaders limiterOptions orb headers
         res_json res_status res_set standardRateHeaders max];
    rewrite ?lookup_insert_eq;
    repeat (rewrite lookup_insert_ne by discriminate; rewrite ?lookup_insert_eq);
    repeat split; eauto.
Qed.

Lemma lower_slash c : Ascii.eqb (lower c) "/" = Ascii.eqb c "/".
Proof. destruct c as [[] [] [] [] [] [] [] []]; reflexivity. Qed.

Lemma lowercase_cons c s : lowercase (String c s) = String (lower c) (lowercase s).
Proof. reflexivity. Qed.

Lemma str_prefix_nil s : String.prefix "" s = true.
Proof. destruct s; reflexivity. Qed.

Lemma str_eqb_cons a s b t :
  String.eqb (String a s) (String b t) = (Ascii.eqb a b && String.eqb s t)%bool.
Proof.
  cbn [String.eqb]. destruct (Ascii.eqb a b); reflexivity.
Qed.

(** The paths a layer mounted at [/api] sees. *)
Lemma mounted_api p :
  Express.mounted "/api" p
  = (String.eqb (lowercase p) "/api" || startsWith (lowercase p) "/api/")%bool.
Proof.
  unfold Express.mounted, startsWith_ci, startsWith.
  change (String.eqb "/api" "/") with false. cbv iota.
  change (lowercase "/api") with "/api".
  change (String.length "/api") with 4%nat.
  assert (Hslash : forall c, Ascii.eqb "/" (lower c) = Ascii.eqb "/" c).
  { intros c. rewrite !(Ascii.eqb_sym "/"). apply lower_slash. }
  destruct p as [|c1 [|c2 [|c3 [|c4 [|c5 rest]]]]];
    cbn [lowercase substring truthy negb];
    rewrite ?str_eqb_cons, ?str_prefix_cons, ?str_prefix_nil_r, ?str_prefix_nil;
    rewrite ?(Ascii.eqb_sym (lower _) _), ?Hslash;
    try reflexivity;
    repeat match goal with
           | |- context [Ascii.eqb ?a ?c] =>
               destruct (Ascii.eqb a c); cbn [andb orb]; try reflexivity
           end.
Qed.

(** *** Stacks of layers *)

(** One layer of a stack at a time. *)
Lemma skipn_nth {A} (l : list A) k x :
  nth_error l k = Some x -> skipn k l = x :: skipn (S k) l.
Proof.
  revert k. induction l as [|y l IH]; intros [|k] H; try discriminate.
  - injection H as ->. reflexivity.
  - apply IH in H. exact H.
Qed.

Lemma run_at_use layers k mount mw req w res :
  nth_error layers k = Some (Use mount mw) ->
  run (skipn k layers) req w res =
  if Express.mounted mount (path req) then
    match mw req w res with
    | (w', Responded res') => (w', Sent res')
    | (w', Next res') => run (skipn (S k) layers) req w' res'
    | (w', Failed err res') => recover (skipn (S k) layers) req err w' res'
    end
  else run (skipn (S k) layers) req w res.
Proof. intros H. rewrite (skipn_nth _ _ _ H). reflexivity. Qed.

Lemma run_at_get layers k pat mw req w res :
  nth_error layers k = Some (Get pat mw) ->
  run (skipn k layers) req w res =
  if (isGet req && Express.routeMatches pat (path req))%bool then
    match mw req w res with
    | (w', Responded res') => (w', Sent res')
    | (w', Next res') => run (skipn (S k) layers) req w' res'
    | (w', Failed err res') => recover (skipn (S k) layers) req err w' res'
    end
  else run (skipn (S k) layers) req w res.
Proof. intros H. rewrite (skipn_nth _ _ _ H). reflexivity. Qed.

Lemma run_at_error layers k mount h req w res :
  nth_error layers k = Some (UseError mount h) ->
  run (skipn k layers) req w res = run (skipn (S k) layers) req w res.
Proof. intros H. rewrite (skipn_nth _ _ _ H). reflexivity. Qed.

Lemma sameProcess_refl w : sameProcess w w.
Proof. repeat split. Qed.

Lemma sameProcess_trans w1 w2 w3 :
  sameProcess w1 w2 -> sameProcess w2 w3 -> sameProcess w1 w3.
Proof.
  intros (?&?&?&?) (?&?&?&?). repeat split; congruence.
Qed.

Lemma quiet_pure f : quiet (pure f).
Proof. intros req w res. apply sameProcess_refl. Qed.

Lemma sameProcess_write e w : sameProcess w (write e w).
Proof. unfold write. destruct (exitCode w) eqn:E; repeat split; auto. Qed.

Lemma quiet_bodyParser traceOf parseBody mediaType limit :
  quiet (bodyParser traceOf parseBody mediaType limit).
Proof.
  intros req w res. unfold bodyParser.
  destruct (bodyLength req); [|apply sameProcess_refl].
  destruct (bool_decide _); [|apply sameProcess_refl].
  destruct (limit <? _); [apply sameProcess_refl|].
  destruct (parseBody req); apply sameProcess_refl.
Qed.

Lemma quiet_statusRoute : quiet statusRoute.
Proof. intros req w res. apply sameProcess_refl. Qed.

Lemma quiet_apiErrorHandler traceOf err : quiet (apiErrorHandler traceOf err).
Proof.
  intros req w res. unfold apiErrorHandler.
  destruct (validStatus _); apply sameProcess_write.
Qed.

Lemma quiet_helmet f : quiet (helmetWith f).
Proof. intros req w res. apply sameProcess_refl. Qed.

Lemma quiet_compression : quiet compression.
Proof. intros req w res. apply sameProcess_refl. Qed.

(** A stack of quiet layers is quiet, on the normal path and on the error
    path. *)
Lemma run_quiet layers :
  Forall quietLayer layers ->
  (forall req w res, sameProcess w (run layers req w res).1)
  /\ (forall req err w res, sameProcess w (recover layers req err w res).1).
Proof.
  induction 1 as [|l layers Hl _ [IHrun IHrec]].
  - split; intros; apply sameProcess_refl.
  - split.
    + intros req w res. destruct l as [mount mw|pat mw|mount h]; cbn [run].
      * destruct (Express.mounted mount (path req)); [|apply IHrun].
        pose proof (Hl req w res) as Hq.
        destruct (mw req w res) as [w' [r|r|e r]]; cbn [fst] in *.
        -- exact Hq.
        -- eapply sameProcess_trans; [exact Hq | apply IHrun].
        -- eapply sameProcess_trans; [exact Hq | apply IHrec].
      * destruct (isGet req && Express.routeMatches pat (path req))%bool;
          [|apply IHrun].
        pose proof (Hl req w res) as Hq.
        destruct (mw req w res) as [w' [r|r|e r]]; cbn [fst] in *.
        -- exact Hq.
        -- eapply sameProcess_trans; [exact Hq | apply IHrun].
        -- eapply sameProcess_trans; [exact Hq | apply IHrec].
      * apply IHrun.
    + intros req err w res. destruct l as [mount mw|pat mw|mount h]; cbn [recover].
      * apply IHrec.
      * apply IHrec.
      * destruct (Express.mounted mount (path req)); [|apply IHrec].
        pose proof (Hl err req w res) as Hq.
        destruct (h err req w res) as [w' [r|r|e r]]; cbn [fst] in *.
        -- exact Hq.
        -- eapply sameProcess_trans; [exact Hq | apply IHrun].
        -- eapply sameProcess_trans; [exact Hq | apply IHrec].
Qed.

(** What the listener of [unhandledRejection] leaves behind. *)
Lemma onUnhandledRejection_exits (err : error) (w : world) :
  exitCode w = None ->
  let w' := onUnhandledRejection err w in
  exitCode w' = Some 1
  /\ console w' = console w ++ [Log "UNHANDLED REJECTION! 💥 Shutting down...";
                                ErrorLog None err]
  /\ hits w' = hits w.
Proof.
  intros Hrun. destruct w as [t e h c x]. simpl in Hrun. subst x.
  cbv zeta. unfold onUnhandledRejection, write, exit. simpl.
  repeat split. rewrite <- app_assoc. reflexivity.
Qed.

End Handlers.

Section Application.
Import JsString Server.

Variable helmetHeaders : response -> response.
Variables cors trackAPIStats : request -> response -> outcome.
Variables propertyrouter userrouter formrouter newsrouter appointmentRouter
          adminRouter adminProperties propertyRoutes luckyrouter
  : request -> response -> outcome.
Variable traceOf : string -> option string.
Variables parseJson parseUrlencoded : request -> option error.
Variable mime_lookup : string -> option string.
Variable fs : gmap string node.
Variable cwd : string.
Variable __dirname : string.

Abbreviation theApp :=
  (app helmetHeaders cors trackAPIStats propertyrouter userrouter formrouter
       newsrouter appointmentRouter adminRouter adminProperties propertyRoutes
       luckyrouter traceOf parseJson parseUrlencoded mime_lookup fs cwd __dirname).
Abbreviation theHandle :=
  (handle helmetHeaders cors trackAPIStats propertyrouter userrouter formrouter
       newsrouter appointmentRouter adminRouter adminProperties propertyRoutes
       luckyrouter traceOf parseJson parseUrlencoded mime_lookup fs cwd __dirname).
Abbreviation theStep :=
  (step helmetHeaders cors trackAPIStats propertyrouter userrouter formrouter
       newsrouter appointmentRouter adminRouter adminProperties propertyRoutes
       luckyrouter traceOf parseJson parseUrlencoded mime_lookup fs cwd __dirname).
Abbreviation theServe :=
  (serve helmetHeaders cors trackAPIStats propertyrouter userrouter formrouter
       newsrouter appointmentRouter adminRouter adminProperties propertyRoutes
       luckyrouter traceOf parseJson parseUrlencoded mime_lookup fs cwd __dirname).

(** An error that reaches the frontend routes is nobody's. *)
Lemma recover_frontend routes req err w res :
  recover (map (frontendLayer) routes) req err w res = (w, Unhandled err res).
Proof. induction routes as [|r routes IH]; [reflexivity|]. exact IH. Qed.

Lemma bodyParser_too_large parseBody mediaType limit req w res len :
  bodyLength req = Some len -> limit < len ->
  contentType req = Some mediaType ->
  bodyParser traceOf parseBody mediaType limit req w res = (w, Failed (tooLarge traceOf) res).
Proof.
  intros Hlen Hover Htype. unfold bodyParser. rewrite Hlen, Htype.
  rewrite bool_decide_eq_true_2 by reflexivity.
  destruct (Z.ltb_spec limit len); [reflexivity|lia].
Qed.

Lemma bodyParser_other_type parseBody mediaType limit req w res :
  contentType req <> Some mediaType ->
  bodyParser traceOf parseBody mediaType limit req w res = (w, Next res).
Proof.
  intros Htype. unfold bodyParser.
  destruct (bodyLength req); [|reflexivity].
  rewrite bool_decide_eq_false_2 by exact Htype. reflexivity.
Qed.

(** What becomes of a failure raised by one of the layers registered
    before the error handler: the handler mounted at [/api] answers it
    when the path is under [/api]; otherwise nobody does. *)
Lemma recover_app_tail k req err w res :
  (k <= 17)%nat ->
  recover (skipn k theApp) req err w res =
  if Express.mounted "/api" (path req) then
    let '(w', o) := apiErrorHandler traceOf err req w res in
    match o with
    | Responded res' => (w', Sent res')
    | Next res' => (w', Unmatched res')
    | Failed err' res' => (w', Unhandled err' res')
    end
  else (w, Unhandled err res).
Proof.
  intros Hk. unfold app.
  do 18 (destruct k as [|k]; [
    cbn [skipn List.app recover];
    destruct (Express.mounted "/api" (path req));
      [ unfold apiErrorHandler; destruct (validStatus _);
        [reflexivity | apply recover_frontend]
      | apply recover_frontend] |]).
  lia.
Qed.
(** A JSON or form body over the limit: where the request ends. *)
Lemma handle_oversized req w len :
  bodyLength req = Some len -> mb 50 < len ->
  (contentType req = Some "application/json"
   \/ contentType req = Some "application/x-www-form-urlencoded") ->
  theHandle req w = oversizedEnd helmetHeaders traceOf req w.
Proof.
  intros Hlen Hover Htype. unfold handle, oversizedEnd.
  set (theApp := app _ _ _ _ _ _ _ _ _ _ _ _ _ _ _ _ _ _ _).
  assert (Hparse : forall w' res,
            run (skipn 3 theApp) req w' res =
            if Express.mounted "/api" (path req) then
              let '(w'', o) := apiErrorHandler traceOf (tooLarge traceOf) req w' res in
              match o with
              | Responded res' => (w'', Sent res')
              | Next res' => (w'', Unmatched res')
              | Failed err' res' => (w'', Unhandled err' res')
              end
            else (w', Unhandled (tooLarge traceOf) res)).
  { intros w' res.
    rewrite (run_at_use theApp 3 "/"
               (bodyParser traceOf parseJson "application/json" (mb 50)))
      by reflexivity.
    change (Express.mounted "/" (path req)) with true. cbv iota.
    destruct Htype as [Hct|Hct].
    - rewrite (bodyParser_too_large parseJson _ _ req w' res len)
        by assumption.
      apply recover_app_tail. lia.
    - rewrite bodyParser_other_type by (rewrite Hct; discriminate).
      rewrite (run_at_use theApp 4 "/"
                 (bodyParser traceOf parseUrlencoded
                    "application/x-www-form-urlencoded" (mb 50)))
        by reflexivity.
      change (Express.mounted "/" (path req)) with true. cbv iota.
      rewrite (bodyParser_too_large parseUrlencoded _ _ req w' res len)
        by assumption.
      apply recover_app_tail. lia. }
  change (run theApp req w freshResponse)
    with (run (skipn 0 theApp) req w freshResponse).
  rewrite (run_at_use theApp 0 "/api" limiter) by reflexivity.
  destruct (Express.mounted "/api" (path req)) eqn:Hm.
  - unfold limiter at 1 2, rateLimit.
    destruct (increment limiterOptions (ip req) w) as [totalHits resetTime].
    cbv zeta. destruct (max limiterOptions <? totalHits); [reflexivity|].
    rewrite (run_at_use theApp 1 "/api" (helmet helmetHeaders)) by reflexivity.
    rewrite Hm. unfold helmet, helmetWith.
    rewrite (run_at_use theApp 2 "/" compression) by reflexivity.
    change (Express.mounted "/" (path req)) with true. unfold compression.
    cbv iota. rewrite Hparse. reflexivity.
  - rewrite (run_at_use theApp 1 "/api" (helmet helmetHeaders)) by reflexivity.
    rewrite Hm.
    rewrite (run_at_use theApp 2 "/" compression) by reflexivity.
    change (Express.mounted "/" (path req)) with true. unfold compression.
    cbv iota. rewrite Hparse. reflexivity.
Qed.
Lemma quiet_after_limiter : Forall quietLayer (skipn 1 theApp).
Proof.
  unfold app. cbn [skipn List.app].
  repeat (apply Forall_cons; split;
          [first [ apply quiet_pure | apply quiet_bodyParser | apply quiet_helmet
                 | apply quiet_compression | apply quiet_statusRoute
                 | intros err; apply quiet_apiErrorHandler ] |]).
  constructor.
Qed.

(** The store of the limiter after a request: one more hit for the
    client when the path is under [/api], no change otherwise. *)
Lemma hits_after_handle req w :
  hits (theHandle req w).1
  = if Express.mounted "/api" (path req)
    then <[ip req := increment limiterOptions (ip req) w]> (hits w)
    else hits w.
Proof.
  unfold handle.
  change (run theApp req w freshResponse)
    with (run (skipn 0 theApp) req w freshResponse).
  rewrite (run_at_use theApp 0 "/api" limiter) by reflexivity.
  destruct (run_quiet _ quiet_after_limiter) as [Hrun Hrec].
  destruct (Express.mounted "/api" (path req)).
  - unfold limiter, rateLimit.
    destruct (increment limiterOptions (ip req) w) as [totalHits resetTime].
    cbv zeta. destruct (max limiterOptions <? totalHits); [reflexivity|].
    match goal with |- hits (run ?l ?r ?w' ?s).1 = _ =>
      destruct (Hrun r w' s) as [-> _] end.
    reflexivity.
  - destruct (Hrun req w freshResponse) as [-> _]. reflexivity.
Qed.
Lemma handle_starts_with_limiter req w :
  theHandle req w =
  if Express.mounted "/api" (path req) then
    match limiter req w freshResponse with
    | (w', Responded res') => (w', Sent res')
    | (w', Next res') => run (skipn 1 theApp) req w' res'
    | (w', Failed err res') => recover (skipn 1 theApp) req err w' res'
    end
  else run (skipn 1 theApp) req w freshResponse.
Proof.
  unfold handle.
  change (run theApp req w freshResponse)
    with (run (skipn 0 theApp) req w freshResponse).
  apply (run_at_use theApp 0 "/api" limiter). reflexivity.
Qed.

Lemma exitCode_after_handle req w : exitCode (theHandle req w).1 = exitCode w.
Proof.
  rewrite handle_starts_with_limiter.
  destruct (run_quiet _ (quiet_after_limiter)) as [Hrun _].
  destruct (Express.mounted "/api" (path req)).
  - unfold limiter, rateLimit.
    destruct (increment limiterOptions (ip req) w) as [totalHits resetTime].
    cbv zeta. destruct (max limiterOptions <? totalHits); [reflexivity|].
    match goal with |- exitCode (run ?l ?r ?w' ?s).1 = _ =>
      destruct (Hrun r w' s) as (_ & _ & _ & ->) end.
    reflexivity.
  - destruct (Hrun req w freshResponse) as (_ & _ & _ & ->). reflexivity.
Qed.

Lemma handle_blocks req w n resetTime :
  Express.mounted "/api" (path req) = true ->
  hits w !! ip req = Some (n, resetTime) -> now w < resetTime -> 500 <= n ->
  exists sent,
    (theHandle req w).2 = Sent sent
    /\ statusCode sent = 429
    /\ body sent = Json tooManyRequests
    /\ headers sent !! "RateLimit-Limit" = Some "500"
    /\ headers sent !! "RateLimit-Remaining" = Some "0"
    /\ is_Some (headers sent !! "RateLimit-Reset")
    /\ headers sent !! "X-RateLimit-Limit" = None
    /\ headers sent !! "X-RateLimit-Remaining" = None
    /\ headers sent !! "X-RateLimit-Reset" = None.
Proof.
  intros Hm Hh Hw Hn. rewrite handle_starts_with_limiter, Hm.
  destruct (limiter_blocks req w freshResponse n resetTime Hh Hw Hn)
    as (w' & sent & -> & H).
  exists sent. split; [reflexivity|]. exact H.
Qed.

(** Requests of one client that arrive while its window runs: from the
    moment the store holds [k] hits, the request number [i] after that
    is refused as soon as [k + i] reaches the maximum. *)
Lemma burst_refused req ts :
  Express.mounted "/api" (path req) = true ->
  forall w k resetTime,
    exitCode w = None ->
    hits w !! ip req = Some (k, resetTime) ->
    Forall (fun t => t < resetTime) ts ->
    forall i r,
      (theServe (map (fun t => Request t req) ts) w).2 !! i = Some r ->
      500 <= k + Z.of_nat i ->
      exists sent, r = Some (Sent sent)
                   /\ statusCode sent = 429 /\ body sent = Json tooManyRequests.
Proof.
  intros Hm. induction ts as [|t ts IH]; intros w k resetTime Hrun Hh Hts i r Hi Hk.
  - destruct i; discriminate.
  - apply Forall_cons in Hts as [Ht Hts].
    cbn [map serve] in Hi. unfold step in Hi. rewrite Hrun in Hi.
    assert (Hh' : hits (setNow t w) !! ip req = Some (k, resetTime)) by exact Hh.
    pose proof (exitCode_after_handle req (setNow t w)) as Hexit.
    pose proof (hits_after_handle req (setNow t w)) as Hhits.
    rewrite Hm, (increment_in_window _ _ _ _ _ Hh' Ht) in Hhits.
    pose proof (fun Hge => handle_blocks req (setNow t w) k resetTime Hm Hh' Ht Hge)
      as Hblock.
    destruct (theHandle req (setNow t w)) as [w1 r1]. cbn [fst snd] in *.
    destruct (theServe (map (fun t0 => Request t0 req) ts) w1) as [w2 rs] eqn:Hrest.
    cbn [snd] in Hi. destruct i as [|i].
    + injection Hi as <-. destruct Hblock as (sent & -> & H1 & H2 & _); [lia|].
      exists sent. auto.
    + assert (Hexit' : exitCode w1 = None) by (rewrite Hexit; exact Hrun).
      apply (IH w1 (k + 1) resetTime Hexit') with (i := i);
        [ | exact Hts | | lia].
      * rewrite Hhits. apply lookup_insert_eq.
      * rewrite Hrest. exact Hi.
Qed.
Lemma run_pure_passes k mount f req w res :
  nth_error theApp k = Some (Use mount (pure f)) ->
  passesOn f req ->
  exists res', run (skipn k theApp) req w res = run (skipn (S k) theApp) req w res'.
Proof.
  intros Hk Hp. rewrite (run_at_use theApp k mount (pure f)) by exact Hk.
  destruct (Express.mounted mount (path req)); [|eauto].
  unfold pure. destruct (Hp res) as [res' ->]. eauto.
Qed.

Lemma run_not_mounted k mount mw req w res :
  nth_error theApp k = Some (Use mount mw) ->
  Express.mounted mount (path req) = false ->
  run (skipn k theApp) req w res = run (skipn (S k) theApp) req w res.
Proof.
  intros Hk Hm. rewrite (run_at_use theApp k mount mw) by exact Hk.
  rewrite Hm. reflexivity.
Qed.

(** A GET request for [/api/status] that the limiter lets through and
    the collaborators in front of the route pass on. *)
Lemma status_reached req w :
  method req = "GET" -> path req = "/api/status" -> bodyLength req = None ->
  fst (increment limiterOptions (ip req) w) <= 500 ->
  passesOn trackAPIStats req -> passesOn cors req ->
  passesOn propertyRoutes req -> passesOn luckyrouter req ->
  exists w' sent,
    theHandle req w = (w', Sent sent)
    /\ statusCode sent = 200
    /\ body sent = Json [("status", JStr "OK");
                         ("time", JStr (JsDate.toISOString (now w)))].
Proof.
  intros Hmeth Hpath Hbody Hunder Hstats Hcors Hroutes Hlucky.
  rewrite (handle_starts_with_limiter req w).
  rewrite Hpath. change (Express.mounted "/api" "/api/status") with true. cbv iota.
  unfold limiter, rateLimit.
  destruct (increment limiterOptions (ip req) w) as [totalHits resetTime].
  cbn [fst] in Hunder. cbv zeta.
  change (max limiterOptions) with 500.
  destruct (Z.ltb_spec 500 totalHits); [lia|].
  set (w1 := setHits _ w). set (res1 := if standardHeaders limiterOptions then _ else _).
  assert (Hnow : now w1 = now w) by reflexivity. clearbody w1 res1.
  rewrite (run_at_use theApp 1 "/api" (helmet helmetHeaders)) by reflexivity.
  rewrite Hpath. change (Express.mounted "/api" "/api/status") with true. cbv iota.
  unfold helmet, helmetWith.
  rewrite (run_at_use theApp 2 "/" compression) by reflexivity.
  change (Express.mounted "/" (path req)) with true. unfold compression. cbv iota.
  rewrite (run_at_use theApp 3 "/" _) by reflexivity.
  change (Express.mounted "/" (path req)) with true. cbv iota.
  unfold bodyParser at 1. rewrite Hbody.
  rewrite (run_at_use theApp 4 "/" _) by reflexivity.
  change (Express.mounted "/" (path req)) with true. cbv iota.
  unfold bodyParser at 1. rewrite Hbody.
  destruct (run_pure_passes 5 "/api" trackAPIStats req w1 (helmetHeaders res1)
              eq_refl Hstats) as [res2 ->].
  destruct (run_pure_passes 6 "/" cors req w1 res2 eq_refl Hcors) as [res3 ->].
  rewrite (run_not_mounted 7 "/api/products" _ req) by (reflexivity || (rewrite Hpath; reflexivity)).
  rewrite (run_not_mounted 8 "/api/users" _ req) by (reflexivity || (rewrite Hpath; reflexivity)).
  rewrite (run_not_mounted 9 "/api/forms" _ req) by (reflexivity || (rewrite Hpath; reflexivity)).
  rewrite (run_not_mounted 10 "/api/news" _ req) by (reflexivity || (rewrite Hpath; reflexivity)).
  rewrite (run_not_mounted 11 "/api/appointments" _ req) by (reflexivity || (rewrite Hpath; reflexivity)).
  rewrite (run_not_mounted 12 "/api/admin" _ req) by (reflexivity || (rewrite Hpath; reflexivity)).
  rewrite (run_not_mounted 13 "/api/properties" _ req) by (reflexivity || (rewrite Hpath; reflexivity)).
  destruct (run_pure_passes 14 "/api" propertyRoutes req w1 res3 eq_refl Hroutes)
    as [res4 ->].
  destruct (run_pure_passes 15 "/api" luckyrouter req w1 res4 eq_refl Hlucky)
    as [res5 ->].
  rewrite (run_at_get theApp 16 "/api/status" statusRoute) by reflexivity.
  unfold isGet. rewrite Hmeth, Hpath.
  change (String.eqb "GET" "GET" || String.eqb "GET" "HEAD")%bool with true.
  change (Express.routeMatches "/api/status" "/api/status") with true.
  cbn [andb]. unfold statusRoute. rewrite Hnow.
  eexists _, _. split; [reflexivity|]. split; reflexivity.
Qed.

(** *** The claims about the entry point *)


(** C6. The route [GET /api/status] answers 200 with the object
    [{status: "OK", time}], where [time] is the clock written in the
    ISO 8601 format: [Date.parse] reads the time value back from it.  A GET
    request for [/api/status] gets this answer from the application when
    the limiter lets it through and the collaborators registered before
    the route pass it on. *)
Theorem status_route_ok (req : request) (w : world) (res : response) :
  JsDate.validTime (now w) ->
  exists sent time,
    statusRoute req w res = (w, Responded sent)
    /\ statusCode sent = 200
    /\ body sent = Json [("status", JStr "OK"); ("time", JStr time)]
    /\ JsDate.parse time = Some (now w)
    /\ (method req = "GET" -> path req = "/api/status" ->
        bodyLength req = None ->
        fst (increment limiterOptions (ip req) w) <= 500 ->
        passesOn trackAPIStats req -> passesOn cors req ->
        passesOn propertyRoutes req -> passesOn luckyrouter req ->
        exists w' sent',
          theHandle req w = (w', Sent sent')
          /\ statusCode sent' = 200 /\ body sent' = body sent).
Proof.
  intros Hvalid.
  exists (res_json [("status", JStr "OK");
                    ("time", JStr (JsDate.toISOString (now w)))]
                   (res_status 200 res)),
         (JsDate.toISOString (now w)).
  split; [reflexivity|]. split; [reflexivity|]. split; [reflexivity|].
  split; [apply parse_toISOString, Hvalid|].
  intros Hmeth Hpath Hbody Hunder Hstats Hcors Hroutes Hlucky.
  destruct (status_reached req w Hmeth Hpath Hbody Hunder Hstats Hcors Hroutes Hlucky)
    as (w' & sent' & H1 & H2 & H3).
  exists w', sent'. auto.
Qed.

(** C7, as the code has it.  The limiter counts with a window of 15
    minutes and a maximum of 500 requests per client.  It is mounted at
    [/api]: it sees the paths that are [/api] or go on with [/api/], up
    to letter case, and no other path.  A request on such a path is one
    more hit for its client, while any other request leaves the store
    alone.  A client that has made 500 requests in its running window
    gets 429 with the object [{success: false, message: "Too many
    requests, please try again later."}] and the headers [RateLimit-*]
    without any [X-RateLimit-*]; on every request the limiter writes the
    headers [RateLimit-*] and leaves [X-RateLimit-*] alone; in a series
    of requests of one client, all within 15 minutes of the first, every
    request after the 500th gets that answer. *)
Theorem rate_limit_on_api_mount :
  windowMs limiterOptions = 15 * 60 * 1000
  /\ max limiterOptions = 500
  /\ (forall p,
        Express.mounted "/api" p
        = (String.eqb (lowercase p) "/api" || startsWith (lowercase p) "/api/")%bool)
  /\ (forall req w,
        hits (theHandle req w).1
        = if Express.mounted "/api" (path req)
          then <[ip req := increment limiterOptions (ip req) w]> (hits w)
          else hits w)
  /\ (forall req w n resetTime,
        Express.mounted "/api" (path req) = true ->
        hits w !! ip req = Some (n, resetTime) -> now w < resetTime -> 500 <= n ->
        exists sent,
          (theHandle req w).2 = Sent sent
          /\ statusCode sent = 429
          /\ body sent
             = Json [("success", JBool false);
                     ("message", JStr "Too many requests, please try again later.")]
          /\ headers sent !! "RateLimit-Limit" = Some "500"
          /\ headers sent !! "RateLimit-Remaining" = Some "0"
          /\ is_Some (headers sent !! "RateLimit-Reset")
          /\ headers sent !! "X-RateLimit-Limit" = None
          /\ headers sent !! "X-RateLimit-Remaining" = None
          /\ headers sent !! "X-RateLimit-Reset" = None)
  /\ (forall req w res,
        let res' := responseOf (limiter req w res).2 in
        headers res' !! "RateLimit-Limit" = Some "500"
        /\ is_Some (headers res' !! "RateLimit-Remaining")
        /\ is_Some (headers res' !! "RateLimit-Reset")
        /\ headers res' !! "X-RateLimit-Limit" = headers res !! "X-RateLimit-Limit"
        /\ headers res' !! "X-RateLimit-Remaining"
           = headers res !! "X-RateLimit-Remaining"
        /\ headers res' !! "X-RateLimit-Reset" = headers res !! "X-RateLimit-Reset")
  /\ (forall req w t0 ts,
        Express.mounted "/api" (path req) = true ->
        exitCode w = None -> hits w !! ip req = None ->
        Forall (fun t => t < t0 + windowMs limiterOptions) ts ->
        forall i r,
          (theServe (map (fun t => Request t req) (t0 :: ts)) w).2 !! i = Some r ->
          (500 <= i)%nat ->
          exists sent,
            r = Some (Sent sent) /\ statusCode sent = 429
            /\ body sent
               = Json [("success", JBool false);
                       ("message", JStr "Too many requests, please try again later.")]).
Proof.
  split; [reflexivity|]. split; [reflexivity|].
  split; [exact mounted_api|]. split; [exact hits_after_handle|].
  split; [exact handle_blocks|]. split; [exact limiter_headers|].
  intros req w t0 ts Hm Hrun Hnone Hts i r Hi Hover.
  cbn [map serve] in Hi. unfold step in Hi. rewrite Hrun in Hi.
  assert (Hnone' : hits (setNow t0 w) !! ip req = None) by exact Hnone.
  pose proof (exitCode_after_handle req (setNow t0 w)) as Hexit.
  pose proof (hits_after_handle req (setNow t0 w)) as Hhits.
  rewrite Hm, (increment_first _ _ _ Hnone') in Hhits.
  destruct (theHandle req (setNow t0 w)) as [w1 r1]. cbn [fst snd] in *.
  destruct (theServe (map (fun t => Request t req) ts) w1) as [w2 rs] eqn:Hrest.
  cbn [snd] in Hi. destruct i as [|i]; [lia|].
  assert (Hexit' : exitCode w1 = None) by (rewrite Hexit; exact Hrun).
  apply (burst_refused req ts Hm w1 1 (t0 + windowMs limiterOptions) Hexit')
    with (i := i); [ | exact Hts | | lia].
  - rewrite Hhits. apply lookup_insert_eq.
  - rewrite Hrest. exact Hi.
Qed.

(** C9. An unhandled rejection, whatever the reason, makes the process
    write the notice and the reason on the console and exit with code 1
    on the spot: nothing that happens afterwards is served. *)
Theorem unhandled_rejection_exits (err : error) (w : world) :
  exitCode w = None ->
  let w' := (theStep w (UnhandledRejection err)).1 in
  exitCode w' = Some 1
  /\ console w'
     = console w ++ [Log "UNHANDLED REJECTION! 💥 Shutting down...";
                     ErrorLog None err]
  /\ (forall evs, theServe evs w' = (w', map (fun _ => None) evs)).
Proof.
  intros Hrun. cbv zeta. unfold step. rewrite Hrun. cbn [fst].
  destruct (onUnhandledRejection_exits err w Hrun) as (Hexit & Hconsole & _).
  split; [exact Hexit|]. split; [exact Hconsole|].
  intros evs. induction evs as [|ev evs IH]; [reflexivity|].
  cbn [serve map]. unfold step at 1. rewrite Hexit, IH. reflexivity.
Qed.

End Application.

Section BodyLimit.
Import JsString Server.

(** C8. The JSON parser and the form parser are set to the limit [50mb],
    50 * 1024 * 1024 bytes.  A request whose body is JSON or URL-encoded
    and longer than that is stopped with a client error before any
    route runs: the answer is 413 (from the error handler under [/api],
    and left to the framework elsewhere), or 429 when the limiter answers
    first; and it is the same answer whatever the routes, the statistics
    middleware and the CORS middleware would do. *)
Theorem oversized_body_rejected
        (helmetHeaders : response -> response)
        (cors trackAPIStats cors' trackAPIStats' : request -> response -> outcome)
        (propertyrouter userrouter formrouter newsrouter appointmentRouter
         adminRouter adminProperties propertyRoutes luckyrouter
         propertyrouter' userrouter' formrouter' newsrouter' appointmentRouter'
         adminRouter' adminProperties' propertyRoutes' luckyrouter'
          : request -> response -> outcome)
        (traceOf : string -> option string)
        (parseJson parseUrlencoded parseJson' parseUrlencoded'
          : request -> option error)
        (mime_lookup : string -> option string) (fs : gmap string node)
        (cwd __dirname : string) (req : request) (w : world) (len : Z) :
  bodyLength req = Some len ->
  50 * 1024 * 1024 < len ->
  (contentType req = Some "application/json"
   \/ contentType req = Some "application/x-www-form-urlencoded") ->
  let served :=
    handle helmetHeaders cors trackAPIStats propertyrouter userrouter formrouter
           newsrouter appointmentRouter adminRouter adminProperties propertyRoutes
           luckyrouter traceOf parseJson parseUrlencoded mime_lookup fs cwd
           __dirname req w in
  rejected served.2
  /\ served =
     handle helmetHeaders cors' trackAPIStats' propertyrouter' userrouter'
            formrouter' newsrouter' appointmentRouter' adminRouter'
            adminProperties' propertyRoutes' luckyrouter' traceOf parseJson'
            parseUrlencoded' mime_lookup fs cwd __dirname req w.
Proof.
  intros Hlen Hover Htype served. subst served.
  rewrite !(handle_oversized _ _ _ _ _ _ _ _ _ _ _ _ _ _ _ _ _ _ _ req w len)
    by assumption.
  split; [|reflexivity].
  unfold oversizedEnd. destruct (Express.mounted "/api" (path req)).
  - unfold limiter, rateLimit.
    destruct (increment limiterOptions (ip req) w) as [totalHits resetTime].
    cbv zeta. destruct (max limiterOptions <? totalHits).
    + right. reflexivity.
    + left. reflexivity.
  - reflexivity.
Qed.

End BodyLimit.

(** *** The entry point on concrete requests *)

Section EntryPointSamples.
Import JsString Server.


(** C6, as the claim words it, fails: a GET request for [/api/status] by
    a client that has used up its 500 requests is answered 429 by the
    limiter. *)
Lemma status_refused_over_the_limit :
  method (Sample.request "GET" "/api/status") = "GET"
  /\ path (Sample.request "GET" "/api/status") = "/api/status"
  /\ statusCode <$>
       sentResponse (Sample.handle Sample.indexOnly
                       (Sample.request "GET" "/api/status") Sample.exhausted).2
     = Some 429
  /\ body <$>
       sentResponse (Sample.handle Sample.indexOnly
                       (Sample.request "GET" "/api/status") Sample.exhausted).2
     = Some (Json tooManyRequests).
Proof. repeat split; vm_compute; reflexivity. Qed.

(** C7, as the claim words it, fails in both directions: [/apix] starts
    with [/api], and a client over its limit is served there without a
    hit being counted; [/API/status] does not start with [/api], and the
    same client is refused there. *)
Lemma limiter_not_by_string_prefix :
  startsWith "/apix" "/api" = true
  /\ hits (Sample.handle Sample.indexOnly (Sample.request "GET" "/apix")
             Sample.exhausted).1
     = hits Sample.exhausted
  /\ statusCode <$>
       sentResponse (Sample.handle Sample.indexOnly (Sample.request "GET" "/apix")
                       Sample.exhausted).2
     = Some 200
  /\ startsWith "/API/status" "/api" = false
  /\ statusCode <$>
       sentResponse (Sample.handle Sample.indexOnly
                       (Sample.request "GET" "/API/status") Sample.exhausted).2
     = Some 429.
Proof. repeat split; vm_compute; reflexivity. Qed.

Lemma status_route_ok_witness :
  JsDate.validTime (now (Sample.started None))
  /\ exists sent time,
      statusRoute (Sample.request "GET" "/api/status") (Sample.started None)
                  freshResponse
      = (Sample.started None, Responded sent)
      /\ statusCode sent = 200
      /\ body sent = Json [("status", JStr "OK"); ("time", JStr time)]
      /\ JsDate.parse time = Some (now (Sample.started None))
      /\ exists w' sent',
          Sample.handle Sample.indexOnly (Sample.request "GET" "/api/status")
                        (Sample.started None)
          = (w', Sent sent')
          /\ statusCode sent' = 200 /\ body sent' = body sent.
Proof.
  assert (Hvalid : JsDate.validTime (now (Sample.started None)))
    by (vm_compute; split; discriminate).
  split; [exact Hvalid|].
  destruct (status_route_ok Sample.noHeaders Sample.passOn Sample.passOn
              Sample.passOn Sample.passOn Sample.passOn Sample.passOn
              Sample.passOn Sample.passOn Sample.passOn Sample.passOn
              Sample.passOn Sample.noTrace Sample.parses Sample.parses
              Sample.noMime Sample.indexOnly "/srv/app" "/srv/app"
              (Sample.request "GET" "/api/status") (Sample.started None)
              freshResponse Hvalid)
    as (sent & time & H1 & H2 & H3 & H4 & H5).
  exists sent, time. repeat (split; [assumption|]).
  apply H5; try reflexivity.
  - vm_compute. discriminate.
  - intros res. exists res. reflexivity.
  - intros res. exists res. reflexivity.
  - intros res. exists res. reflexivity.
  - intros res. exists res. reflexivity.
Defined.

Lemma oversized_body_rejected_witness :
  bodyLength (Sample.upload "/api/users" "application/json" 52428801)
  = Some 52428801
  /\ 50 * 1024 * 1024 < 52428801
  /\ rejected (Sample.handle Sample.indexOnly
                 (Sample.upload "/api/users" "application/json" 52428801)
                 (Sample.started None)).2.
Proof.
  split; [reflexivity|]. split; [reflexivity|].
  apply (oversized_body_rejected Sample.noHeaders Sample.passOn Sample.passOn
           Sample.passOn Sample.passOn Sample.passOn Sample.passOn Sample.passOn
           Sample.passOn Sample.passOn Sample.passOn Sample.passOn Sample.passOn
           Sample.passOn Sample.passOn Sample.passOn Sample.passOn Sample.passOn
           Sample.passOn Sample.passOn Sample.passOn Sample.passOn Sample.passOn
           Sample.noTrace Sample.parses Sample.parses Sample.parses Sample.parses
           Sample.noMime Sample.indexOnly "/srv/app" "/srv/app"
           (Sample.upload "/api/users" "application/json" 52428801)
           (Sample.started None) 52428801).
  - reflexivity.
  - reflexivity.
  - left. reflexivity.
Defined.

Lemma unhandled_rejection_exits_witness :
  exitCode (Sample.started None) = None
  /\ exitCode
       (step Sample.noHeaders Sample.passOn Sample.passOn Sample.passOn
             Sample.passOn Sample.passOn Sample.passOn Sample.passOn
             Sample.passOn Sample.passOn Sample.passOn Sample.passOn
             Sample.noTrace Sample.parses Sample.parses Sample.noMime
             Sample.indexOnly "/srv/app" "/srv/app" (Sample.started None)
             (UnhandledRejection Sample.badInput)).1
     = Some 1.
Proof.
  split; [reflexivity|].
  apply (unhandled_rejection_exits Sample.noHeaders Sample.passOn Sample.passOn
           Sample.passOn Sample.passOn Sample.passOn Sample.passOn Sample.passOn
           Sample.passOn Sample.passOn Sample.passOn Sample.passOn Sample.noTrace
           Sample.parses Sample.parses Sample.noMime Sample.indexOnly "/srv/app"
           "/srv/app" Sample.badInput (Sample.started None)).
  reflexivity.
Defined.


Lemma rate_limit_on_api_mount_witness :
  Express.mounted "/api" (path (Sample.request "GET" "/api/users")) = true
  /\ hits Sample.exhausted !! ip (Sample.request "GET" "/api/users")
     = Some (500, 1700000001000)
  /\ now Sample.exhausted < 1700000001000
  /\ exists sent,
      (Sample.handle Sample.indexOnly (Sample.request "GET" "/api/users")
                     Sample.exhausted).2 = Sent sent
      /\ statusCode sent = 429
      /\ body sent
         = Json [("success", JBool false);
                 ("message", JStr "Too many requests, please try again later.")]
      /\ headers sent !! "RateLimit-Limit" = Some "500"
      /\ headers sent !! "RateLimit-Remaining" = Some "0"
      /\ is_Some (headers sent !! "RateLimit-Reset")
      /\ headers sent !! "X-RateLimit-Limit" = None
      /\ headers sent !! "X-RateLimit-Remaining" = None
      /\ headers sent !! "X-RateLimit-Reset" = None.
Proof.
  split; [reflexivity|]. split; [vm_compute; reflexivity|].
  split; [reflexivity|].
  apply (proj1 (proj2 (proj2 (proj2 (proj2
           (rate_limit_on_api_mount Sample.noHeaders Sample.passOn Sample.passOn
              Sample.passOn Sample.passOn Sample.passOn Sample.passOn
              Sample.passOn Sample.passOn Sample.passOn Sample.passOn
              Sample.passOn Sample.noTrace Sample.parses Sample.parses
              Sample.noMime Sample.indexOnly "/srv/app" "/srv/app")))))
           (Sample.request "GET" "/api/users") Sample.exhausted 500 1700000001000).
  - reflexivity.
  - vm_compute. reflexivity.
  - reflexivity.
  - lia.
Defined.

End EntryPointSamples.

(** * Further properties *)

(** ** Paths in normal form *)

Section ShapeFacts.
Import JsString NodePath PathShape.

Lemma noSlash_split s : noSlash s = true -> split s = [s].
Proof.
  induction s as [|c s IH]; [reflexivity|].
  cbn [noSlash]. intros [Hc Hs]%andb_true_iff.
  rewrite split_cons. apply negb_true_iff in Hc. rewrite Hc, (IH Hs). reflexivity.
Qed.

Lemma plain_noSlash seg : plain seg = true -> noSlash seg = true.
Proof. unfold plain. intros [_ H]%andb_true_iff. exact H. Qed.

Lemma plain_truthy seg : plain seg = true -> truthy seg = true.
Proof. destruct seg; [discriminate|reflexivity]. Qed.

Lemma plain_tests seg :
  plain seg = true ->
  String.eqb seg "" = false /\ String.eqb seg "." = false
  /\ String.eqb seg ".." = false.
Proof.
  unfold plain. intros [H _]%andb_true_iff. apply negb_true_iff in H.
  apply orb_false_iff in H as [H H3]. apply orb_false_iff in H as [H1 H2].
  auto.
Qed.

Lemma forallb_plain_noSlash segs :
  forallb plain segs = true -> forallb noSlash segs = true.
Proof.
  induction segs as [|a l IH]; [reflexivity|]. cbn [forallb].
  intros [Ha Hl]%andb_true_iff. rewrite (plain_noSlash a Ha), (IH Hl). reflexivity.
Qed.

Lemma split_unsplit segs :
  forallb noSlash segs = true -> segs <> [] -> split (unsplit segs) = segs.
Proof.
  induction segs as [|a l IH]; [congruence|].
  cbn [forallb]. intros [Ha Hl]%andb_true_iff _.
  destruct l as [|b l].
  - apply noSlash_split, Ha.
  - rewrite unsplit_cons2.
    change (a +:+ "/" +:+ unsplit (b :: l)) with (a +:+ String "/" (unsplit (b :: l))).
    rewrite split_app_slash, (noSlash_split a Ha), IH by (auto; discriminate).
    reflexivity.
Qed.

Lemma unsplit_split s : unsplit (split s) = s.
Proof.
  induction s as [|c s IH]; [reflexivity|].
  rewrite split_cons. pose proof (split_nonempty s) as Hne.
  destruct (Ascii.eqb_spec c "/") as [->|_].
  - destruct (split s) as [|seg rest]; [congruence|].
    rewrite unsplit_cons2, IH. reflexivity.
  - destruct (split s) as [|seg rest]; [congruence|].
    destruct rest as [|b rest].
    + cbn [unsplit] in *. rewrite IH. reflexivity.
    + rewrite unsplit_cons2 in *. rewrite str_app_cons, IH. reflexivity.
Qed.

Lemma split_noSlash s : forallb noSlash (split s) = true.
Proof.
  induction s as [|c s IH]; [reflexivity|].
  rewrite split_cons. pose proof (split_nonempty s) as Hne.
  destruct (Ascii.eqb c "/") eqn:Hc.
  - cbn [forallb noSlash]. exact IH.
  - destruct (split s) as [|seg rest]; [congruence|].
    cbn [forallb noSlash] in *. rewrite Hc. exact IH.
Qed.

Lemma unsplit_app l1 l2 :
  l1 <> [] -> l2 <> [] ->
  unsplit (l1 ++ l2) = unsplit l1 +:+ "/" +:+ unsplit l2.
Proof.
  intros H1 H2. induction l1 as [|a l1 IH]; [congruence|].
  destruct l1 as [|b l1].
  - destruct l2 as [|c l2]; [congruence|]. reflexivity.
  - change ((a :: b :: l1) ++ l2) with (a :: b :: (l1 ++ l2)).
    rewrite !unsplit_cons2.
    change (b :: l1 ++ l2) with ((b :: l1) ++ l2).
    rewrite IH by discriminate. rewrite !str_app_assoc. reflexivity.
Qed.

Lemma under_snoc dir segs seg :
  under dir (segs ++ [seg]) = under dir segs +:+ "/" +:+ seg.
Proof. unfold under. rewrite fold_left_app. reflexivity. Qed.

Lemma under_cons dir seg segs :
  under dir (seg :: segs) = under (dir +:+ "/" +:+ seg) segs.
Proof. reflexivity. Qed.

Lemma under_app dir l1 l2 : under dir (l1 ++ l2) = under (under dir l1) l2.
Proof. unfold under. apply fold_left_app. Qed.

Lemma under_unsplit dir segs :
  segs <> [] -> under dir segs = dir +:+ "/" +:+ unsplit segs.
Proof.
  revert dir. induction segs as [|a l IH]; [congruence|]. intros dir _.
  rewrite under_cons. destruct l as [|b l]; [reflexivity|].
  rewrite IH by discriminate. rewrite unsplit_cons2, !str_app_assoc. reflexivity.
Qed.

(** The shape of a canonical path. *)
Lemma canonical_shape D :
  canonical D = true ->
  exists segs, segs <> [] /\ forallb plain segs = true /\ D = "/" +:+ unsplit segs.
Proof.
  destruct D as [|c rest]; [discriminate|].
  cbn [canonical]. intros [Hc Hs]%andb_true_iff.
  apply Ascii.eqb_eq in Hc. subst c.
  exists (split rest). split; [apply split_nonempty|]. split; [exact Hs|].
  rewrite unsplit_split. reflexivity.
Qed.

Lemma canonical_segments segs :
  segs <> [] -> forallb plain segs = true -> canonical ("/" +:+ unsplit segs) = true.
Proof.
  intros Hne Hs. change ("/" +:+ unsplit segs) with (String "/" (unsplit segs)).
  cbn [canonical]. rewrite split_unsplit by (auto using forallb_plain_noSlash).
  rewrite Hs. reflexivity.
Qed.

Lemma canonical_under D segs :
  canonical D = true -> forallb plain segs = true ->
  canonical (under D segs) = true.
Proof.
  intros HD Hs. destruct segs as [|a l]; [exact HD|].
  destruct (canonical_shape D HD) as (sd & Hne & Hsd & ->).
  rewrite under_unsplit by discriminate.
  rewrite str_app_assoc, <- unsplit_app by (auto; discriminate).
  apply canonical_segments.
  - destruct sd; [congruence|discriminate].
  - rewrite forallb_app, Hsd, Hs. reflexivity.
Qed.

(** [normalizeString] on proper names: each is pushed. *)
Lemma normalizeString_plain allow res segs :
  forallb plain segs = true ->
  normalizeString allow res segs = rev segs ++ res.
Proof.
  revert res. induction segs as [|a l IH]; intros res; [reflexivity|].
  cbn [forallb]. intros [Ha Hl]%andb_true_iff.
  destruct (plain_tests a Ha) as (H1 & H2 & H3).
  cbn [normalizeString]. rewrite H1, H2, H3. cbn [orb].
  rewrite IH by exact Hl. cbn [rev]. rewrite <- app_assoc. reflexivity.
Qed.

Lemma normalizeString_push allow res seg segs :
  plain seg = true ->
  normalizeString allow res (seg :: segs) = normalizeString allow (seg :: res) segs.
Proof.
  intros Hs. destruct (plain_tests seg Hs) as (H1 & H2 & H3).
  cbn [normalizeString]. rewrite H1, H2, H3. reflexivity.
Qed.

Lemma normalizeString_empty allow res segs :
  normalizeString allow res ("" :: segs) = normalizeString allow res segs.
Proof. reflexivity. Qed.

Lemma normalizeString_up allow top res segs :
  plain top = true ->
  normalizeString allow (top :: res) (".." :: segs) = normalizeString allow res segs.
Proof.
  intros Ht. destruct (plain_tests top Ht) as (H1 & H2 & H3).
  cbn [normalizeString]. rewrite H3. reflexivity.
Qed.

Lemma noSlash_not_last pre seg :
  noSlash seg = true -> truthy seg = true -> endsWith (pre +:+ seg) "/" = false.
Proof.
  intros Hn Ht.
  assert (Hseg : endsWith seg "/" = false).
  { clear Ht. induction seg as [|c s IH]; [reflexivity|].
    cbn [noSlash] in Hn. apply andb_true_iff in Hn as [Hc Hs].
    rewrite endsWith_cons, (IH Hs), orb_false_r.
    apply negb_true_iff in Hc.
    rewrite str_eqb_cons, Hc. reflexivity. }
  induction pre as [|c pre IH]; [exact Hseg|].
  rewrite str_app_cons, endsWith_cons, IH, orb_false_r.
  destruct (pre +:+ seg) eqn:E.
  - destruct pre; [|discriminate]. rewrite str_app_nil_l in E. subst seg. discriminate.
  - rewrite str_eqb_cons. apply andb_false_intro2. reflexivity.
Qed.

Lemma unsplit_truthy a l : truthy a = true -> truthy (unsplit (a :: l)) = true.
Proof.
  intros Ha. destruct a as [|c a]; [discriminate|].
  destruct l; reflexivity.
Qed.

(** [normalize] on an absolute path, read by segments: the path glued
    from the segments [l] normalises to the names [normalizeString]
    leaves. *)
Lemma normalize_segments l out :
  forallb noSlash l = true ->
  (exists pre lastSeg, l = pre ++ [lastSeg] /\ truthy lastSeg = true) ->
  normalizeString false [] l = rev out ->
  out <> [] -> forallb plain out = true ->
  normalize ("/" +:+ unsplit l) = "/" +:+ unsplit out.
Proof.
  intros Hl (pre & lastSeg & Hpre & Hlast) Hout Hne Hplain.
  assert (Hlne : l <> []) by (subst l; destruct pre; discriminate).
  assert (Htrail : lastIsSlash ("/" +:+ unsplit l) = false).
  { unfold lastIsSlash. subst l.
    destruct (unsplit_snoc pre lastSeg) as [q ->].
    rewrite <- str_app_assoc. apply noSlash_not_last; [|exact Hlast].
    rewrite forallb_app in Hl. apply andb_true_iff in Hl as [_ Hl].
    cbn [forallb] in Hl. rewrite andb_true_r in Hl. exact Hl. }
  assert (Hbody : unsplit (rev (normalizeString false [] (split ("/" +:+ unsplit l))))
                  = unsplit out).
  { change ("/" +:+ unsplit l) with (String "/" (unsplit l)).
    rewrite split_cons. change (Ascii.eqb "/" "/") with true. cbv iota.
    rewrite split_unsplit by assumption.
    rewrite normalizeString_empty, Hout, rev_involutive. reflexivity. }
  assert (Htruthy : truthy (unsplit out) = true).
  { destruct out as [|a o]; [congruence|]. apply unsplit_truthy, plain_truthy.
    cbn [forallb] in Hplain. apply andb_true_iff in Hplain as [Ha _]. exact Ha. }
  change ("/" +:+ unsplit l) with (String "/" (unsplit l)) in *.
  unfold normalize. cbv beta iota zeta.
  change (Ascii.eqb "/" "/") with true. cbv beta iota. cbn [negb].
  rewrite Htrail, Hbody, Htruthy. reflexivity.
Qed.

Lemma normalize_below sd l out :
  sd <> [] -> forallb plain sd = true ->
  forallb noSlash l = true ->
  (exists pre lastSeg, l = pre ++ [lastSeg] /\ truthy lastSeg = true) ->
  normalizeString false (rev sd) l = rev out ->
  out <> [] -> forallb plain out = true ->
  normalize (("/" +:+ unsplit sd) +:+ "/" +:+ unsplit l) = "/" +:+ unsplit out.
Proof.
  intros Hsd Hpl Hl (pre & lastSeg & -> & Hlast) Hout Hne Hplain.
  rewrite str_app_assoc, <- unsplit_app by (auto; destruct pre; discriminate).
  apply normalize_segments; auto.
  - rewrite forallb_app, Hl, (forallb_plain_noSlash sd Hpl). reflexivity.
  - exists (sd ++ pre), lastSeg. rewrite app_assoc. auto.
  - rewrite normalizeString_app, (normalizeString_plain _ _ sd Hpl), app_nil_r.
    exact Hout.
Qed.

Lemma canonical_truthy D : canonical D = true -> truthy D = true.
Proof. destruct D; [discriminate|reflexivity]. Qed.

Lemma under_root_unsplit segs : segs <> [] -> under "" segs = unsplit ("" :: segs).
Proof.
  intros Hne. rewrite under_unsplit by exact Hne.
  destruct segs; [congruence|]. reflexivity.
Qed.

Lemma snoc_last {A} (l : list A) : l <> [] -> exists pre x, l = pre ++ [x].
Proof.
  intros Hne. destruct (exists_last Hne) as (pre & x & ->). eauto.
Qed.

Lemma forallb_last (f : string -> bool) pre x :
  forallb f (pre ++ [x]) = true -> f x = true.
Proof.
  rewrite forallb_app. intros [_ H]%andb_true_iff. cbn [forallb] in H.
  rewrite andb_true_r in H. exact H.
Qed.

(** [path.join] of a canonical directory and names below it. *)
Lemma normalize_under D l :
  canonical D = true -> forallb plain l = true -> l <> [] ->
  forall skipped,
    forallb (fun seg => String.eqb seg "") skipped = true ->
    normalize (D +:+ "/" +:+ unsplit (skipped ++ l)) = under D l.
Proof.
  intros HD Hl Hne skipped Hskip.
  destruct (canonical_shape D HD) as (sd & Hsd & Hpsd & ->).
  destruct (snoc_last l Hne) as (pre & x & ->).
  rewrite (normalize_below sd _ (sd ++ pre ++ [x])); auto.
  - rewrite under_unsplit, unsplit_app by (auto; destruct pre; discriminate).
    rewrite !str_app_assoc. reflexivity.
  - rewrite forallb_app, (forallb_plain_noSlash _ Hl), andb_true_r.
    clear -Hskip. induction skipped as [|a sk IH]; [reflexivity|].
    cbn [forallb] in *. apply andb_true_iff in Hskip as [Ha Hs].
    apply String.eqb_eq in Ha. subst a. rewrite (IH Hs). reflexivity.
  - exists (skipped ++ pre), x. rewrite app_assoc. split; [reflexivity|].
    apply plain_truthy, (forallb_last plain pre x Hl).
  - rewrite normalizeString_app.
    assert (Hsk : forall res, normalizeString false res skipped = res).
    { clear -Hskip. induction skipped as [|a sk IH]; intros res; [reflexivity|].
      cbn [forallb] in Hskip. apply andb_true_iff in Hskip as [Ha Hs].
      apply String.eqb_eq in Ha. subst a.
      rewrite normalizeString_empty. apply IH, Hs. }
    rewrite Hsk, (normalizeString_plain _ _ _ Hl). symmetry. apply rev_app_distr.
  - destruct sd; [congruence|discriminate].
  - rewrite forallb_app, Hpsd, Hl. reflexivity.
Qed.

Lemma glue_pair a b :
  truthy a = true -> truthy b = true -> glue [a; b] = Some (a +:+ "/" +:+ b).
Proof. intros Ha Hb. cbn [glue]. rewrite Ha, Hb. reflexivity. Qed.

Lemma glue_triple a b c :
  truthy a = true -> truthy b = true -> truthy c = true ->
  glue [a; b; c] = Some (a +:+ "/" +:+ b +:+ "/" +:+ c).
Proof. intros Ha Hb Hc. cbn [glue]. rewrite Ha, Hb, Hc. reflexivity. Qed.

Lemma under_root_truthy segs : segs <> [] -> truthy (under "" segs) = true.
Proof. intros H. rewrite under_root_unsplit by exact H. destruct segs; [congruence|reflexivity]. Qed.

Lemma join_under D segs :
  canonical D = true -> forallb plain segs = true -> segs <> [] ->
  join [D; under "" segs] = under D segs.
Proof.
  intros HD Hs Hne. unfold join.
  rewrite glue_pair by auto using canonical_truthy, under_root_truthy.
  rewrite under_root_unsplit by exact Hne.
  apply (normalize_under D segs HD Hs Hne [""]). reflexivity.
Qed.

Lemma join_under_name D segs name :
  canonical D = true -> forallb plain segs = true -> segs <> [] ->
  plain name = true ->
  join [D; under "" segs; name] = under D (segs ++ [name]).
Proof.
  intros HD Hs Hne Hn. unfold join.
  rewrite glue_triple by auto using canonical_truthy, under_root_truthy, plain_truthy.
  rewrite <- under_snoc, under_root_unsplit by (destruct segs; discriminate).
  assert (Hall : forallb plain (segs ++ [name]) = true).
  { rewrite forallb_app, Hs. cbn [forallb]. rewrite Hn. reflexivity. }
  assert (Hne' : segs ++ [name] <> []) by (destruct segs; discriminate).
  apply (normalize_under D (segs ++ [name]) HD Hall Hne' [""]). reflexivity.
Qed.

Lemma join_name D name :
  canonical D = true -> plain name = true -> join [D; name] = under D [name].
Proof.
  intros HD Hn. unfold join.
  rewrite glue_pair by auto using canonical_truthy, plain_truthy.
  assert (Hall : forallb plain [name] = true).
  { cbn [forallb]. rewrite Hn. reflexivity. }
  assert (Hne : [name] <> []) by discriminate.
  apply (normalize_under D [name] HD Hall Hne []). reflexivity.
Qed.

Lemma join_name_segments D name segs :
  canonical D = true -> plain name = true -> forallb plain segs = true ->
  segs <> [] ->
  join [D; name; unsplit segs] = under D (name :: segs).
Proof.
  intros HD Hn Hs Hne. unfold join.
  rewrite glue_triple; auto using canonical_truthy, plain_truthy.
  2:{ destruct segs as [|a l]; [congruence|]. apply unsplit_truthy, plain_truthy.
      cbn [forallb] in Hs. apply andb_true_iff in Hs as [Ha _]. exact Ha. }
  assert (E : name +:+ "/" +:+ unsplit segs = unsplit (name :: segs)).
  { destruct segs; [congruence|reflexivity]. }
  rewrite E.
  assert (Hall : forallb plain (name :: segs) = true).
  { cbn [forallb]. rewrite Hn, Hs. reflexivity. }
  assert (Hne' : name :: segs <> []) by discriminate.
  apply (normalize_under D (name :: segs) HD Hall Hne' []). reflexivity.
Qed.

(** A [..] in the request path takes the joined path out of the
    directory. *)
Lemma join_up D d suffix rest :
  canonical D = true -> plain d = true ->
  forallb plain rest = true -> rest <> [] ->
  suffix = [""; ".."] ++ rest \/ suffix = ["assets"; ".."; ".."] ++ rest ->
  normalize (under D [d] +:+ "/" +:+ unsplit suffix) = under D rest.
Proof.
  intros HD Hd Hrest Hne Hsuffix.
  destruct (canonical_shape D HD) as (sd & Hsd & Hpsd & ->).
  assert (Hd' : under ("/" +:+ unsplit sd) [d] = "/" +:+ unsplit (sd ++ [d])).
  { rewrite under_unsplit, unsplit_app by (auto; discriminate).
    rewrite !str_app_assoc. reflexivity. }
  assert (Hn' : under ("/" +:+ unsplit sd) rest = "/" +:+ unsplit (sd ++ rest)).
  { rewrite under_unsplit, unsplit_app by auto.
    rewrite !str_app_assoc. reflexivity. }
  rewrite Hd', Hn'.
  assert (Hassets : plain "assets" = true) by reflexivity.
  destruct (snoc_last rest Hne) as (pre & x & Erest).
  assert (Hx : truthy x = true).
  { subst rest. apply plain_truthy, (forallb_last plain pre x Hrest). }
  apply normalize_below.
  - destruct sd; discriminate.
  - rewrite forallb_app, Hpsd. cbn [forallb]. rewrite Hd. reflexivity.
  - destruct Hsuffix as [-> | ->]; rewrite forallb_app,
      (forallb_plain_noSlash rest Hrest); reflexivity.
  - destruct Hsuffix as [-> | ->]; subst rest.
    + exists ([""; ".."] ++ pre), x. rewrite <- app_assoc. auto.
    + exists (["assets"; ".."; ".."] ++ pre), x. rewrite <- app_assoc. auto.
  - rewrite !rev_app_distr. cbn [rev List.app].
    destruct Hsuffix as [-> | ->]; cbn [List.app].
    + rewrite normalizeString_empty, normalizeString_up by exact Hd.
      rewrite (normalizeString_plain _ _ rest) by exact Hrest. reflexivity.
    + rewrite normalizeString_push by exact Hassets.
      rewrite normalizeString_up by exact Hassets.
      rewrite normalizeString_up by exact Hd.
      rewrite (normalizeString_plain _ _ rest) by exact Hrest. reflexivity.
  - destruct sd; [congruence|discriminate].
  - rewrite forallb_app, Hpsd, Hrest. reflexivity.
Qed.

(** *** [dirname] and [extname] of a path that ends in a proper name *)

Lemma list_of_app a b :
  String.list_ascii_of_string (a +:+ b)
  = String.list_ascii_of_string a ++ String.list_ascii_of_string b.
Proof.
  induction a as [|c a IH]; [reflexivity|].
  rewrite str_app_cons. cbn [String.list_ascii_of_string]. rewrite IH. reflexivity.
Qed.

Lemma noSlash_list s :
  noSlash s = true -> forallb notSlash (String.list_ascii_of_string s) = true.
Proof.
  induction s as [|c s IH]; [reflexivity|].
  cbn [noSlash String.list_ascii_of_string forallb].
  intros [Hc Hs]%andb_true_iff. unfold notSlash at 1. rewrite Hc, (IH Hs). reflexivity.
Qed.

Lemma forallb_rev {A} (f : A -> bool) l : forallb f (rev l) = forallb f l.
Proof.
  induction l as [|a l IH]; [reflexivity|].
  cbn [rev forallb]. rewrite forallb_app, IH. cbn [forallb].
  rewrite andb_true_r. apply andb_comm.
Qed.

Lemma dirnameEnd_segment cs rest m :
  cs <> [] -> forallb notSlash cs = true ->
  dirnameEnd m (cs ++ "/"%char :: rest) = Some rest.
Proof.
  revert m. induction cs as [|c cs IH]; intros m Hne Hcs; [congruence|].
  cbn [forallb] in Hcs. apply andb_true_iff in Hcs as [Hc Hcs].
  unfold notSlash in Hc. apply negb_true_iff in Hc.
  cbn [List.app dirnameEnd]. rewrite Hc.
  destruct cs as [|c' cs].
  - cbn [List.app dirnameEnd]. reflexivity.
  - apply IH; [discriminate|exact Hcs].
Qed.

Lemma takeSegment_segment cs rest :
  forallb notSlash cs = true ->
  takeSegment (cs ++ "/"%char :: rest) = cs /\ takeSegment cs = cs.
Proof.
  induction cs as [|c cs IH]; intros Hcs; [split; reflexivity|].
  cbn [forallb] in Hcs. apply andb_true_iff in Hcs as [Hc Hcs].
  unfold notSlash in Hc. apply negb_true_iff in Hc.
  cbn [List.app takeSegment]. rewrite Hc.
  destruct (IH Hcs) as [-> ->]. split; reflexivity.
Qed.

Lemma rev_name_chars name :
  plain name = true ->
  exists c cs,
    rev (String.list_ascii_of_string name) = c :: cs
    /\ forallb notSlash (c :: cs) = true.
Proof.
  intros Hn.
  pose proof (noSlash_list name (plain_noSlash name Hn)) as Hl.
  rewrite <- forallb_rev in Hl.
  destruct (rev (String.list_ascii_of_string name)) as [|c cs] eqn:E.
  - apply (f_equal (@rev ascii)) in E. rewrite rev_involutive in E.
    destruct name; discriminate.
  - eauto.
Qed.

Lemma dirname_child D name :
  canonical D = true -> plain name = true ->
  dirname (D +:+ "/" +:+ name) = D.
Proof.
  intros HD Hn. destruct D as [|c0 rest]; [discriminate|].
  pose proof HD as HD'. cbn [canonical] in HD'.
  apply andb_true_iff in HD' as [Hc0 Hrest]. apply Ascii.eqb_eq in Hc0. subst c0.
  rewrite str_app_cons. unfold dirname.
  change (rest +:+ "/" +:+ name) with (rest +:+ String "/" name).
  rewrite list_of_app. cbn [String.list_ascii_of_string].
  rewrite rev_app_distr. cbn [rev]. rewrite <- app_assoc. cbn [List.app].
  destruct (rev_name_chars name Hn) as (c & cs & -> & Hcs).
  rewrite dirnameEnd_segment by (auto; discriminate).
  destruct (rev (String.list_ascii_of_string rest)) as [|b before] eqn:E.
  - apply (f_equal (@rev ascii)) in E. rewrite rev_involutive in E.
    destruct rest; [discriminate Hrest|discriminate E].
  - rewrite <- E, rev_involutive, String.string_of_list_ascii_of_string. reflexivity.
Qed.

Lemma dirname_under D init lastSeg :
  canonical D = true -> forallb plain init = true -> plain lastSeg = true ->
  dirname (under D (init ++ [lastSeg])) = under D init.
Proof.
  intros HD Hi Hl. rewrite under_snoc.
  apply dirname_child; auto using canonical_under.
Qed.

Lemma basenameRev_child pre name :
  plain name = true ->
  basenameRev (pre +:+ "/" +:+ name) = basenameRev name.
Proof.
  intros Hn. unfold basenameRev.
  change (pre +:+ "/" +:+ name) with (pre +:+ String "/" name).
  rewrite list_of_app. cbn [String.list_ascii_of_string].
  rewrite rev_app_distr. cbn [rev]. rewrite <- app_assoc. cbn [List.app].
  destruct (rev_name_chars name Hn) as (c & cs & -> & Hcs).
  pose proof Hcs as Hcs'. cbn [forallb] in Hcs'.
  apply andb_true_iff in Hcs' as [Hc _].
  unfold notSlash in Hc. apply negb_true_iff in Hc.
  cbn [List.app dropSlashes]. rewrite Hc.
  change (c :: cs ++ "/"%char :: rev (String.list_ascii_of_string pre))
    with ((c :: cs) ++ "/"%char :: rev (String.list_ascii_of_string pre)).
  destruct (takeSegment_segment (c :: cs) (rev (String.list_ascii_of_string pre)) Hcs)
    as [-> ->].
  reflexivity.
Qed.

Lemma extname_child pre name :
  plain name = true -> extname (pre +:+ "/" +:+ name) = extname name.
Proof. intros Hn. unfold extname. rewrite basenameRev_child by exact Hn. reflexivity. Qed.

Lemma extname_under dir init lastSeg :
  plain lastSeg = true -> extname (under dir (init ++ [lastSeg])) = extname lastSeg.
Proof. intros Hl. rewrite under_snoc. apply extname_child, Hl. Qed.

Lemma normalize_canonical D : canonical D = true -> normalize D = D.
Proof.
  intros HD. destruct (canonical_shape D HD) as (sd & Hsd & Hpsd & ->).
  destruct (snoc_last sd Hsd) as (pre & x & E).
  apply normalize_segments; auto using forallb_plain_noSlash.
  - exists pre, x. split; [exact E|]. subst sd.
    apply plain_truthy, (forallb_last plain pre x Hpsd).
  - rewrite normalizeString_plain by exact Hpsd. apply app_nil_r.
Qed.

Lemma substring_app p x : substring (String.length p) (p +:+ x) = x.
Proof. induction p as [|c p IH]; [reflexivity|]. exact IH. Qed.

Lemma under_prefix p segs : under p segs = p +:+ under "" segs.
Proof.
  induction segs as [|a l IH] using rev_ind.
  - cbn [under fold_left]. rewrite str_app_nil_r. reflexivity.
  - rewrite !under_snoc, IH, !str_app_assoc. reflexivity.
Qed.

Lemma or_else_truthy a b : truthy a = true -> or_else a b = a.
Proof. intros H. unfold or_else. rewrite H. reflexivity. Qed.

End ShapeFacts.

(** ** The routes of the builds on proper paths *)

Section StaticRoutes.
Import JsString NodePath Vite PathShape.

Lemma under_index_html dir segs :
  exists pre, under dir (segs ++ ["index.html"]) = pre +:+ "index.html".
Proof.
  rewrite under_snoc. exists (under dir segs +:+ "/").
  rewrite str_app_assoc. reflexivity.
Qed.

Lemma static_filePath prefix init lastSeg :
  let segs := init ++ [lastSeg] in
  plain lastSeg = true ->
  or_else (substring (String.length prefix) (under prefix segs)) "/" = under "" segs
  /\ endsWith (under "" segs) "/" = false
  /\ extname (under "" segs) = extname lastSeg.
Proof.
  intros segs Hl. subst segs.
  rewrite under_prefix, substring_app.
  rewrite or_else_truthy by (apply under_root_truthy; destruct init; discriminate).
  split; [reflexivity|]. split.
  - rewrite under_snoc, <- str_app_assoc.
    apply noSlash_not_last; auto using plain_noSlash, plain_truthy.
  - apply extname_under, Hl.
Qed.

Lemma forallb_snoc (f : string -> bool) l x :
  forallb f l = true -> f x = true -> forallb f (l ++ [x]) = true.
Proof. intros Hl Hx. rewrite forallb_app, Hl. cbn [forallb]. rewrite Hx. reflexivity. Qed.

Lemma snoc_nonempty {A} (l : list A) x : l ++ [x] <> [].
Proof. destruct l; discriminate. Qed.

(** The paths the static route computes for a request of proper
    names. *)
Lemma static_paths D init lastSeg :
  let segs := init ++ [lastSeg] in
  canonical D = true -> forallb plain init = true -> plain lastSeg = true ->
  join [D; under "" segs] = under D segs
  /\ join [D; under "" segs; "index.html"] = under D (segs ++ ["index.html"])
  /\ join [dirname (under D segs); "index.html"] = under D (init ++ ["index.html"]).
Proof.
  intros segs HD Hi Hl. subst segs.
  assert (Hs : forallb plain (init ++ [lastSeg]) = true) by auto using forallb_snoc.
  split; [|split].
  - apply join_under; auto using snoc_nonempty.
  - apply join_under_name; auto using snoc_nonempty.
  - rewrite dirname_under by assumption.
    rewrite join_name by auto using canonical_under.
    rewrite <- under_app. reflexivity.
Qed.

(** What the static route does with a path of proper names: the
    directory index of a name without extension first, then the file
    itself, then the [index.html] beside it. *)
Lemma staticRoute_on_names mime_lookup fs D prefix init lastSeg res :
  let segs := init ++ [lastSeg] in
  let html (p : string) := res_sendFile p (res_set "Content-Type" "text/html" res) in
  canonical D = true -> forallb plain init = true -> plain lastSeg = true ->
  startsWith (under prefix segs) "/api/" = false ->
  staticRoute mime_lookup fs D prefix (under prefix segs) res
  = Responded
      (if (negb (truthy (extname lastSeg))
           && existsSync fs (under D (segs ++ ["index.html"])))%bool
       then html (under D (segs ++ ["index.html"]))
       else if existsSync fs (under D segs)
       then res_sendFile (under D segs)
              (res_set "Content-Type" (getMimeType mime_lookup (under D segs)) res)
       else if existsSync fs (under D (init ++ ["index.html"]))
       then html (under D (init ++ ["index.html"]))
       else notFound res).
Proof.
  intros segs html HD Hi Hl Hapi.
  destruct (static_filePath prefix init lastSeg Hl) as (Hfile & Hslash & Hext).
  destruct (static_paths D init lastSeg HD Hi Hl) as (Hfull & Hindex & Hbeside).
  fold segs in Hfile, Hslash, Hext, Hfull, Hindex, Hbeside.
  unfold staticRoute. rewrite Hapi, Hfile, Hslash, Hext, Hfull, Hindex.
  cbn [orb].
  destruct (negb (truthy (extname lastSeg))
            && existsSync fs (under D (segs ++ ["index.html"])))%bool eqn:Hcond.
  - apply andb_true_iff in Hcond as [_ Hex].
    rewrite serveFile_existing by exact Hex.
    destruct (under_index_html D segs) as [pre Hpre].
    rewrite Hpre, getMimeType_html. reflexivity.
  - unfold serveFile. rewrite Hbeside.
    destruct (existsSync fs (under D segs)); reflexivity.
Qed.

(** X1. The static route of a build, on a request path made of proper
    names below the URL prefix.  When the last name has no extension and
    [index.html] is a file in the directory of that name, that page is
    sent as [text/html]; otherwise, when the named file is there and its
    name does not begin with a dot (a name [res.sendFile] refuses), the
    route sends it with the Content-Type [getMimeType] gives its path.
    The file path is the build directory followed by the names of the
    request path. *)
Theorem static_route_serves_named_file (mime_lookup : string -> option string)
        (fs : gmap string node) (D prefix : string) (init : list string)
        (lastSeg : string) (res : response) :
  let segs := init ++ [lastSeg] in
  let reqPath := under prefix segs in
  let index := under D (segs ++ ["index.html"]) in
  canonical D = true -> forallb plain init = true -> plain lastSeg = true ->
  startsWith reqPath "/api/" = false ->
  (forall html,
      extname lastSeg = "" -> fs !! index = Some (File html) ->
      staticRoute mime_lookup fs D prefix reqPath res
      = Responded (res_sendFile index (res_set "Content-Type" "text/html" res)))
  /\ (forall contents,
        extname lastSeg <> "" \/ fs !! index = None ->
        startsWith lastSeg "." = false ->
        fs !! under D segs = Some (File contents) ->
        staticRoute mime_lookup fs D prefix reqPath res
        = Responded (res_sendFile (under D segs)
                       (res_set "Content-Type"
                          (getMimeType mime_lookup (under D segs)) res))).
Proof.
  intros segs reqPath index HD Hi Hl Hapi. subst segs reqPath index.
  rewrite staticRoute_on_names by assumption. split.
  - intros html He Hex. rewrite He, (existsSync_true _ _ _ Hex). reflexivity.
  - intros contents Hor _ Hex. rewrite (existsSync_true _ _ _ Hex).
    destruct Hor as [Hne | Hno].
    + destruct (extname lastSeg); [congruence|reflexivity].
    + rewrite (existsSync_false _ _ Hno), andb_false_r. reflexivity.
Qed.

(** X2. When neither the named file nor a directory index is there, the
    static route falls back to the [index.html] that lies beside the
    requested path, in the directory of its last but one name, and not
    to the [index.html] at the root of the build: it sends that page when
    it is a file, and answers 404 [Not found] when nothing is there. *)
Theorem spa_fallback_is_beside_the_path (mime_lookup : string -> option string)
        (fs : gmap string node) (D prefix : string) (init : list string)
        (lastSeg : string) (res : response) :
  let segs := init ++ [lastSeg] in
  let reqPath := under prefix segs in
  let index := under D (init ++ ["index.html"]) in
  canonical D = true -> forallb plain init = true -> plain lastSeg = true ->
  startsWith reqPath "/api/" = false ->
  fs !! under D segs = None ->
  fs !! under D (segs ++ ["index.html"]) = None ->
  (forall html,
      fs !! index = Some (File html) ->
      staticRoute mime_lookup fs D prefix reqPath res
      = Responded (res_sendFile index (res_set "Content-Type" "text/html" res)))
  /\ (fs !! index = None ->
      staticRoute mime_lookup fs D prefix reqPath res = Responded (notFound res)).
Proof.
  intros segs reqPath index HD Hi Hl Hapi Hmiss Hnoindex. subst segs reqPath index.
  rewrite staticRoute_on_names by assumption.
  rewrite (existsSync_false _ _ Hnoindex), (existsSync_false _ _ Hmiss), andb_false_r.
  split.
  - intros html Hex. rewrite (existsSync_true _ _ _ Hex). reflexivity.
  - intros Hno. rewrite (existsSync_false _ _ Hno). reflexivity.
Qed.

Lemma assetsRoute_on_names mime_lookup fs D prefix segs res :
  let file := under D ("assets" :: segs) in
  canonical D = true -> forallb plain segs = true -> segs <> [] ->
  assetsRoute mime_lookup fs D prefix (under prefix ("assets" :: segs)) res
  = Responded (if existsSync fs file
               then res_sendFile file
                      (res_set "Content-Type" (getMimeType mime_lookup file) res)
               else notFound res).
Proof.
  intros file HD Hs Hne.
  assert (Hreq : under prefix ("assets" :: segs)
                 = (prefix +:+ "/assets/") +:+ unsplit segs).
  { rewrite under_cons, under_unsplit by exact Hne.
    rewrite !str_app_assoc. reflexivity. }
  unfold assetsRoute. rewrite Hreq, substring_app.
  rewrite join_name_segments by auto. fold file.
  unfold serveFile. destruct (existsSync fs file); reflexivity.
Qed.

(** X3. The assets route maps a request below [prefix/assets/] to the
    file of the same names below [assets] in the build directory: it
    sends the file with the Content-Type of its path when the file is
    there and its name does not begin with a dot (a name [res.sendFile]
    refuses), and answers 404 [Not found] when nothing is there. *)
Theorem assets_route_serves_named_file (mime_lookup : string -> option string)
        (fs : gmap string node) (D prefix : string) (init : list string)
        (lastSeg : string) (res : response) :
  let segs := init ++ [lastSeg] in
  let reqPath := under prefix ("assets" :: segs) in
  let file := under D ("assets" :: segs) in
  canonical D = true -> forallb plain init = true -> plain lastSeg = true ->
  (forall contents,
      startsWith lastSeg "." = false ->
      fs !! file = Some (File contents) ->
      assetsRoute mime_lookup fs D prefix reqPath res
      = Responded (res_sendFile file
                     (res_set "Content-Type" (getMimeType mime_lookup file) res)))
  /\ (fs !! file = None ->
      assetsRoute mime_lookup fs D prefix reqPath res = Responded (notFound res)).
Proof.
  intros segs reqPath file HD Hi Hl. subst segs reqPath file.
  rewrite assetsRoute_on_names
    by (auto using forallb_snoc, snoc_nonempty).
  split.
  - intros contents _ Hex. rewrite (existsSync_true _ _ _ Hex). reflexivity.
  - intros Hno. rewrite (existsSync_false _ _ Hno). reflexivity.
Qed.

(** The build directories under the options of the entry point. *)
Lemma entry_directories (dir cwd : string) :
  canonical dir = true ->
  userDistFullPath cwd (Server.frontendOptions dir) = under dir ["user_dist"]
  /\ adminDistFullPath cwd (Server.frontendOptions dir) = under dir ["admin_dist"].
Proof.
  intros Hdir.
  assert (Hjoin : forall name, plain name = true ->
            join [""; join [dir; name]] = under dir [name]).
  { intros name Hn. rewrite (join_name dir name) by assumption.
    assert (Hc : canonical (under dir [name]) = true).
    { apply canonical_under; [exact Hdir|]. cbn [forallb]. rewrite Hn. reflexivity. }
    unfold join. cbn [glue truthy]. rewrite (canonical_truthy _ Hc).
    apply normalize_canonical, Hc. }
  split.
  - apply (Hjoin "user_dist"). reflexivity.
  - apply (Hjoin "admin_dist"). reflexivity.
Qed.

(** X4. With the options of the entry point (absolute build paths and
    an empty [rootDir]) the two build directories are [user_dist] and
    [admin_dist] in the directory of the entry file, whatever the working
    directory is; with no options at all they are [user_dist] and
    [admin_dist] in the working directory, and the admin prefix is
    [/admin]. *)
Theorem build_directories (dir cwd : string) :
  canonical dir = true ->
  (userDistFullPath cwd (Server.frontendOptions dir) = under dir ["user_dist"]
   /\ adminDistFullPath cwd (Server.frontendOptions dir) = under dir ["admin_dist"])
  /\ (userDistFullPath dir (mkOptions None None None None) = under dir ["user_dist"]
      /\ adminDistFullPath dir (mkOptions None None None None)
         = under dir ["admin_dist"]
      /\ adminPrefix (mkOptions None None None None) = "/admin").
Proof.
  intros Hdir. split; [apply entry_directories, Hdir|].
  split; [|split].
  - apply (join_name dir "user_dist" Hdir). reflexivity.
  - apply (join_name dir "admin_dist" Hdir). reflexivity.
  - reflexivity.
Qed.

Lemma routeMatches_any p : Express.routeMatches "*" p = true.
Proof.
  unfold Express.routeMatches. change (Express.beforeStar "*") with (Some "").
  cbv beta iota. unfold startsWith_ci. change (lowercase "") with "".
  apply str_prefix_nil.
Qed.

Lemma str_prefix_app a b c : String.prefix (a +:+ b) (a +:+ c) = String.prefix b c.
Proof.
  induction a as [|x a IH]; [reflexivity|].
  rewrite !str_app_cons, str_prefix_cons, Ascii.eqb_refl. exact IH.
Qed.

Lemma noSlash_no_prefix s name :
  noSlash name = true -> String.prefix (s +:+ "/") name = false.
Proof.
  revert name. induction s as [|x s IH]; intros name Hn.
  - destruct name as [|c name]; [reflexivity|].
    cbn [noSlash] in Hn. apply andb_true_iff in Hn as [Hc _].
    apply negb_true_iff in Hc.
    change ("" +:+ "/") with (String "/" ""). rewrite str_prefix_cons.
    rewrite Ascii.eqb_sym, Hc. reflexivity.
  - destruct name as [|c name]; [reflexivity|].
    cbn [noSlash] in Hn. apply andb_true_iff in Hn as [_ Hn].
    rewrite str_app_cons, str_prefix_cons, (IH name Hn). apply andb_false_r.
Qed.

(** X5. A request path with [..] is not kept inside the build
    directory: [/../name] by the static route and [/assets/../../name] by
    the assets route are both answered with the file [name] of the
    directory of the entry file, which lies outside the user build.
    (The name is one that does not begin with a dot, which
    [res.sendFile] would refuse, and holds no percent sign, so that
    Express decodes the path as it stands.) *)
Theorem dot_dot_reaches_outside_the_build (mime_lookup : string -> option string)
        (fs : gmap string node) (cwd dir name contents : string) :
  let opts := Server.frontendOptions dir in
  let file := under dir [name] in
  let served :=
    res_sendFile file
      (res_set "Content-Type" (getMimeType mime_lookup file) freshResponse) in
  canonical dir = true -> plain name = true ->
  startsWith name "." = false -> noPercent name = true ->
  fs !! file = Some (File contents) ->
  fs !! under dir [name; "index.html"] = None ->
  get mime_lookup fs cwd opts ("/../" +:+ name) = Some served
  /\ get mime_lookup fs cwd opts ("/assets/../../" +:+ name) = Some served
  /\ transmitted fs served = Some contents
  /\ startsWith file (userDistFullPath cwd opts +:+ "/") = false.
Proof.
  intros opts file served Hdir Hname _ _ Hfile Hnoindex.
  destruct (entry_directories dir cwd Hdir) as [Huser Hadmin].
  fold opts in Huser, Hadmin.
  assert (Hex : existsSync fs file = true) by (eapply existsSync_true; eauto).
  assert (Hnx : existsSync fs (under dir [name; "index.html"]) = false)
    by (apply existsSync_false; auto).
  assert (Hp1 : forallb plain [name] = true) by (cbn [forallb]; rewrite Hname; reflexivity).
  assert (Hp2 : forallb plain [name; "index.html"] = true)
    by (cbn [forallb]; rewrite Hname; reflexivity).
  assert (Hud : plain "user_dist" = true) by reflexivity.
  split; [|split; [|split]].
  - unfold get. rewrite setupViteFrontends_routes, Huser, Hadmin.
    change (adminPrefix opts) with "/admin".
    rewrite dispatch_cons; cbn [pattern handler].
    replace (Express.routeMatches ("/admin" +:+ "/assets/*") ("/../" +:+ name))
      with false by reflexivity.
    rewrite dispatch_cons; cbn [pattern handler].
    replace (Express.routeMatches ("/admin" +:+ "/*") ("/../" +:+ name))
      with false by reflexivity.
    rewrite dispatch_cons; cbn [pattern handler].
    replace (Express.routeMatches "/assets/*" ("/../" +:+ name))
      with false by reflexivity.
    rewrite dispatch_cons; cbn [pattern handler].
    replace (Express.routeMatches "/*" ("/../" +:+ name))
      with true by reflexivity.
    unfold staticRoute.
    replace (startsWith ("/../" +:+ name) "/api/") with false by reflexivity.
    change (or_else (substring (String.length "") ("/../" +:+ name)) "/")
      with (unsplit ([""; ".."] ++ [name])).
    assert (Hfull : join [under dir ["user_dist"]; unsplit ([""; ".."] ++ [name])]
                    = file).
    { unfold join. rewrite glue_pair by (auto using canonical_truthy, canonical_under).
      apply join_up; auto; discriminate. }
    assert (Hindex : join [under dir ["user_dist"]; unsplit ([""; ".."] ++ [name]);
                           "index.html"]
                     = under dir [name; "index.html"]).
    { unfold join. rewrite glue_triple by (auto using canonical_truthy, canonical_under).
      change (unsplit ([""; ".."] ++ [name]) +:+ "/" +:+ "index.html")
        with (unsplit ([""; ".."] ++ [name; "index.html"])).
      apply join_up; auto; discriminate. }
    rewrite Hfull, Hindex, Hnx, andb_false_r.
    rewrite serveFile_existing by exact Hex. reflexivity.
  - unfold get. rewrite setupViteFrontends_routes, Huser, Hadmin.
    change (adminPrefix opts) with "/admin".
    rewrite dispatch_cons; cbn [pattern handler].
    replace (Express.routeMatches ("/admin" +:+ "/assets/*") ("/assets/../../" +:+ name))
      with false by reflexivity.
    rewrite dispatch_cons; cbn [pattern handler].
    replace (Express.routeMatches ("/admin" +:+ "/*") ("/assets/../../" +:+ name))
      with false by reflexivity.
    rewrite dispatch_cons; cbn [pattern handler].
    replace (Express.routeMatches "/assets/*" ("/assets/../../" +:+ name))
      with true by reflexivity.
    unfold assetsRoute.
    change (substring (String.length ("" +:+ "/assets/")) ("/assets/../../" +:+ name))
      with (unsplit [".."; ".."; name]).
    assert (Hfull : join [under dir ["user_dist"]; "assets"; unsplit [".."; ".."; name]]
                    = file).
    { unfold join. rewrite glue_triple by (auto using canonical_truthy, canonical_under).
      change ("assets" +:+ "/" +:+ unsplit [".."; ".."; name])
        with (unsplit (["assets"; ".."; ".."] ++ [name])).
      apply join_up; auto; discriminate. }
    rewrite Hfull, serveFile_existing by exact Hex. reflexivity.
  - unfold transmitted, served. cbn [body res_sendFile]. rewrite Hfile. reflexivity.
  - rewrite Huser. unfold startsWith, file.
    rewrite !under_unsplit by discriminate. cbn [unsplit].
    rewrite !str_app_assoc, !str_prefix_app.
    apply noSlash_no_prefix, plain_noSlash, Hname.
Qed.

Lemma routeMatches_slash p :
  Express.routeMatches "/*" p = startsWith p "/".
Proof.
  unfold Express.routeMatches. change (Express.beforeStar "/*") with (Some "/").
  cbv beta iota. unfold startsWith_ci, startsWith. change (lowercase "/") with "/".
  destruct p as [|c p]; [reflexivity|].
  rewrite lowercase_cons, !str_prefix_cons, !str_prefix_nil, !andb_true_r.
  rewrite (Ascii.eqb_sym "/" (lower c)), lower_slash. apply Ascii.eqb_sym.
Qed.



Lemma lowercase_noSlash name : noSlash (lowercase name) = noSlash name.
Proof.
  induction name as [|c name IH]; [reflexivity|].
  rewrite lowercase_cons. cbn [noSlash]. rewrite lower_slash, IH. reflexivity.
Qed.

(** A path of one name matches none of the patterns that need a second
    slash. *)
Lemma one_name_no_match name literal :
  noSlash name = true ->
  String.prefix ("/" +:+ literal +:+ "/") (lowercase ("/" +:+ name)) = false.
Proof.
  intros Hn. change ("/" +:+ name) with (String "/" name).
  rewrite lowercase_cons. change (lower "/") with "/"%char.
  change ("/" +:+ literal +:+ "/") with (String "/" (literal +:+ "/")).
  rewrite str_prefix_cons, Ascii.eqb_refl. cbn [andb].
  apply noSlash_no_prefix. rewrite lowercase_noSlash. exact Hn.
Qed.

Lemma one_name_not_api name :
  noSlash name = true -> startsWith ("/" +:+ name) "/api/" = false.
Proof.
  intros Hn. unfold startsWith. change "/api/" with ("/" +:+ "api" +:+ "/").
  change ("/" +:+ name) with (String "/" name).
  change ("/" +:+ "api" +:+ "/") with (String "/" ("api" +:+ "/")).
  rewrite str_prefix_cons, Ascii.eqb_refl. cbn [andb].
  apply noSlash_no_prefix, Hn.
Qed.

Lemma one_name_dispatch mime_lookup fs cwd opts name :
  adminPrefix opts = "/admin" -> noSlash name = true ->
  get mime_lookup fs cwd opts ("/" +:+ name)
  = Some (Server.responseOf
            (staticRoute mime_lookup fs (userDistFullPath cwd opts) ""
               ("/" +:+ name) freshResponse)).
Proof.
  intros Hprefix Hn. unfold get. rewrite setupViteFrontends_routes, Hprefix.
  change ("/admin" +:+ "/assets/*") with "/admin/assets/*".
  change ("/admin" +:+ "/*") with "/admin/*".
  rewrite !dispatch_cons. cbn [pattern handler].
  change (Express.routeMatches "/admin/assets/*" ("/" +:+ name))
    with (String.prefix ("/" +:+ "admin/assets" +:+ "/") (lowercase ("/" +:+ name))).
  change (Express.routeMatches "/admin/*" ("/" +:+ name))
    with (String.prefix ("/" +:+ "admin" +:+ "/") (lowercase ("/" +:+ name))).
  change (Express.routeMatches "/assets/*" ("/" +:+ name))
    with (String.prefix ("/" +:+ "assets" +:+ "/") (lowercase ("/" +:+ name))).
  rewrite !one_name_no_match by exact Hn.
  rewrite routeMatches_slash.
  replace (startsWith ("/" +:+ name) "/") with true
    by (unfold startsWith; change ("/" +:+ name) with (String "/" name);
        rewrite str_prefix_cons, str_prefix_nil; reflexivity).
  cbv iota.
  pose proof (one_name_not_api name Hn) as Hapi.
  destruct (staticRoute_answers mime_lookup fs (userDistFullPath cwd opts) ""
              ("/" +:+ name) freshResponse Hapi) as [sent ->].
  reflexivity.
Qed.

(** X6. A GET request for a single name that names nothing in the user
    build, [/admin] without a final slash included, is answered by the
    static route of the user build with the [index.html] of that build
    (status 200, [text/html]), and with 404 [Not found] when the build
    has no [index.html].  (The name holds no percent sign, so that
    Express decodes the path as it stands.) *)
Theorem one_name_requests_fall_back_to_the_user_index
        (mime_lookup : string -> option string) (fs : gmap string node)
        (cwd dir name : string) :
  let opts := Server.frontendOptions dir in
  let build := under dir ["user_dist"] in
  canonical dir = true -> plain name = true -> noPercent name = true ->
  fs !! under build [name] = None ->
  fs !! under build [name; "index.html"] = None ->
  (forall html,
      fs !! under build ["index.html"] = Some (File html) ->
      exists sent,
        get mime_lookup fs cwd opts ("/" +:+ name) = Some sent
        /\ statusCode sent = 200
        /\ headers sent !! "Content-Type" = Some "text/html"
        /\ body sent = FileAt (under build ["index.html"])
        /\ transmitted fs sent = Some html)
  /\ (fs !! under build ["index.html"] = None ->
      get mime_lookup fs cwd opts ("/" +:+ name) = Some (notFound freshResponse)).
Proof.
  intros opts build Hdir Hname _ Hmiss Hnoindex.
  destruct (entry_directories dir cwd Hdir) as [Huser _]. fold opts build in Huser.
  assert (Hbuild : canonical build = true).
  { apply canonical_under; [exact Hdir|reflexivity]. }
  rewrite one_name_dispatch by (auto using plain_noSlash).
  rewrite Huser.
  change ("/" +:+ name) with (under "" ([] ++ [name])).
  rewrite staticRoute_on_names;
    [ | exact Hbuild | reflexivity | exact Hname
      | apply (one_name_not_api name), plain_noSlash, Hname].
  cbn [List.app Server.responseOf].
  rewrite (existsSync_false _ _ Hnoindex), (existsSync_false _ _ Hmiss), andb_false_r.
  split.
  - intros html Hex. rewrite (existsSync_true _ _ _ Hex).
    eexists. split; [reflexivity|].
    split; [reflexivity|]. split; [apply lookup_insert_eq|].
    split; [reflexivity|].
    unfold transmitted. cbn [body res_sendFile]. rewrite Hex. reflexivity.
  - intros Hno. rewrite (existsSync_false _ _ Hno). reflexivity.
Qed.

Lemma join_root_index D :
  canonical D = true -> join [D; "/"; "index.html"] = under D ["index.html"].
Proof.
  intros HD. unfold join.
  rewrite glue_triple by (auto using canonical_truthy).
  apply (normalize_under D ["index.html"] HD eq_refl ltac:(discriminate) [""; ""]).
  reflexivity.
Qed.

Lemma staticRoute_root mime_lookup fs D prefix reqPath res html :
  canonical D = true ->
  startsWith reqPath "/api/" = false ->
  substring (String.length prefix) reqPath = "/" ->
  fs !! under D ["index.html"] = Some (File html) ->
  staticRoute mime_lookup fs D prefix reqPath res
  = Responded (res_sendFile (under D ["index.html"])
                 (res_set "Content-Type" "text/html" res)).
Proof.
  intros HD Hapi Hsub Hex. unfold staticRoute. rewrite Hapi, Hsub.
  change (or_else "/" "/") with "/". change (endsWith "/" "/") with true.
  rewrite join_root_index by exact HD.
  rewrite (existsSync_true _ _ _ Hex). cbn [orb andb].
  rewrite serveFile_existing by (eapply existsSync_true; eauto).
  destruct (under_index_html D []) as [pre Hpre]. cbn [List.app] in Hpre.
  rewrite Hpre, getMimeType_html. reflexivity.
Qed.

(** X7. GET [/] is answered with the [index.html] of the user build and
    GET [/admin/] with the [index.html] of the admin build, each as
    [text/html], when that page is a file. *)
Theorem build_roots_serve_their_index (mime_lookup : string -> option string)
        (fs : gmap string node) (cwd dir : string) :
  let opts := Server.frontendOptions dir in
  let page (index : string) :=
    res_sendFile index (res_set "Content-Type" "text/html" freshResponse) in
  canonical dir = true ->
  (forall html,
      fs !! under dir ["user_dist"; "index.html"] = Some (File html) ->
      get mime_lookup fs cwd opts "/"
      = Some (page (under dir ["user_dist"; "index.html"]))
      /\ transmitted fs (page (under dir ["user_dist"; "index.html"])) = Some html)
  /\ (forall html,
        fs !! under dir ["admin_dist"; "index.html"] = Some (File html) ->
        get mime_lookup fs cwd opts "/admin/"
        = Some (page (under dir ["admin_dist"; "index.html"]))
        /\ transmitted fs (page (under dir ["admin_dist"; "index.html"])) = Some html).
Proof.
  intros opts page Hdir.
  destruct (entry_directories dir cwd Hdir) as [Huser Hadmin].
  fold opts in Huser, Hadmin.
  assert (Hu : canonical (under dir ["user_dist"]) = true)
    by (apply canonical_under; [exact Hdir|reflexivity]).
  assert (Ha : canonical (under dir ["admin_dist"]) = true)
    by (apply canonical_under; [exact Hdir|reflexivity]).
  split; intros html Hex.
  - split.
    + unfold get. rewrite setupViteFrontends_routes, Huser, Hadmin.
      change (adminPrefix opts) with "/admin".
      rewrite !dispatch_cons; cbn [pattern handler].
      change (Express.routeMatches ("/admin" +:+ "/assets/*") "/") with false.
      change (Express.routeMatches ("/admin" +:+ "/*") "/") with false.
      change (Express.routeMatches "/assets/*" "/") with false.
      change (Express.routeMatches "/*" "/") with true.
      cbv iota.
      rewrite (staticRoute_root mime_lookup fs _ "" "/" freshResponse html Hu);
        [reflexivity | reflexivity | reflexivity | exact Hex].
    + unfold transmitted, page. cbn [body res_sendFile]. rewrite Hex. reflexivity.
  - split.
    + unfold get. rewrite setupViteFrontends_routes, Huser, Hadmin.
      change (adminPrefix opts) with "/admin".
      rewrite !dispatch_cons; cbn [pattern handler].
      change (Express.routeMatches ("/admin" +:+ "/assets/*") "/admin/") with false.
      change (Express.routeMatches ("/admin" +:+ "/*") "/admin/") with true.
      cbv iota.
      rewrite (staticRoute_root mime_lookup fs _ "/admin" "/admin/" freshResponse
                 html Ha);
        [reflexivity | reflexivity | reflexivity | exact Hex].
    + unfold transmitted, page. cbn [body res_sendFile]. rewrite Hex. reflexivity.
Qed.

Lemma admin_name_dispatch mime_lookup fs cwd opts name :
  adminPrefix opts = "/admin" -> noSlash name = true ->
  get mime_lookup fs cwd opts ("/admin/" +:+ name)
  = Some (Server.responseOf
            (staticRoute mime_lookup fs (adminDistFullPath cwd opts) "/admin"
               ("/admin/" +:+ name) freshResponse)).
Proof.
  intros Hprefix Hn. unfold get. rewrite setupViteFrontends_routes, Hprefix.
  change ("/admin" +:+ "/assets/*") with "/admin/assets/*".
  change ("/admin" +:+ "/*") with "/admin/*".
  rewrite !dispatch_cons. cbn [pattern handler].
  assert (Hlow : lowercase ("/admin/" +:+ name) = "/admin/" +:+ lowercase name)
    by reflexivity.
  change (Express.routeMatches "/admin/assets/*" ("/admin/" +:+ name))
    with (String.prefix ("/admin/" +:+ ("assets" +:+ "/"))
                        (lowercase ("/admin/" +:+ name))).
  change (Express.routeMatches "/admin/*" ("/admin/" +:+ name))
    with (String.prefix ("/admin/" +:+ "") (lowercase ("/admin/" +:+ name))).
  rewrite Hlow, !str_prefix_app, str_prefix_nil.
  rewrite noSlash_no_prefix by (rewrite lowercase_noSlash; exact Hn).
  cbv iota.
  assert (Hapi : startsWith ("/admin/" +:+ name) "/api/" = false) by reflexivity.
  destruct (staticRoute_answers mime_lookup fs (adminDistFullPath cwd opts) "/admin"
              ("/admin/" +:+ name) freshResponse Hapi) as [sent ->].
  reflexivity.
Qed.

(** X8. A GET request for a single name below [/admin/] that names
    nothing in the admin build is answered by the static route of the
    admin build with the [index.html] of that build (status 200,
    [text/html]), and with 404 [Not found] when the build has no
    [index.html].  (The name holds no percent sign, so that Express
    decodes the path as it stands.) *)
Theorem admin_names_fall_back_to_the_admin_index
        (mime_lookup : string -> option string) (fs : gmap string node)
        (cwd dir name : string) :
  let opts := Server.frontendOptions dir in
  let build := under dir ["admin_dist"] in
  canonical dir = true -> plain name = true -> noPercent name = true ->
  fs !! under build [name] = None ->
  fs !! under build [name; "index.html"] = None ->
  (forall html,
      fs !! under build ["index.html"] = Some (File html) ->
      exists sent,
        get mime_lookup fs cwd opts ("/admin/" +:+ name) = Some sent
        /\ statusCode sent = 200
        /\ headers sent !! "Content-Type" = Some "text/html"
        /\ body sent = FileAt (under build ["index.html"])
        /\ transmitted fs sent = Some html)
  /\ (fs !! under build ["index.html"] = None ->
      get mime_lookup fs cwd opts ("/admin/" +:+ name)
      = Some (notFound freshResponse)).
Proof.
  intros opts build Hdir Hname _ Hmiss Hnoindex.
  destruct (entry_directories dir cwd Hdir) as [_ Hadmin]. fold opts build in Hadmin.
  assert (Hbuild : canonical build = true).
  { apply canonical_under; [exact Hdir|reflexivity]. }
  rewrite admin_name_dispatch by (auto using plain_noSlash).
  rewrite Hadmin.
  change ("/admin/" +:+ name) with (under "/admin" ([] ++ [name])).
  rewrite staticRoute_on_names;
    [ | exact Hbuild | reflexivity | exact Hname | reflexivity].
  cbn [List.app Server.responseOf].
  rewrite (existsSync_false _ _ Hnoindex), (existsSync_false _ _ Hmiss), andb_false_r.
  split.
  - intros html Hex. rewrite (existsSync_true _ _ _ Hex).
    eexists. split; [reflexivity|].
    split; [reflexivity|]. split; [apply lookup_insert_eq|].
    split; [reflexivity|].
    unfold transmitted. cbn [body res_sendFile]. rewrite Hex. reflexivity.
  - intros Hno. rewrite (existsSync_false _ _ Hno). reflexivity.
Qed.

End StaticRoutes.

(** ** Requests through the stack *)

Section StoreFacts.
Import JsString Server Flow.

Lemma blind_pure f : storeBlind (pure f).
Proof. intros h req w res. reflexivity. Qed.

Lemma blind_bodyParser traceOf parseBody mediaType limit :
  storeBlind (bodyParser traceOf parseBody mediaType limit).
Proof.
  intros h req w res. unfold bodyParser.
  destruct (bodyLength req); [|reflexivity].
  destruct (bool_decide _); [|reflexivity].
  destruct (limit <? _); [reflexivity|].
  destruct (parseBody req); reflexivity.
Qed.

Lemma blind_statusRoute : storeBlind statusRoute.
Proof. intros h req w res. reflexivity. Qed.

Lemma blind_apiErrorHandler traceOf err : storeBlind (apiErrorHandler traceOf err).
Proof.
  intros h req w res. unfold apiErrorHandler, write.
  cbn [exitCode setHits env now fst snd].
  destruct (validStatus _); destruct (exitCode w); reflexivity.
Qed.

Lemma blind_compression : storeBlind compression.
Proof. intros h req w res. reflexivity. Qed.

Lemma blind_frontend routes : Forall blindLayer (map frontendLayer routes).
Proof.
  induction routes as [|r routes IH]; [constructor|].
  cbn [map]. apply Forall_cons. split; [apply blind_pure|exact IH].
Qed.

(** A stack of such layers does the same whatever the store holds. *)
Lemma run_blind layers :
  Forall blindLayer layers ->
  forall h req,
    (forall w res,
        run layers req (setHits h w) res
        = (setHits h (run layers req w res).1, (run layers req w res).2))
    /\ (forall err w res,
           recover layers req err (setHits h w) res
           = (setHits h (recover layers req err w res).1,
              (recover layers req err w res).2)).
Proof.
  intros Hall h req. induction Hall as [|l layers Hl _ [IHrun IHrec]].
  - split; intros; reflexivity.
  - split.
    + intros w res. destruct l as [mount mw|pat mw|mount hd]; cbn [run].
      * destruct (Express.mounted mount (path req)); [|apply IHrun].
        rewrite (Hl h req w res).
        destruct (mw req w res) as [w' [r|r|e r]]; cbn [fst snd];
          [reflexivity|apply IHrun|apply IHrec].
      * destruct (isGet req && Express.routeMatches pat (path req))%bool;
          [|apply IHrun].
        rewrite (Hl h req w res).
        destruct (mw req w res) as [w' [r|r|e r]]; cbn [fst snd];
          [reflexivity|apply IHrun|apply IHrec].
      * apply IHrun.
    + intros err w res. destruct l as [mount mw|pat mw|mount hd]; cbn [recover].
      * apply IHrec.
      * apply IHrec.
      * destruct (Express.mounted mount (path req)); [|apply IHrec].
        rewrite (Hl err h req w res).
        destruct (hd err req w res) as [w' [r|r|e r]]; cbn [fst snd];
          [reflexivity|apply IHrun|apply IHrec].
Qed.

End StoreFacts.

Section FrontendLayers.
Import JsString Server Flow.

(** The frontend routes as layers of the application: a GET request gets
    what the dispatcher answers, any other request goes past them. *)
Lemma frontends_run_get routes req w res sent :
  isGet req = true ->
  Vite.dispatch routes (path req) res = Some sent ->
  run (map frontendLayer routes) req w res = (w, Sent sent).
Proof.
  intros Hget. revert res. induction routes as [|r routes IH]; intros res Hd.
  - discriminate.
  - rewrite dispatch_cons in Hd. cbn [map frontendLayer run]. rewrite Hget.
    cbn [andb]. destruct (Express.routeMatches (Vite.pattern r) (path req)).
    + unfold pure.
      destruct (Vite.handler r (path req) res) as [s|res'|e res'].
      * injection Hd as ->. reflexivity.
      * apply IH, Hd.
      * discriminate.
    + apply IH, Hd.
Qed.

Lemma frontends_run_other routes req w res :
  isGet req = false ->
  run (map frontendLayer routes) req w res = (w, Unmatched res).
Proof.
  intros Hget. induction routes as [|r routes IH]; [reflexivity|].
  cbn [map frontendLayer run]. rewrite Hget. exact IH.
Qed.

Lemma str_prefix_trans a b c :
  String.prefix a b = true -> String.prefix b c = true -> String.prefix a c = true.
Proof.
  revert b c. induction a as [|x a IH]; intros b c Hab Hbc.
  - apply str_prefix_nil.
  - destruct b as [|y b]; [rewrite str_prefix_nil_r in Hab; discriminate|].
    destruct c as [|z c]; [rewrite str_prefix_nil_r in Hbc; discriminate|].
    rewrite str_prefix_cons in *.
    apply andb_true_iff in Hab as [Hxy Hab]. apply andb_true_iff in Hbc as [Hyz Hbc].
    apply Ascii.eqb_eq in Hxy, Hyz. subst. rewrite Ascii.eqb_refl.
    apply (IH b c Hab Hbc).
Qed.

Lemma bodyParser_passes traceOf parseBody mediaType limit req w res :
  match bodyLength req with
  | None => True
  | Some len => len <= limit /\ parseBody req = None
  end ->
  bodyParser traceOf parseBody mediaType limit req w res = (w, Next res).
Proof.
  unfold bodyParser. destruct (bodyLength req) as [len|]; [|reflexivity].
  intros [Hfits Hparse]. destruct (bool_decide _); [|reflexivity].
  destruct (Z.ltb_spec limit len); [lia|]. rewrite Hparse. reflexivity.
Qed.

(** A layer mounted below [/api] sees no path outside [/api]. *)
Lemma mounted_below_api mount p :
  String.prefix "/api/" (lowercase mount) = true ->
  Express.mounted "/api" p = false ->
  Express.mounted mount p = false.
Proof.
  intros Hbelow Hm. rewrite mounted_api in Hm.
  apply orb_false_iff in Hm as [_ Hm].
  unfold Express.mounted.
  destruct (String.eqb_spec mount "/") as [->|_]; [discriminate Hbelow|].
  destruct (startsWith_ci p mount) eqn:Hci; [|reflexivity].
  unfold startsWith_ci in Hci. unfold startsWith in Hm.
  rewrite (str_prefix_trans _ _ _ Hbelow Hci) in Hm. discriminate.
Qed.

Lemma status_route_below_api p :
  Express.mounted "/api" p = false ->
  Express.routeMatches "/api/status" p = false.
Proof.
  intros Hm. rewrite mounted_api in Hm.
  apply orb_false_iff in Hm as [_ Hm]. unfold startsWith in Hm.
  unfold Express.routeMatches.
  change (Express.beforeStar "/api/status") with (@None string). cbv iota.
  change (lowercase "/api/status") with "/api/status".
  change ("/api/status" +:+ "/") with "/api/status/".
  apply orb_false_iff. split; apply String.eqb_neq; intros E;
    rewrite E in Hm; discriminate.
Qed.

Lemma api_path_dispatch mime_lookup fs cwd opts reqPath res :
  Vite.adminPrefix opts = "/admin" ->
  startsWith reqPath "/api/" = true ->
  Vite.dispatch (Vite.setupViteFrontends mime_lookup fs cwd opts) reqPath res
  = Some (res_json [("error", JStr "API endpoint not found")] (res_status 404 res)).
Proof.
  intros Hprefix Hapi. rewrite setupViteFrontends_routes, Hprefix.
  change ("/admin" +:+ "/assets/*") with "/admin/assets/*".
  change ("/admin" +:+ "/*") with "/admin/*".
  destruct (api_is_not_frontend reqPath Hapi) as (H1 & H2 & H3 & H4).
  rewrite !dispatch_cons. cbn [Vite.pattern Vite.handler].
  change (Express.routeMatches "/admin/assets/*" reqPath)
    with (String.prefix "/admin/assets/" (lowercase reqPath)).
  change (Express.routeMatches "/admin/*" reqPath)
    with (String.prefix "/admin/" (lowercase reqPath)).
  change (Express.routeMatches "/assets/*" reqPath)
    with (String.prefix "/assets/" (lowercase reqPath)).
  change (Express.routeMatches "/*" reqPath)
    with (String.prefix "/" (lowercase reqPath)).
  rewrite H1, H2, H3, H4. cbv iota.
  unfold Vite.staticRoute at 1. rewrite Hapi. cbv iota.
  rewrite dispatch_cons. cbn [Vite.pattern Vite.handler].
  rewrite routeMatches_any.
  unfold Vite.fallbackRoute. rewrite Hapi. reflexivity.
Qed.

Lemma lowercase_prefix a p :
  String.prefix a p = true -> String.prefix (lowercase a) (lowercase p) = true.
Proof.
  revert p. induction a as [|x a IH]; intros p H; [apply str_prefix_nil|].
  destruct p as [|y p]; [rewrite str_prefix_nil_r in H; discriminate|].
  rewrite str_prefix_cons in H. apply andb_true_iff in H as [Hxy H].
  apply Ascii.eqb_eq in Hxy. subst y.
  rewrite !lowercase_cons, str_prefix_cons, Ascii.eqb_refl. apply (IH p H).
Qed.

Lemma api_path_mounted p : startsWith p "/api/" = true -> Express.mounted "/api" p = true.
Proof.
  intros H. rewrite mounted_api. apply orb_true_iff. right.
  apply (lowercase_prefix "/api/" p H).
Qed.

End FrontendLayers.


Section ApplicationFlow.
Import JsString Server Flow.

Variable helmetHeaders : response -> response.
Variables cors trackAPIStats : request -> response -> outcome.
Variables propertyrouter userrouter formrouter newsrouter appointmentRouter
          adminRouter adminProperties propertyRoutes luckyrouter
  : request -> response -> outcome.
Variable traceOf : string -> option string.
Variables parseJson parseUrlencoded : request -> option error.
Variable mime_lookup : string -> option string.
Variable fs : gmap string node.
Variable cwd : string.
Variable __dirname : string.

Abbreviation anApp h :=
  (app h cors trackAPIStats propertyrouter userrouter formrouter
       newsrouter appointmentRouter adminRouter adminProperties propertyRoutes
       luckyrouter traceOf parseJson parseUrlencoded mime_lookup fs cwd __dirname).
Abbreviation aHandle h :=
  (handle h cors trackAPIStats propertyrouter userrouter formrouter
       newsrouter appointmentRouter adminRouter adminProperties propertyRoutes
       luckyrouter traceOf parseJson parseUrlencoded mime_lookup fs cwd __dirname).
Abbreviation thisApp := (anApp helmetHeaders).
Abbreviation thisHandle := (aHandle helmetHeaders).
Abbreviation thisServe :=
  (serve helmetHeaders cors trackAPIStats propertyrouter userrouter formrouter
       newsrouter appointmentRouter adminRouter adminProperties propertyRoutes
       luckyrouter traceOf parseJson parseUrlencoded mime_lookup fs cwd __dirname).

Lemma blind_after_helmet : Forall blindLayer (skipn 2 thisApp).
Proof.
  unfold app. cbn [skipn List.app].
  repeat (apply Forall_cons; split;
          [first [ apply blind_pure | apply blind_bodyParser
                 | apply blind_compression | apply blind_statusRoute
                 | intros err; apply blind_apiErrorHandler ] |]).
  constructor.
Qed.

Lemma handle_outside_api h req w :
  Express.mounted "/api" (path req) = false ->
  aHandle h req w = run (skipn 2 thisApp) req w freshResponse.
Proof.
  intros Hm. unfold handle.
  change (run (anApp h) req w freshResponse)
    with (run (skipn 0 (anApp h)) req w freshResponse).
  rewrite (run_at_use (anApp h) 0 "/api" limiter) by reflexivity.
  rewrite Hm.
  rewrite (run_at_use (anApp h) 1 "/api" (helmet h)) by reflexivity.
  rewrite Hm. reflexivity.
Qed.

(** X9. The limiter and helmet are mounted at [/api] only: a request on
    a path outside [/api] is handled the same whatever the store of the
    limiter holds and whatever headers helmet would add, and it leaves
    the store as it was. *)
Theorem outside_api_neither_limiter_nor_helmet
        (otherHeaders : response -> response) (store : gmap string (Z * Z))
        (req : request) (w : world) :
  Express.mounted "/api" (path req) = false ->
  aHandle otherHeaders req (setHits store w)
  = (setHits store (thisHandle req w).1, (thisHandle req w).2).
Proof.
  intros Hm. rewrite !handle_outside_api by exact Hm.
  apply (run_blind _ blind_after_helmet store req).
Qed.

Abbreviation recoverTail := (recover_app_tail helmetHeaders cors trackAPIStats
  propertyrouter userrouter formrouter newsrouter appointmentRouter adminRouter
  adminProperties propertyRoutes luckyrouter traceOf parseJson parseUrlencoded
  mime_lookup fs cwd __dirname).

(** X10. Outside [/api] no layer takes care of an error: a failure
    raised by any layer registered before the error handler is left to
    the framework, with the response as it was; so is a JSON body within
    the limit that the parser rejects. *)
Theorem errors_outside_api_reach_no_handler (req : request) (w : world) :
  Express.mounted "/api" (path req) = false ->
  (forall k err res, (k <= 17)%nat ->
      recover (skipn k thisApp) req err w res = (w, Unhandled err res))
  /\ (forall len err,
        bodyLength req = Some len -> len <= mb 50 ->
        contentType req = Some "application/json" ->
        parseJson req = Some err ->
        thisHandle req w = (w, Unhandled err freshResponse)).
Proof.
  intros Hm. split.
  - intros k err res Hk. rewrite recoverTail by exact Hk. rewrite Hm. reflexivity.
  - intros len err Hlen Hfits Htype Hparse.
    rewrite handle_outside_api by exact Hm.
    rewrite (run_at_use thisApp 2 "/" compression) by reflexivity.
    change (Express.mounted "/" (path req)) with true. unfold compression. cbv iota.
    rewrite (run_at_use thisApp 3 "/" _) by reflexivity.
    change (Express.mounted "/" (path req)) with true. cbv iota.
    unfold bodyParser at 1. rewrite Hlen, Htype, Hparse.
    rewrite bool_decide_eq_true_2 by reflexivity.
    destruct (Z.ltb_spec (mb 50) len); [lia|].
    rewrite recoverTail by lia. rewrite Hm. reflexivity.
Qed.

(** X11. A client seen for the first time, or again once its window has
    ended (however many requests it made in it), is let through by the
    limiter and counted as the first request of a new window of 15
    minutes, with 499 requests remaining. *)
Theorem rate_limit_window_restarts (req : request) (w : world) (res : response) :
  match hits w !! ip req with
  | Some (_, resetTime) => resetTime <= now w
  | None => True
  end ->
  (exists res',
      limiter req w res
      = (setHits (<[ip req := (1, now w + 15 * 60 * 1000)]> (hits w)) w, Next res')
      /\ headers res' !! "RateLimit-Remaining" = Some "499"
      /\ statusCode res' = statusCode res /\ body res' = body res)
  /\ (Express.mounted "/api" (path req) = true ->
      hits (thisHandle req w).1 !! ip req = Some (1, now w + 15 * 60 * 1000)).
Proof.
  intros Hover.
  assert (Hinc : increment limiterOptions (ip req) w = (1, now w + 15 * 60 * 1000)).
  { unfold increment. destruct (hits w !! ip req) as [[n resetTime]|]; [|reflexivity].
    destruct (Z.ltb_spec (now w) resetTime); [lia|reflexivity]. }
  split.
  - unfold limiter, rateLimit. rewrite Hinc. cbv beta iota zeta.
    change (legacyHeaders limiterOptions) with false.
    change (standardHeaders limiterOptions) with true.
    change (max limiterOptions) with 500.
    change (Z.max (500 - 1) 0) with 499.
    change (500 <? 1) with false. cbv iota.
    unfold standardRateHeaders. change (max limiterOptions) with 500.
    eexists. split; [reflexivity|].
    cbn [headers res_set statusCode body].
    split; [|split; reflexivity].
    rewrite lookup_insert_ne by discriminate. apply lookup_insert_eq.
  - intros Hm.
    rewrite (hits_after_handle helmetHeaders cors trackAPIStats propertyrouter
               userrouter formrouter newsrouter appointmentRouter adminRouter
               adminProperties propertyRoutes luckyrouter traceOf parseJson
               parseUrlencoded mime_lookup fs cwd __dirname req w).
    rewrite Hm, Hinc. apply lookup_insert_eq.
Qed.

Abbreviation theRoutes :=
  (Vite.setupViteFrontends mime_lookup fs cwd (frontendOptions __dirname)).

Lemma app_frontends : skipn 18 thisApp = map frontendLayer theRoutes.
Proof. reflexivity. Qed.

(** The layers after the body parsers, for a request outside [/api] that
    the CORS middleware passes on. *)
Lemma run_outside_api req w res0 :
  Express.mounted "/api" (path req) = false ->
  readable parseJson parseUrlencoded req ->
  cors req freshResponse = Next res0 ->
  thisHandle req w = run (map frontendLayer theRoutes) req w res0.
Proof.
  intros Hm Hbody Hcors.
  rewrite handle_outside_api by exact Hm.
  rewrite (run_at_use thisApp 2 "/" compression) by reflexivity.
  change (Express.mounted "/" (path req)) with true. unfold compression. cbv iota.
  rewrite (run_at_use thisApp 3 "/" _) by reflexivity.
  change (Express.mounted "/" (path req)) with true. cbv iota.
  rewrite bodyParser_passes
    by (unfold readable in Hbody; destruct (bodyLength req); tauto).
  rewrite (run_at_use thisApp 4 "/" _) by reflexivity.
  change (Express.mounted "/" (path req)) with true. cbv iota.
  rewrite bodyParser_passes
    by (unfold readable in Hbody; destruct (bodyLength req); tauto).
  rewrite (run_at_use thisApp 5 "/api" _) by reflexivity. rewrite Hm.
  rewrite (run_at_use thisApp 6 "/" (pure cors)) by reflexivity.
  change (Express.mounted "/" (path req)) with true. cbv iota.
  unfold pure at 1. rewrite Hcors.
  rewrite (run_at_use thisApp 7 "/api/products" _) by reflexivity.
  rewrite (mounted_below_api "/api/products") by (reflexivity || exact Hm).
  rewrite (run_at_use thisApp 8 "/api/users" _) by reflexivity.
  rewrite (mounted_below_api "/api/users") by (reflexivity || exact Hm).
  rewrite (run_at_use thisApp 9 "/api/forms" _) by reflexivity.
  rewrite (mounted_below_api "/api/forms") by (reflexivity || exact Hm).
  rewrite (run_at_use thisApp 10 "/api/news" _) by reflexivity.
  rewrite (mounted_below_api "/api/news") by (reflexivity || exact Hm).
  rewrite (run_at_use thisApp 11 "/api/appointments" _) by reflexivity.
  rewrite (mounted_below_api "/api/appointments") by (reflexivity || exact Hm).
  rewrite (run_at_use thisApp 12 "/api/admin" _) by reflexivity.
  rewrite (mounted_below_api "/api/admin") by (reflexivity || exact Hm).
  rewrite (run_at_use thisApp 13 "/api/properties" _) by reflexivity.
  rewrite (mounted_below_api "/api/properties") by (reflexivity || exact Hm).
  rewrite (run_at_use thisApp 14 "/api" _) by reflexivity. rewrite Hm.
  rewrite (run_at_use thisApp 15 "/api" _) by reflexivity. rewrite Hm.
  rewrite (run_at_get thisApp 16 "/api/status" statusRoute) by reflexivity.
  rewrite (status_route_below_api _ Hm), andb_false_r.
  rewrite (run_at_error thisApp 17 "/api" (apiErrorHandler traceOf)) by reflexivity.
  rewrite app_frontends. reflexivity.
Qed.

(** X12. A request outside [/api] on a path Express can decode (it
    holds no percent sign), which has no body, or a body within the limit
    of the parsers (50 MB included) that they accept, and which the CORS
    middleware passes on, reaches the routes of the builds with the
    response the CORS middleware left.  For a GET or HEAD request, an
    answer of the dispatcher that reaches the client as the handler left
    it (a text, an object, or a file [res.sendFile] streams) is the
    answer of the application; a request of another method (OPTIONS
    apart) is answered by no layer. *)
Theorem requests_outside_api_go_to_the_dispatcher (req : request) (w : world)
        (res0 : response) :
  Express.mounted "/api" (path req) = false ->
  PathShape.noPercent (path req) = true ->
  readable parseJson parseUrlencoded req ->
  cors req freshResponse = Next res0 ->
  (isGet req = true ->
     forall sent,
       Vite.dispatch theRoutes (path req) res0 = Some sent ->
       delivered fs sent = true ->
       thisHandle req w = (w, Sent sent))
  /\ (isGet req = false -> method req <> "OPTIONS" ->
      thisHandle req w = (w, Unmatched res0)).
Proof.
  intros Hm _ Hbody Hcors.
  rewrite (run_outside_api req w res0 Hm Hbody Hcors). split.
  - intros Hget sent Hsent _. apply frontends_run_get; assumption.
  - intros Hget _. apply frontends_run_other, Hget.
Qed.

Abbreviation passes := (run_pure_passes helmetHeaders cors trackAPIStats
  propertyrouter userrouter formrouter newsrouter appointmentRouter adminRouter
  adminProperties propertyRoutes luckyrouter traceOf parseJson parseUrlencoded
  mime_lookup fs cwd __dirname).
Abbreviation startsWithLimiter := (handle_starts_with_limiter helmetHeaders cors
  trackAPIStats propertyrouter userrouter formrouter newsrouter appointmentRouter
  adminRouter adminProperties propertyRoutes luckyrouter traceOf parseJson
  parseUrlencoded mime_lookup fs cwd __dirname).

(** X13. A GET or HEAD request on a path under [/api/] that is not the
    status route and that Express can decode (it holds no percent sign),
    which the limiter lets through and every router passes on, is
    answered 404 with the object [{error: "API endpoint not found"}] by
    the last route of the frontend handler. *)
Theorem unknown_api_endpoint (req : request) (w : world) :
  isGet req = true ->
  startsWith (path req) "/api/" = true ->
  PathShape.noPercent (path req) = true ->
  Express.routeMatches "/api/status" (path req) = false ->
  bodyLength req = None ->
  fst (increment limiterOptions (ip req) w) <= 500 ->
  passesOn trackAPIStats req -> passesOn cors req ->
  passesOn propertyrouter req -> passesOn userrouter req ->
  passesOn formrouter req -> passesOn newsrouter req ->
  passesOn appointmentRouter req -> passesOn adminRouter req ->
  passesOn adminProperties req -> passesOn propertyRoutes req ->
  passesOn luckyrouter req ->
  exists w' res',
    thisHandle req w
    = (w', Sent (res_json [("error", JStr "API endpoint not found")]
                          (res_status 404 res'))).
Proof.
  intros Hget Hapi _ Hstatus Hbody Hunder Hstats Hcors H7 H8 H9 H10 H11 H12 H13 H14 H15.
  pose proof (api_path_mounted _ Hapi) as Hm.
  rewrite (startsWithLimiter req w), Hm.
  unfold limiter, rateLimit.
  destruct (increment limiterOptions (ip req) w) as [totalHits resetTime].
  cbn [fst] in Hunder. cbv zeta.
  change (max limiterOptions) with 500.
  destruct (Z.ltb_spec 500 totalHits); [lia|].
  set (w1 := setHits _ w). set (res1 := if standardHeaders limiterOptions then _ else _).
  clearbody w1 res1.
  rewrite (run_at_use thisApp 1 "/api" (helmet helmetHeaders)) by reflexivity.
  rewrite Hm. unfold helmet, helmetWith.
  rewrite (run_at_use thisApp 2 "/" compression) by reflexivity.
  change (Express.mounted "/" (path req)) with true. unfold compression. cbv iota.
  rewrite (run_at_use thisApp 3 "/" _) by reflexivity.
  change (Express.mounted "/" (path req)) with true. cbv iota.
  unfold bodyParser at 1. rewrite Hbody.
  rewrite (run_at_use thisApp 4 "/" _) by reflexivity.
  change (Express.mounted "/" (path req)) with true. cbv iota.
  unfold bodyParser at 1. rewrite Hbody.
  destruct (passes 5%nat "/api" trackAPIStats req w1 (helmetHeaders res1)
              eq_refl Hstats) as [res2 ->].
  destruct (passes 6%nat "/" cors req w1 res2 eq_refl Hcors) as [res3 ->].
  destruct (passes 7%nat "/api/products" propertyrouter req w1 res3 eq_refl H7)
    as [res4 ->].
  destruct (passes 8%nat "/api/users" userrouter req w1 res4 eq_refl H8) as [res5 ->].
  destruct (passes 9%nat "/api/forms" formrouter req w1 res5 eq_refl H9) as [res6 ->].
  destruct (passes 10%nat "/api/news" newsrouter req w1 res6 eq_refl H10)
    as [res7 ->].
  destruct (passes 11%nat "/api/appointments" appointmentRouter req w1 res7 eq_refl H11)
    as [res8 ->].
  destruct (passes 12%nat "/api/admin" adminRouter req w1 res8 eq_refl H12)
    as [res9 ->].
  destruct (passes 13%nat "/api/properties" adminProperties req w1 res9 eq_refl H13)
    as [res10 ->].
  destruct (passes 14%nat "/api" propertyRoutes req w1 res10 eq_refl H14)
    as [res11 ->].
  destruct (passes 15%nat "/api" luckyrouter req w1 res11 eq_refl H15) as [res12 ->].
  rewrite (run_at_get thisApp 16 "/api/status" statusRoute) by reflexivity.
  rewrite Hstatus, andb_false_r.
  rewrite (run_at_error thisApp 17 "/api" (apiErrorHandler traceOf)) by reflexivity.
  rewrite app_frontends.
  exists w1, res12.
  apply frontends_run_get; [exact Hget|].
  apply api_path_dispatch; [reflexivity|exact Hapi].
Qed.

Abbreviation hitsAfter := (hits_after_handle helmetHeaders cors
  trackAPIStats propertyrouter userrouter formrouter newsrouter appointmentRouter
  adminRouter adminProperties propertyRoutes luckyrouter traceOf parseJson
  parseUrlencoded mime_lookup fs cwd __dirname).
Abbreviation exitAfter := (exitCode_after_handle helmetHeaders cors
  trackAPIStats propertyrouter userrouter formrouter newsrouter appointmentRouter
  adminRouter adminProperties propertyRoutes luckyrouter traceOf parseJson
  parseUrlencoded mime_lookup fs cwd __dirname).
Abbreviation blocks := (handle_blocks helmetHeaders cors
  trackAPIStats propertyrouter userrouter formrouter newsrouter appointmentRouter
  adminRouter adminProperties propertyRoutes luckyrouter traceOf parseJson
  parseUrlencoded mime_lookup fs cwd __dirname).

Lemma apiHitsBy_cons client tr trs :
  apiHitsBy client (tr :: trs)
  = (if countedFor client tr then 1 else 0) + apiHitsBy client trs.
Proof. reflexivity. Qed.

(** X15. The limiter counts each client apart: among requests of any
    clients on any paths, a request on a path under [/api] by a client
    that has made 500 counted requests in its running window is answered
    429; the requests of other clients and the requests outside [/api]
    in between change nothing to that. *)
Theorem limiter_counts_each_client_apart (client : string)
        (trs : list (Z * request)) (w : world) (k resetTime : Z)
        (i : nat) (tr : Z * request) :
  exitCode w = None ->
  hits w !! client = Some (k, resetTime) ->
  (forall tr', In tr' trs -> ip tr'.2 = client -> tr'.1 < resetTime) ->
  trs !! i = Some tr ->
  countedFor client tr = true ->
  500 <= k + apiHitsBy client (take i trs) ->
  exists sent,
    (thisServe (arrivals trs) w).2 !! i = Some (Some (Sent sent))
    /\ statusCode sent = 429 /\ body sent = Json tooManyRequests.
Proof.
  revert w k i. induction trs as [|[t0 r0] trs IH]; intros w k i Hrun Hh Hts Hi Hc Hk.
  - destruct i; discriminate.
  - cbn [arrivals map serve fst snd]. unfold step. rewrite Hrun.
    assert (Hh' : hits (setNow t0 w) !! client = Some (k, resetTime)) by exact Hh.
    pose proof (exitAfter r0 (setNow t0 w)) as Hexit.
    pose proof (hitsAfter r0 (setNow t0 w)) as Hhits.
    pose proof (blocks r0 (setNow t0 w) k resetTime) as Hblock.
    destruct (thisHandle r0 (setNow t0 w)) as [w1 r1]. cbn [fst snd] in *.
    fold (arrivals trs).
    destruct (thisServe (arrivals trs) w1) as [w2 rs] eqn:Hrest.
    cbn [snd]. destruct i as [|i].
    + injection Hi as <-. unfold countedFor in Hc. cbn [snd] in Hc.
      apply andb_true_iff in Hc as [Hip Hm]. apply String.eqb_eq in Hip.
      change (apiHitsBy client (take 0 ((t0, r0) :: trs))) with 0 in Hk.
      destruct Hblock as (sent & -> & H1 & H2 & _);
        [exact Hm | rewrite Hip; exact Hh'
         | apply (Hts (t0, r0)); [left; reflexivity | exact Hip] | lia |].
      exists sent. auto.
    + cbn [take] in Hk. rewrite apiHitsBy_cons in Hk.
      assert (Hexit' : exitCode w1 = None) by (rewrite Hexit; exact Hrun).
      assert (Hts' : forall tr', In tr' trs -> ip tr'.2 = client -> tr'.1 < resetTime).
      { intros tr' Hin. apply Hts. right. exact Hin. }
      assert (Hstore : hits w1 !! client
                       = Some (k + (if countedFor client (t0, r0) then 1 else 0),
                               resetTime)).
      { rewrite Hhits. unfold countedFor. cbn [snd].
        destruct (String.eqb_spec (ip r0) client) as [Hip|Hip];
          destruct (Express.mounted "/api" (path r0)); cbn [andb].
        - rewrite Hip, lookup_insert_eq. rewrite <- Hip.
          rewrite (increment_in_window _ _ _ k resetTime);
            [reflexivity | rewrite Hip; exact Hh'
             | apply (Hts (t0, r0)); [left; reflexivity | exact Hip]].
        - rewrite Z.add_0_r. exact Hh.
        - rewrite lookup_insert_ne by exact Hip. rewrite Z.add_0_r. exact Hh.
        - rewrite Z.add_0_r. exact Hh. }
      destruct (IH w1 _ i Hexit' Hstore Hts' Hi Hc ltac:(lia)) as (sent & Hsent & H).
      rewrite Hrest in Hsent. exists sent. split; [exact Hsent|exact H].
Qed.

Lemma frontend_layers_are_routes routes mount mw :
  ~ In (Use mount mw) (map frontendLayer routes).
Proof.
  induction routes as [|r routes IH]; intros Hin; [exact Hin|].
  destruct Hin as [Heq|Hin]; [discriminate Heq|exact (IH Hin)].
Qed.

Lemma use_layers_below_api mount mw p :
  In (Use mount mw) thisApp -> mount <> "/" ->
  Express.mounted mount p = true -> Express.mounted "/api" p = true.
Proof.
  intros Hin Hroot Hm.
  destruct (Express.mounted "/api" p) eqn:Hapi; [reflexivity|].
  unfold app in Hin. apply in_app_or in Hin as [Hin|Hin];
    [|exfalso; exact (frontend_layers_are_routes _ _ _ Hin)].
  cbn [In] in Hin.
  repeat (destruct Hin as [Heq|Hin];
          [ first [ discriminate Heq
                  | injection Heq as <- _;
                    first [ congruence
                          | match type of Hm with
                            | Express.mounted ?m _ = true =>
                                rewrite (mounted_below_api m p eq_refl Hapi) in Hm
                            end;
                            discriminate Hm ] ] | ]).
  destruct Hin.
Qed.

(** X16. Every middleware the entry point mounts on a path of its own,
    and the status route, lie behind the limiter: a request any of them
    would see, whatever the letter case of its path, is a request the
    limiter sees first; so for a client over its limit none of them runs,
    and the answer is 429. *)
Theorem api_routes_are_behind_the_limiter (mount : string) (mw : middleware)
        (req : request) (w : world) (n resetTime : Z) :
  (In (Use mount mw) thisApp /\ mount <> "/"
   /\ Express.mounted mount (path req) = true)
  \/ Express.routeMatches "/api/status" (path req) = true ->
  Express.mounted "/api" (path req) = true
  /\ (hits w !! ip req = Some (n, resetTime) -> now w < resetTime -> 500 <= n ->
      exists sent,
        (thisHandle req w).2 = Sent sent
        /\ statusCode sent = 429 /\ body sent = Json tooManyRequests).
Proof.
  intros Hseen.
  assert (Hm : Express.mounted "/api" (path req) = true).
  { destruct Hseen as [(Hin & Hroot & Hmount)|Hstatus].
    - exact (use_layers_below_api mount mw (path req) Hin Hroot Hmount).
    - destruct (Express.mounted "/api" (path req)) eqn:Hapi; [reflexivity|].
      rewrite (status_route_below_api _ Hapi) in Hstatus. discriminate. }
  split; [exact Hm|].
  intros Hh Hw Hn.
  destruct (blocks req w n resetTime Hm Hh Hw Hn) as (sent & H1 & H2 & H3 & _).
  exists sent. auto.
Qed.

End ApplicationFlow.

(** ** Start-up *)

Section StartupFacts.
Import NodePath PathShape Startup.

(** X17. At start-up the directory [temp] beside the entry file is
    created when nothing is at that path: afterwards the path exists,
    every other path is as before, whatever was already there is left
    alone, and running the step again changes nothing. *)
Theorem temp_directory_is_ensured (fs : gmap string node) (dir : string) :
  canonical dir = true ->
  fs !! dir = Some Dir ->
  exists fs',
    ensureTempDir dir fs = Some fs'
    /\ existsSync fs' (under dir ["temp"]) = true
    /\ (forall p, p <> under dir ["temp"] -> fs' !! p = fs !! p)
    /\ (forall n, fs !! under dir ["temp"] = Some n -> fs' = fs)
    /\ (fs !! under dir ["temp"] = None -> fs' !! under dir ["temp"] = Some Dir)
    /\ ensureTempDir dir fs' = Some fs'.
Proof.
  intros Hdir Hparent.
  assert (Htemp : tempDir dir = under dir ["temp"]).
  { unfold tempDir. apply join_name; [exact Hdir|reflexivity]. }
  assert (Hup : dirname (under dir ["temp"]) = dir).
  { apply (dirname_under dir [] "temp"); [exact Hdir|reflexivity|reflexivity]. }
  unfold ensureTempDir, mkdirSync. rewrite Htemp, Hup, Hparent.
  destruct (fs !! under dir ["temp"]) as [n|] eqn:Hthere.
  - rewrite (existsSync_true _ _ _ Hthere). cbn [negb].
    exists fs. rewrite (existsSync_true _ _ _ Hthere).
    repeat split; auto. discriminate.
  - rewrite (existsSync_false _ _ Hthere). cbn [negb].
    exists (<[under dir ["temp"] := Dir]> fs).
    assert (Hnow : existsSync (<[under dir ["temp"] := Dir]> fs) (under dir ["temp"])
                   = true).
    { eapply existsSync_true. apply lookup_insert_eq. }
    rewrite Hnow. cbn [negb].
    split; [reflexivity|]. split; [reflexivity|]. split.
    { intros p Hp. apply lookup_insert_ne. congruence. }
    split; [discriminate|]. split; [intros _; apply lookup_insert_eq|reflexivity].
Qed.

End StartupFacts.

(** ** The further properties on the deployment *)

Section ExtraSamples.
Import JsString NodePath Vite PathShape Server Flow Startup.

Lemma static_route_serves_named_file_witness :
  staticRoute Sample.pngOnly Deployment.site "/srv/app/user_dist" "" "/logo.svg"
              freshResponse
  = Responded (res_sendFile "/srv/app/user_dist/logo.svg"
                 (res_set "Content-Type" "image/svg+xml" freshResponse))
  /\ staticRoute Sample.pngOnly Deployment.site "/srv/app/user_dist" "" "/docs"
                 freshResponse
     = Responded (res_sendFile "/srv/app/user_dist/docs/index.html"
                    (res_set "Content-Type" "text/html" freshResponse)).
Proof.
  split.
  - apply (proj2 (static_route_serves_named_file Sample.pngOnly Deployment.site
                    "/srv/app/user_dist" "" [] "logo.svg" freshResponse
                    eq_refl eq_refl eq_refl eq_refl) "<svg/>").
    + left. vm_compute. discriminate.
    + reflexivity.
    + reflexivity.
  - apply (proj1 (static_route_serves_named_file Sample.pngOnly Deployment.site
                    "/srv/app/user_dist" "" [] "docs" freshResponse
                    eq_refl eq_refl eq_refl eq_refl)
             "<!doctype html><title>docs</title>");
      reflexivity.
Defined.

Lemma spa_fallback_is_beside_the_path_witness :
  staticRoute Sample.noMime Deployment.site "/srv/app/user_dist" "" "/about"
              freshResponse
  = Responded (res_sendFile "/srv/app/user_dist/index.html"
                 (res_set "Content-Type" "text/html" freshResponse))
  /\ staticRoute Sample.noMime Deployment.site "/srv/app/user_dist" ""
                 "/listings/42" freshResponse
     = Responded (notFound freshResponse).
Proof.
  split.
  - apply (proj1 (spa_fallback_is_beside_the_path Sample.noMime Deployment.site
                    "/srv/app/user_dist" "" [] "about" freshResponse
                    eq_refl eq_refl eq_refl eq_refl eq_refl eq_refl)
             "<!doctype html><title>site</title>").
    reflexivity.
  - apply (proj2 (spa_fallback_is_beside_the_path Sample.noMime Deployment.site
                    "/srv/app/user_dist" "" ["listings"] "42" freshResponse
                    eq_refl eq_refl eq_refl eq_refl eq_refl eq_refl)).
    reflexivity.
Defined.

Lemma assets_route_serves_named_file_witness :
  assetsRoute Sample.noMime Deployment.site "/srv/app/user_dist" ""
              "/assets/app.js" freshResponse
  = Responded (res_sendFile "/srv/app/user_dist/assets/app.js"
                 (res_set "Content-Type" "application/javascript" freshResponse))
  /\ assetsRoute Sample.noMime Deployment.site "/srv/app/admin_dist" "/admin"
                 "/admin/assets/chunks/vendor.js" freshResponse
     = Responded (notFound freshResponse).
Proof.
  split.
  - apply (proj1 (assets_route_serves_named_file Sample.noMime Deployment.site
                    "/srv/app/user_dist" "" [] "app.js" freshResponse
                    eq_refl eq_refl eq_refl)
             "console.log(1)");
      reflexivity.
  - apply (proj2 (assets_route_serves_named_file Sample.noMime Deployment.site
                    "/srv/app/admin_dist" "/admin" ["chunks"] "vendor.js"
                    freshResponse eq_refl eq_refl eq_refl)).
    reflexivity.
Defined.

Lemma dot_dot_reaches_outside_the_build_witness :
  get Sample.noMime Deployment.site "/" (frontendOptions "/srv/app") "/../server.js"
  = Some (res_sendFile "/srv/app/server.js"
            (res_set "Content-Type" "application/javascript" freshResponse))
  /\ get Sample.noMime Deployment.site "/" (frontendOptions "/srv/app")
         "/assets/../../server.js"
     = Some (res_sendFile "/srv/app/server.js"
               (res_set "Content-Type" "application/javascript" freshResponse))
  /\ transmitted Deployment.site
       (res_sendFile "/srv/app/server.js"
          (res_set "Content-Type" "application/javascript" freshResponse))
     = Some "import express from 'express';"
  /\ startsWith "/srv/app/server.js" "/srv/app/user_dist/" = false.
Proof.
  apply (dot_dot_reaches_outside_the_build Sample.noMime Deployment.site "/"
           "/srv/app" "server.js" "import express from 'express';");
    reflexivity.
Defined.

Lemma one_name_requests_fall_back_to_the_user_index_witness :
  exists sent,
    get Sample.noMime Deployment.site "/" (frontendOptions "/srv/app") "/admin"
    = Some sent
    /\ statusCode sent = 200
    /\ headers sent !! "Content-Type" = Some "text/html"
    /\ body sent = FileAt "/srv/app/user_dist/index.html"
    /\ transmitted Deployment.site sent = Some "<!doctype html><title>site</title>".
Proof.
  apply (proj1 (one_name_requests_fall_back_to_the_user_index Sample.noMime
                  Deployment.site "/" "/srv/app" "admin"
                  eq_refl eq_refl eq_refl eq_refl eq_refl)
           "<!doctype html><title>site</title>").
  reflexivity.
Defined.

Lemma admin_names_fall_back_to_the_admin_index_witness :
  exists sent,
    get Sample.noMime Deployment.site "/" (frontendOptions "/srv/app")
        "/admin/users"
    = Some sent
    /\ statusCode sent = 200
    /\ headers sent !! "Content-Type" = Some "text/html"
    /\ body sent = FileAt "/srv/app/admin_dist/index.html"
    /\ transmitted Deployment.site sent = Some "<!doctype html><title>admin</title>".
Proof.
  apply (proj1 (admin_names_fall_back_to_the_admin_index Sample.noMime
                  Deployment.site "/" "/srv/app" "users"
                  eq_refl eq_refl eq_refl eq_refl eq_refl)
           "<!doctype html><title>admin</title>").
  reflexivity.
Defined.

Lemma build_roots_serve_their_index_witness :
  get Sample.noMime Deployment.site "/" (frontendOptions "/srv/app") "/"
  = Some (res_sendFile "/srv/app/user_dist/index.html"
            (res_set "Content-Type" "text/html" freshResponse))
  /\ get Sample.noMime Deployment.site "/" (frontendOptions "/srv/app") "/admin/"
     = Some (res_sendFile "/srv/app/admin_dist/index.html"
               (res_set "Content-Type" "text/html" freshResponse)).
Proof.
  split.
  - apply (proj1 (build_roots_serve_their_index Sample.noMime Deployment.site "/"
                    "/srv/app" eq_refl)
             "<!doctype html><title>site</title>" eq_refl).
  - apply (proj2 (build_roots_serve_their_index Sample.noMime Deployment.site "/"
                    "/srv/app" eq_refl)
             "<!doctype html><title>admin</title>" eq_refl).
Defined.

Lemma build_directories_witness :
  userDistFullPath "/" (frontendOptions "/srv/app") = "/srv/app/user_dist"
  /\ adminDistFullPath "/" (frontendOptions "/srv/app") = "/srv/app/admin_dist"
  /\ userDistFullPath "/srv/app" (mkOptions None None None None)
     = "/srv/app/user_dist".
Proof.
  destruct (build_directories "/srv/app" "/" eq_refl) as [[H1 H2] [H3 _]].
  split; [exact H1|]. split; [exact H2|exact H3].
Defined.

Lemma outside_api_neither_limiter_nor_helmet_witness :
  Server.handle (res_set "X-Frame-Options" "SAMEORIGIN") Deployment.allowOrigin
    Sample.passOn Sample.passOn Sample.passOn Sample.passOn Sample.passOn
    Sample.passOn Sample.passOn Sample.passOn Sample.passOn Sample.passOn
    Sample.noTrace Sample.parses Sample.parses Sample.noMime Deployment.site
    "/srv/app" "/srv/app" (Sample.request "GET" "/logo.svg")
    (setHits (hits Sample.exhausted) (Sample.started None))
  = (setHits (hits Sample.exhausted)
       (Deployment.handle Sample.parses (Sample.request "GET" "/logo.svg")
          (Sample.started None)).1,
     (Deployment.handle Sample.parses (Sample.request "GET" "/logo.svg")
        (Sample.started None)).2).
Proof.
  apply (outside_api_neither_limiter_nor_helmet Sample.noHeaders
           Deployment.allowOrigin Sample.passOn Sample.passOn Sample.passOn
           Sample.passOn Sample.passOn Sample.passOn Sample.passOn Sample.passOn
           Sample.passOn Sample.passOn Sample.noTrace Sample.parses Sample.parses
           Sample.noMime Deployment.site "/srv/app" "/srv/app"
           (res_set "X-Frame-Options" "SAMEORIGIN") (hits Sample.exhausted)
           (Sample.request "GET" "/logo.svg") (Sample.started None)).
  reflexivity.
Defined.

Lemma errors_outside_api_reach_no_handler_witness :
  Deployment.handle Deployment.malformed
    (Sample.upload "/contact" "application/json" 17) (Sample.started None)
  = (Sample.started None,
     Unhandled {| status := Some 400; message := Some "Unexpected token";
                  stack := None |} freshResponse).
Proof.
  apply (proj2 (errors_outside_api_reach_no_handler Sample.noHeaders
                  Deployment.allowOrigin Sample.passOn Sample.passOn Sample.passOn
                  Sample.passOn Sample.passOn Sample.passOn Sample.passOn
                  Sample.passOn Sample.passOn Sample.passOn Sample.noTrace
                  Deployment.malformed Sample.parses Sample.noMime Deployment.site
                  "/srv/app" "/srv/app"
                  (Sample.upload "/contact" "application/json" 17)
                  (Sample.started None) eq_refl) 17);
    reflexivity || (vm_compute; discriminate).
Defined.

Lemma rate_limit_window_restarts_witness :
  hits (Deployment.handle Sample.parses (Sample.request "GET" "/api/status")
          (setNow 1700000001000 Sample.exhausted)).1 !! "203.0.113.7"
  = Some (1, 1700000901000).
Proof.
  apply (proj2 (rate_limit_window_restarts Sample.noHeaders
                  Deployment.allowOrigin Sample.passOn Sample.passOn Sample.passOn
                  Sample.passOn Sample.passOn Sample.passOn Sample.passOn
                  Sample.passOn Sample.passOn Sample.passOn Sample.noTrace
                  Sample.parses Sample.parses Sample.noMime Deployment.site
                  "/srv/app" "/srv/app" (Sample.request "GET" "/api/status")
                  (setNow 1700000001000 Sample.exhausted) freshResponse
                  ltac:(vm_compute; discriminate))).
  reflexivity.
Defined.

Lemma limiter_counts_each_client_apart_witness :
  exists sent,
    (Deployment.serve
       (arrivals [(1700000000100, Deployment.visitor "/api/status");
                  (1700000000200, Sample.request "GET" "/api/status")])
       Sample.exhausted).2 !! 1%nat
    = Some (Some (Sent sent))
    /\ statusCode sent = 429 /\ body sent = Json tooManyRequests.
Proof.
  apply (limiter_counts_each_client_apart Sample.noHeaders
           Deployment.allowOrigin Sample.passOn Sample.passOn Sample.passOn
           Sample.passOn Sample.passOn Sample.passOn Sample.passOn Sample.passOn
           Sample.passOn Sample.passOn Sample.noTrace Sample.parses Sample.parses
           Sample.noMime Deployment.site "/srv/app" "/srv/app" "203.0.113.7"
           [(1700000000100, Deployment.visitor "/api/status");
            (1700000000200, Sample.request "GET" "/api/status")]
           Sample.exhausted 500 1700000001000 1%nat
           (1700000000200, Sample.request "GET" "/api/status")).
  - reflexivity.
  - reflexivity.
  - intros tr' [<-|[<-|[]]] _; reflexivity.
  - reflexivity.
  - reflexivity.
  - vm_compute. discriminate.
Defined.

Lemma requests_outside_api_go_to_the_dispatcher_witness :
  Deployment.handle Sample.parses (Sample.request "GET" "/logo.svg")
    (Sample.started None)
  = (Sample.started None,
     Sent (res_sendFile "/srv/app/user_dist/logo.svg"
             (res_set "Content-Type" "image/svg+xml"
                (res_set "Access-Control-Allow-Credentials" "true"
                   freshResponse))))
  /\ Deployment.handle Sample.parses
       (Sample.upload "/contact" "application/json" 52428800)
       (Sample.started None)
     = (Sample.started None,
        Unmatched (res_set "Access-Control-Allow-Credentials" "true" freshResponse)).
Proof.
  split.
  - apply (proj1 (requests_outside_api_go_to_the_dispatcher Sample.noHeaders
                    Deployment.allowOrigin Sample.passOn Sample.passOn Sample.passOn
                    Sample.passOn Sample.passOn Sample.passOn Sample.passOn
                    Sample.passOn Sample.passOn Sample.passOn Sample.noTrace
                    Sample.parses Sample.parses Sample.noMime Deployment.site
                    "/srv/app" "/srv/app" (Sample.request "GET" "/logo.svg")
                    (Sample.started None) _ eq_refl eq_refl I eq_refl) eq_refl);
      vm_compute; reflexivity.
  - assert (Hreadable : readable Sample.parses Sample.parses
                          (Sample.upload "/contact" "application/json" 52428800)).
    { split; [vm_compute; discriminate|split; reflexivity]. }
    apply (proj2 (requests_outside_api_go_to_the_dispatcher Sample.noHeaders
                    Deployment.allowOrigin Sample.passOn Sample.passOn Sample.passOn
                    Sample.passOn Sample.passOn Sample.passOn Sample.passOn
                    Sample.passOn Sample.passOn Sample.passOn Sample.noTrace
                    Sample.parses Sample.parses Sample.noMime Deployment.site
                    "/srv/app" "/srv/app"
                    (Sample.upload "/contact" "application/json" 52428800)
                    (Sample.started None) _ eq_refl eq_refl Hreadable eq_refl)).
    + reflexivity.
    + vm_compute. discriminate.
Defined.

Lemma unknown_api_endpoint_witness :
  exists w' res',
    Deployment.handle Sample.parses (Sample.request "GET" "/api/unknown")
      (Sample.started None)
    = (w', Sent (res_json [("error", JStr "API endpoint not found")]
                          (res_status 404 res'))).
Proof.
  apply (unknown_api_endpoint Sample.noHeaders
           Deployment.allowOrigin Sample.passOn Sample.passOn Sample.passOn
           Sample.passOn Sample.passOn Sample.passOn Sample.passOn Sample.passOn
           Sample.passOn Sample.passOn Sample.noTrace Sample.parses Sample.parses
           Sample.noMime Deployment.site "/srv/app" "/srv/app"
           (Sample.request "GET" "/api/unknown") (Sample.started None));
    try reflexivity;
    try (vm_compute; discriminate);
    intros res; eexists; reflexivity.
Defined.

Lemma temp_directory_is_ensured_witness :
  exists fs',
    ensureTempDir "/srv/app" Deployment.site = Some fs'
    /\ existsSync fs' "/srv/app/temp" = true
    /\ fs' !! "/srv/app/server.js" = Deployment.site !! "/srv/app/server.js"
    /\ ensureTempDir "/srv/app" fs' = Some fs'.
Proof.
  destruct (temp_directory_is_ensured Deployment.site "/srv/app" eq_refl eq_refl)
    as (fs' & H1 & H2 & H3 & _ & _ & H6).
  exists fs'. split; [exact H1|]. split; [exact H2|]. split; [|exact H6].
  apply H3. discriminate.
Defined.

Lemma api_routes_are_behind_the_limiter_witness :
  Express.mounted "/api" "/API/Users/login" = true
  /\ exists sent,
      (Deployment.handle Sample.parses (Sample.request "POST" "/API/Users/login")
         Sample.exhausted).2
      = Sent sent
      /\ statusCode sent = 429 /\ body sent = Json tooManyRequests.
Proof.
  destruct (api_routes_are_behind_the_limiter Sample.noHeaders
              Deployment.allowOrigin Sample.passOn Sample.passOn Sample.passOn
              Sample.passOn Sample.passOn Sample.passOn Sample.passOn
              Sample.passOn Sample.passOn Sample.passOn Sample.noTrace
              Sample.parses Sample.parses Sample.noMime Deployment.site
              "/srv/app" "/srv/app" "/api/users" (pure Sample.passOn)
              (Sample.request "POST" "/API/Users/login") Sample.exhausted
              500 1700000001000) as [Hm Hrefused].
  - left. split; [|split; [discriminate|reflexivity]].
    apply in_or_app. left. cbn [In]. do 8 right. left. reflexivity.
  - split; [exact Hm|]. apply Hrefused; [reflexivity|reflexivity|].
    vm_compute. discriminate.
Defined.

End ExtraSamples.
